(** * Centec Mars PHY driver (mars.c): register access, link state and
      Wake-on-LAN, as a shallow embedding.

    The repository holds two revisions of [mars.c].  The functions that are
    textually identical in both ([mars_ext_read], [mars_ext_write],
    [mars_select_reg_space], [mars_wol_en_cfg], [mars_get_wol]) are embedded
    once; the functions that differ live in [Module Rev1] (the earlier
    revision, plain [phy_read]/[phy_write]) and [Module Rev2] (the later
    revision, page-banked accessors and the two globals [g_port_type] and
    [g_port_status]).

    C [int] values are modelled as [Z]; every value the driver handles is
    either a 16-bit register value or a small negative errno, so no 32-bit
    wrap-around can occur and none is written out.  A [u16] parameter is
    modelled by the truncation [u16].

    The driver runs in a [world]: the chip (a register file with the
    latch, the extended registers and the two banks of directly addressed
    registers), the fate of the coming bus transactions, the trace of the
    transactions attempted so far, the device descriptor and the two
    globals.  Driver functions are state transformers [M Z] returning the
    C result, a negative value being an errno. *)

From Stdlib Require Import ZArith List Lia Bool.
From Stdlib.Strings Require Import Byte.
From stdpp Require Import base gmap.
Import ListNotations.

Local Open Scope Z_scope.

(** ** Constants *)

(** Constants defined by [mars.c] itself. *)
Definition CTC_PHY_REG_SPACE : Z := 0.
Definition CTC_SDS_REG_SPACE : Z := 1.
Definition CTC_MARS_PAGE_REG : Z := 0xa000.
Definition CTC_MARS_CHIP_CFG_REG : Z := 0xa001.
Definition CTC_PHY_GLB_DISABLE : Z := 0.
Definition CTC_PHY_GLB_ENABLE : Z := 1.
Definition CTC_MARS_SSREG : Z := 0x11.
Definition CTC_MARS_INTR_REG : Z := 0x12.
Definition CTC_MARS_WOL_INTR : Z := 0x40.               (* BIT(6) *)
Definition CTC_MARS_MAGIC_PACKET_MAC_ADDR2 : Z := 0xa007.
Definition CTC_MARS_MAGIC_PACKET_MAC_ADDR1 : Z := 0xa008.
Definition CTC_MARS_MAGIC_PACKET_MAC_ADDR0 : Z := 0xa009.
Definition CTC_MARS_WOL_CFG_REG : Z := 0xa00a.
Definition CTC_MARS_WOL_TYPE : Z := 0x1.                (* BIT(0) *)
Definition CTC_MARS_WOL_EN : Z := 0x8.                  (* BIT(3) *)
Definition CTC_MARS_WOL_INTR_SEL : Z := 0x40.           (* BIT(6) *)
Definition CTC_MARS_WOL_WIDTH1 : Z := 0x2.              (* BIT(1) *)
Definition CTC_MARS_WOL_WIDTH2 : Z := 0x4.              (* BIT(2) *)

(** [enum mars_port_type_e] *)
Definition MARS_PORT_TYPE_UTP : Z := 0.
Definition MARS_PORT_TYPE_FIBER : Z := 1.
Definition MARS_PORT_TYPE_COMBO : Z := 2.
Definition MARS_PORT_TYPE_MAX : Z := 3.

(** [enum mars_wol_type_e] *)
Definition MARS_WOL_TYPE_LEVEL : Z := 0.
Definition MARS_WOL_TYPE_PULSE : Z := 1.
Definition MARS_WOL_TYPE_MAX : Z := 2.

(** [enum mars_wol_width_e] *)
Definition MARS_WOL_WIDTH_84MS : Z := 0.
Definition MARS_WOL_WIDTH_168MS : Z := 1.
Definition MARS_WOL_WIDTH_336MS : Z := 2.
Definition MARS_WOL_WIDTH_672MS : Z := 3.
Definition MARS_WOL_WIDTH_MAX : Z := 4.

(** Constants of the Linux headers that [mars.c] includes ([linux/mii.h],
    [linux/ethtool.h]).  The headers are not part of the repository; the
    values are the ones fixed by the kernel ABI and IEEE 802.3 clause 22. *)
Definition MII_BMCR : Z := 0x00.
Definition MII_BMSR : Z := 0x01.
Definition MII_ADVERTISE : Z := 0x04.
Definition MII_LPA : Z := 0x05.
Definition MII_CTRL1000 : Z := 0x09.

Definition BMCR_SPEED1000 : Z := 0x0040.
Definition BMCR_FULLDPLX : Z := 0x0100.
Definition BMCR_ANRESTART : Z := 0x0200.
Definition BMCR_ISOLATE : Z := 0x0400.
Definition BMCR_PDOWN : Z := 0x0800.
Definition BMCR_ANENABLE : Z := 0x1000.
Definition BMCR_SPEED100 : Z := 0x2000.
Definition BMCR_LOOPBACK : Z := 0x4000.

Definition BMSR_LSTATUS : Z := 0x0004.
Definition BMSR_ESTATEN : Z := 0x0100.

Definition ADVERTISE_10HALF : Z := 0x0020.
Definition ADVERTISE_10FULL : Z := 0x0040.
Definition ADVERTISE_100HALF : Z := 0x0080.
Definition ADVERTISE_100FULL : Z := 0x0100.
Definition ADVERTISE_100BASE4 : Z := 0x0200.
Definition ADVERTISE_PAUSE_CAP : Z := 0x0400.
Definition ADVERTISE_PAUSE_ASYM : Z := 0x0800.
Definition ADVERTISE_ALL : Z := 0x01e0.
Definition ADVERTISE_1000FULL : Z := 0x0200.
Definition ADVERTISE_1000HALF : Z := 0x0100.

Definition LPA_PAUSE_CAP : Z := 0x0400.
Definition LPA_PAUSE_ASYM : Z := 0x0800.

Definition ADVERTISED_10baseT_Half : Z := 0x0001.
Definition ADVERTISED_10baseT_Full : Z := 0x0002.
Definition ADVERTISED_100baseT_Half : Z := 0x0004.
Definition ADVERTISED_100baseT_Full : Z := 0x0008.
Definition ADVERTISED_1000baseT_Half : Z := 0x0010.
Definition ADVERTISED_1000baseT_Full : Z := 0x0020.
Definition ADVERTISED_Pause : Z := 0x2000.
Definition ADVERTISED_Asym_Pause : Z := 0x4000.
Definition SUPPORTED_1000baseT_Half : Z := 0x0010.
Definition SUPPORTED_1000baseT_Full : Z := 0x0020.

Definition SPEED_10 : Z := 10.
Definition SPEED_100 : Z := 100.
Definition SPEED_1000 : Z := 1000.
Definition DUPLEX_HALF : Z := 0.
Definition DUPLEX_FULL : Z := 1.
Definition AUTONEG_DISABLE : Z := 0.
Definition AUTONEG_ENABLE : Z := 1.
Definition WAKE_MAGIC : Z := 0x20.                      (* 1 << 5 *)

(** Further constants of [mars.c], used by the interrupt and
    initialisation entry points. *)
Definition CTC_PHY_IMASK : Z := 0x12.
Definition CTC_PHY_IEVENT : Z := 0x13.
Definition CTC_PHY_IMASK_INIT : Z := 0x6c00.
Definition CTC_PHY_IMASK_CLEAR : Z := 0x0000.

(** Further constants of the Linux headers ([linux/mii.h],
    [linux/ethtool.h], [linux/phy.h]). *)
Definition MII_ESTATUS : Z := 0x0f.
Definition BMSR_ANEGCAPABLE : Z := 0x0008.
Definition BMSR_10HALF : Z := 0x0800.
Definition BMSR_10FULL : Z := 0x1000.
Definition BMSR_100HALF : Z := 0x2000.
Definition BMSR_100FULL : Z := 0x4000.
Definition ESTATUS_1000_THALF : Z := 0x1000.
Definition ESTATUS_1000_TFULL : Z := 0x2000.
Definition SUPPORTED_10baseT_Half : Z := 0x0001.
Definition SUPPORTED_10baseT_Full : Z := 0x0002.
Definition SUPPORTED_100baseT_Half : Z := 0x0004.
Definition SUPPORTED_100baseT_Full : Z := 0x0008.
Definition SUPPORTED_Autoneg : Z := 0x0040.
Definition SUPPORTED_TP : Z := 0x0080.
Definition SUPPORTED_AUI : Z := 0x0100.
Definition SUPPORTED_MII : Z := 0x0200.
Definition SUPPORTED_FIBRE : Z := 0x0400.
Definition SUPPORTED_BNC : Z := 0x0800.
Definition SUPPORTED_Pause : Z := 0x2000.
Definition SUPPORTED_Asym_Pause : Z := 0x4000.
Definition PHY_INTERRUPT_DISABLED : Z := 0x0.
Definition PHY_INTERRUPT_ENABLED : Z := 0x80000000.

(** A C condition [if (x)] on an [int]. *)
Definition truthy (x : Z) : bool := negb (x =? 0).

(** Conversion of an [int] argument to a [u16] parameter. *)
Definition u16 (v : Z) : Z := Z.land v 0xffff.

(** [x & ~m] *)
Definition clear_bits (x m : Z) : Z := Z.land x (Z.lnot m).

(** ** The chip behind the management bus

    The driver only talks to the chip through [phy_read] and [phy_write]
    of the host framework.  The chip is modelled as the register file the
    spec describes: register 0x1e latches an extended-register number,
    register 0x1f accesses the extended register so latched, extended
    register 0xa000 selects the register space (bit 1 clear: PHY space,
    bit 1 set: SerDes space), and every other directly addressed register
    is banked by the selected space. *)

Inductive space := PRIMARY | SECONDARY.

Record chip := mk_chip {
  latch : Z;                 (* register 0x1e *)
  ext : gmap Z Z;            (* extended registers, reached through 0x1f *)
  phy_regs : gmap Z Z;       (* directly addressed registers, PHY space *)
  sds_regs : gmap Z Z        (* directly addressed registers, SerDes space *)
}.

Definition reg (m : gmap Z Z) (r : Z) : Z := default 0 (m !! r).

Definition page_reg (c : chip) : Z := reg (ext c) CTC_MARS_PAGE_REG.

Definition selected_space (c : chip) : space :=
  if Z.testbit (page_reg c) 1 then SECONDARY else PRIMARY.

Definition bank (c : chip) (s : space) : gmap Z Z :=
  match s with PRIMARY => phy_regs c | SECONDARY => sds_regs c end.

Definition chip_read (c : chip) (regnum : Z) : Z :=
  if regnum =? 0x1e then latch c
  else if regnum =? 0x1f then reg (ext c) (latch c)
  else reg (bank c (selected_space c)) regnum.

Definition chip_write (c : chip) (regnum val : Z) : chip :=
  if regnum =? 0x1e then mk_chip val (ext c) (phy_regs c) (sds_regs c)
  else if regnum =? 0x1f then
    mk_chip (latch c) (<[latch c := val]> (ext c)) (phy_regs c) (sds_regs c)
  else
    match selected_space c with
    | PRIMARY =>
        mk_chip (latch c) (ext c) (<[regnum := val]> (phy_regs c)) (sds_regs c)
    | SECONDARY =>
        mk_chip (latch c) (ext c) (phy_regs c) (<[regnum := val]> (sds_regs c))
    end.

(** ** The host framework: device descriptor and bus primitives *)

(** The fields of [struct phy_device] the driver uses.  [supported] and
    [advertising] are the legacy 32-bit ethtool masks (the branch of the
    source for kernels before 5.0; later kernels convert to the same
    legacy mask before use).  [dev_addr] is [attached_dev->dev_addr]. *)
Record phy_device := mk_phydev {
  autoneg : Z;
  speed : Z;
  duplex : Z;
  pause : Z;
  asym_pause : Z;
  link : Z;
  supported : Z;
  advertising : Z;
  dev_addr : list byte
}.

(** One attempted bus transaction, with the register space that was
    selected when it was issued. *)
Inductive bus_event :=
  | EvRead (s : space) (regnum : Z)
  | EvWrite (s : space) (regnum val : Z).

(** The state the driver runs in.  [bus_outcomes] is the fate of the
    coming bus transactions, one entry per transaction: a negative entry
    makes the transaction fail with that errno and leaves the chip
    untouched, any other entry (and an exhausted list) lets it succeed.
    [bus_trace] records every attempted transaction, newest first. *)
Record world := mk_world {
  the_chip : chip;
  bus_outcomes : list Z;
  bus_trace : list bus_event;
  phydev : phy_device;
  g_port_type : Z;
  g_port_status : Z
}.

Definition set_chip (c : chip) (w : world) : world :=
  mk_world c (bus_outcomes w) (bus_trace w) (phydev w)
           (g_port_type w) (g_port_status w).
Definition set_outcomes (o : list Z) (w : world) : world :=
  mk_world (the_chip w) o (bus_trace w) (phydev w)
           (g_port_type w) (g_port_status w).
Definition log_event (e : bus_event) (w : world) : world :=
  mk_world (the_chip w) (bus_outcomes w) (e :: bus_trace w) (phydev w)
           (g_port_type w) (g_port_status w).
Definition set_phydev (d : phy_device) (w : world) : world :=
  mk_world (the_chip w) (bus_outcomes w) (bus_trace w) d
           (g_port_type w) (g_port_status w).
Definition set_port_type (t : Z) (w : world) : world :=
  mk_world (the_chip w) (bus_outcomes w) (bus_trace w) (phydev w)
           t (g_port_status w).
Definition set_port_status (t : Z) (w : world) : world :=
  mk_world (the_chip w) (bus_outcomes w) (bus_trace w) (phydev w)
           (g_port_type w) t.

Definition set_pause (v : Z) (d : phy_device) : phy_device :=
  mk_phydev (autoneg d) (speed d) (duplex d) v (asym_pause d) (link d)
            (supported d) (advertising d) (dev_addr d).
Definition set_asym_pause (v : Z) (d : phy_device) : phy_device :=
  mk_phydev (autoneg d) (speed d) (duplex d) (pause d) v (link d)
            (supported d) (advertising d) (dev_addr d).
Definition set_speed (v : Z) (d : phy_device) : phy_device :=
  mk_phydev (autoneg d) v (duplex d) (pause d) (asym_pause d) (link d)
            (supported d) (advertising d) (dev_addr d).
Definition set_duplex (v : Z) (d : phy_device) : phy_device :=
  mk_phydev (autoneg d) (speed d) v (pause d) (asym_pause d) (link d)
            (supported d) (advertising d) (dev_addr d).
Definition set_link (v : Z) (d : phy_device) : phy_device :=
  mk_phydev (autoneg d) (speed d) (duplex d) (pause d) (asym_pause d) v
            (supported d) (advertising d) (dev_addr d).
Definition set_advertising (v : Z) (d : phy_device) : phy_device :=
  mk_phydev (autoneg d) (speed d) (duplex d) (pause d) (asym_pause d) (link d)
            (supported d) v (dev_addr d).

(** Driver code is a state transformer returning a C value. *)
Definition M (A : Type) : Type := world -> A * world.

Definition ret {A} (a : A) : M A := fun w => (a, w).
Definition bind {A B} (m : M A) (k : A -> M B) : M B :=
  fun w => let (a, w1) := m w in k a w1.
Definition modify (f : world -> world) : M unit := fun w => (tt, f w).
Definition get {A} (f : world -> A) : M A := fun w => (f w, w).

Notation "'do' x <- m ; k" := (bind m (fun x => k))
  (at level 10, x name, m at level 100, k at level 200).
Notation "'do_' m ; k" := (bind m (fun _ => k))
  (at level 10, m at level 100, k at level 200).

(** Consume the fate of the next transaction: [Some e] when it fails. *)
Definition next_outcome (w : world) : option Z * world :=
  match bus_outcomes w with
  | [] => (None, w)
  | e :: rest => (if e <? 0 then Some e else None, set_outcomes rest w)
  end.

(** [int phy_read(struct phy_device *, u32 regnum)]: the 16-bit register
    value, or a negative errno. *)
Definition phy_read (regnum : Z) : M Z := fun w =>
  let w0 := log_event (EvRead (selected_space (the_chip w)) regnum) w in
  match next_outcome w0 with
  | (Some e, w1) => (e, w1)
  | (None, w1) => (u16 (chip_read (the_chip w1) regnum), w1)
  end.

(** [int phy_write(struct phy_device *, u32 regnum, u16 val)]: 0, or a
    negative errno. *)
Definition phy_write (regnum val : Z) : M Z := fun w =>
  let w0 := log_event (EvWrite (selected_space (the_chip w)) regnum (u16 val)) w in
  match next_outcome w0 with
  | (Some e, w1) => (e, w1)
  | (None, w1) => (0, set_chip (chip_write (the_chip w1) regnum (u16 val)) w1)
  end.

(** ** Indirect register accessor and space selector (both revisions) *)

Definition mars_ext_read (regnum : Z) : M Z :=
  do r <- phy_write 0x1e regnum;
  if r <? 0 then ret r
  else phy_read 0x1f.

Definition mars_ext_write (regnum val : Z) : M Z :=
  do r <- phy_write 0x1e regnum;
  if r <? 0 then ret r
  else phy_write 0x1f (u16 val).

Definition mars_select_reg_space (sp : Z) : M Z :=
  if sp =? CTC_PHY_REG_SPACE
  then mars_ext_write 0xa000 0x0
  else mars_ext_write 0xa000 0x2.

(** ** Wake-on-LAN configuration (both revisions) *)

Record mars_wol_cfg_t := mk_wol_cfg {
  enable : Z;
  type : Z;
  width : Z
}.

(** The two fields of [struct ethtool_wolinfo] the driver uses. *)
Record ethtool_wolinfo := mk_wolinfo {
  wol_supported : Z;
  wolopts : Z
}.

(** The register value [mars_wol_en_cfg] computes from the value read:
    the body of the function between its read and its write. *)
Definition wol_cfg_value (val : Z) (wol_cfg : mars_wol_cfg_t) : Z :=
  if truthy (enable wol_cfg) then
    let val := Z.lor val CTC_MARS_WOL_EN in
    if type wol_cfg =? MARS_WOL_TYPE_LEVEL then
      let val := clear_bits val CTC_MARS_WOL_TYPE in
      clear_bits val CTC_MARS_WOL_INTR_SEL
    else if type wol_cfg =? MARS_WOL_TYPE_PULSE then
      let val := Z.lor val CTC_MARS_WOL_TYPE in
      let val := Z.lor val CTC_MARS_WOL_INTR_SEL in
      if width wol_cfg =? MARS_WOL_WIDTH_84MS then
        let val := clear_bits val CTC_MARS_WOL_WIDTH1 in
        clear_bits val CTC_MARS_WOL_WIDTH2
      else if width wol_cfg =? MARS_WOL_WIDTH_168MS then
        let val := Z.lor val CTC_MARS_WOL_WIDTH1 in
        clear_bits val CTC_MARS_WOL_WIDTH2
      else if width wol_cfg =? MARS_WOL_WIDTH_336MS then
        let val := clear_bits val CTC_MARS_WOL_WIDTH1 in
        Z.lor val CTC_MARS_WOL_WIDTH2
      else if width wol_cfg =? MARS_WOL_WIDTH_672MS then
        let val := Z.lor val CTC_MARS_WOL_WIDTH1 in
        Z.lor val CTC_MARS_WOL_WIDTH2
      else val
    else val
  else
    let val := clear_bits val CTC_MARS_WOL_EN in
    clear_bits val CTC_MARS_WOL_INTR_SEL.

Definition mars_wol_en_cfg (wol_cfg : mars_wol_cfg_t) : M Z :=
  do val <- mars_ext_read CTC_MARS_WOL_CFG_REG;
  if val <? 0 then ret val else
  do r <- mars_ext_write CTC_MARS_WOL_CFG_REG (wol_cfg_value val wol_cfg);
  if r <? 0 then ret r else
  ret 0.

(** [void mars_get_wol(phydev, wol)]: the updated [*wol]. *)
Definition mars_get_wol (wol : ethtool_wolinfo) : M ethtool_wolinfo :=
  let wol := mk_wolinfo WAKE_MAGIC (wolopts wol) in
  let wol := mk_wolinfo (wol_supported wol) 0 in
  do val <- mars_ext_read CTC_MARS_WOL_CFG_REG;
  if val <? 0 then ret wol else
  if truthy (Z.land val CTC_MARS_WOL_EN)
  then ret (mk_wolinfo (wol_supported wol) (Z.lor (wolopts wol) WAKE_MAGIC))
  else ret wol.

(** [phydev->attached_dev->dev_addr[i]], an [unsigned char]. *)
Definition dev_addr_at (i : nat) : M Z :=
  get (fun w => Z.of_N (Byte.to_N (nth i (dev_addr (phydev w)) Byte.x00))).

(** The three magic-packet address writes that end the enabling branch of
    [mars_set_wol], identical in both revisions. *)
Definition store_magic_addr (k : M Z) : M Z :=
  do a0 <- dev_addr_at 0;
  do a1 <- dev_addr_at 1;
  do r <- mars_ext_write CTC_MARS_MAGIC_PACKET_MAC_ADDR2
            (Z.lor (Z.shiftl a0 8) a1);
  if r <? 0 then ret r else
  do a2 <- dev_addr_at 2;
  do a3 <- dev_addr_at 3;
  do r <- mars_ext_write CTC_MARS_MAGIC_PACKET_MAC_ADDR1
            (Z.lor (Z.shiftl a2 8) a3);
  if r <? 0 then ret r else
  do a4 <- dev_addr_at 4;
  do a5 <- dev_addr_at 5;
  do r <- mars_ext_write CTC_MARS_MAGIC_PACKET_MAC_ADDR0
            (Z.lor (Z.shiftl a4 8) a5);
  if r <? 0 then ret r else
  k.

(** Kernel helpers of [linux/mii.h] used by [mars_config_advert]: the
    translation of an ethtool advertisement mask into the bits of the MII
    advertisement registers. *)
Definition flag (x m b : Z) : Z := if truthy (Z.land x m) then b else 0.

Definition ethtool_adv_to_mii_adv_t (ethadv : Z) : Z :=
  Z.lor (flag ethadv ADVERTISED_10baseT_Half ADVERTISE_10HALF)
  (Z.lor (flag ethadv ADVERTISED_10baseT_Full ADVERTISE_10FULL)
  (Z.lor (flag ethadv ADVERTISED_100baseT_Half ADVERTISE_100HALF)
  (Z.lor (flag ethadv ADVERTISED_100baseT_Full ADVERTISE_100FULL)
  (Z.lor (flag ethadv ADVERTISED_Pause ADVERTISE_PAUSE_CAP)
         (flag ethadv ADVERTISED_Asym_Pause ADVERTISE_PAUSE_ASYM))))).

Definition ethtool_adv_to_mii_ctrl1000_t (ethadv : Z) : Z :=
  Z.lor (flag ethadv ADVERTISED_1000baseT_Half ADVERTISE_1000HALF)
        (flag ethadv ADVERTISED_1000baseT_Full ADVERTISE_1000FULL).

Definition is_utp_or_combo (t : Z) : bool :=
  (t =? MARS_PORT_TYPE_UTP) || (t =? MARS_PORT_TYPE_COMBO).
Definition is_fiber_or_combo (t : Z) : bool :=
  (t =? MARS_PORT_TYPE_FIBER) || (t =? MARS_PORT_TYPE_COMBO).

(** An assignment to a field of [*phydev]. *)
Definition set_dev (f : phy_device -> phy_device) : M unit :=
  modify (fun w => set_phydev (f (phydev w)) w).

Definition set_supported (v : Z) (d : phy_device) : phy_device :=
  mk_phydev (autoneg d) (speed d) (duplex d) (pause d) (asym_pause d) (link d)
            v (advertising d) (dev_addr d).

(** The feature mask [mars_config_init] builds from the basic status
    register and, when it was read, the extended status register: the body
    of the function between its reads and the update of the descriptor,
    the same in both revisions.  [estatus] is [None] when the extended
    status register is not read. *)
Definition init_features (bmsr : Z) (estatus : option Z) : Z :=
  let features :=
    Z.lor SUPPORTED_TP
      (Z.lor SUPPORTED_MII
         (Z.lor SUPPORTED_AUI
            (Z.lor SUPPORTED_FIBRE
               (Z.lor SUPPORTED_BNC
                  (Z.lor SUPPORTED_Pause SUPPORTED_Asym_Pause))))) in
  (* Do we support autonegotiation? *)
  let features :=
    if truthy (Z.land bmsr BMSR_ANEGCAPABLE)
    then Z.lor features SUPPORTED_Autoneg else features in
  let features :=
    if truthy (Z.land bmsr BMSR_100FULL)
    then Z.lor features SUPPORTED_100baseT_Full else features in
  let features :=
    if truthy (Z.land bmsr BMSR_100HALF)
    then Z.lor features SUPPORTED_100baseT_Half else features in
  let features :=
    if truthy (Z.land bmsr BMSR_10FULL)
    then Z.lor features SUPPORTED_10baseT_Full else features in
  let features :=
    if truthy (Z.land bmsr BMSR_10HALF)
    then Z.lor features SUPPORTED_10baseT_Half else features in
  match estatus with
  | None => features
  | Some val =>
      let features :=
        if truthy (Z.land val ESTATUS_1000_TFULL)
        then Z.lor features SUPPORTED_1000baseT_Full else features in
      if truthy (Z.land val ESTATUS_1000_THALF)
      then Z.lor features SUPPORTED_1000baseT_Half else features
  end.

(** [phydev->supported &= features; phydev->advertising &= features;] *)
Definition apply_features (features : Z) : M unit :=
  do_ set_dev (fun d => set_supported (Z.land (supported d) features) d);
  set_dev (fun d => set_advertising (Z.land (advertising d) features) d).

(** ** The later revision *)

Module Rev2.

Definition mars_page_read (page regnum : Z) : M Z :=
  do oldpage <- mars_ext_read CTC_MARS_PAGE_REG;
  if oldpage <? 0 then ret oldpage else
  do r <- mars_select_reg_space page;
  if r <? 0 then ret r else
  do val <- phy_read regnum;
  (* Recover to old page *)
  do r <- mars_select_reg_space (Z.land oldpage 0x2);
  if r <? 0 then ret r else
  ret val.

Definition mars_page_write (page regnum value : Z) : M Z :=
  do oldpage <- mars_ext_read CTC_MARS_PAGE_REG;
  if oldpage <? 0 then ret oldpage else
  do r <- mars_select_reg_space page;
  if r <? 0 then ret r else
  do val <- phy_write regnum (u16 value);
  (* Recover to old page *)
  do r <- mars_select_reg_space (Z.land oldpage 0x2);
  if r <? 0 then ret r else
  ret val.

Definition mars_page_ext_write (page regnum value : Z) : M Z :=
  do oldpage <- mars_ext_read CTC_MARS_PAGE_REG;
  if oldpage <? 0 then ret oldpage else
  do r <- mars_select_reg_space page;
  if r <? 0 then ret r else
  do val <- mars_ext_write regnum (u16 value);
  (* Recover to old page *)
  do r <- mars_select_reg_space (Z.land oldpage 0x2);
  if r <? 0 then ret r else
  ret val.

Definition mars_setup_forced : M Z :=
  let fiber_part : M Z :=
    do t <- get g_port_type;
    if is_fiber_or_combo t then
      do ctl <- mars_page_read CTC_SDS_REG_SPACE MII_BMCR;
      if ctl <? 0 then ret ctl else
      let ctl := clear_bits ctl BMCR_ANENABLE in
      do r <- mars_page_write CTC_SDS_REG_SPACE MII_BMCR ctl;
      if r <? 0 then ret r else
      ret 0
    else ret 0 in
  do t <- get g_port_type;
  if is_utp_or_combo t then
    do ctl <- mars_page_read CTC_PHY_REG_SPACE MII_BMCR;
    if ctl <? 0 then ret ctl else
    let ctl := Z.land ctl (Z.lor BMCR_LOOPBACK (Z.lor BMCR_ISOLATE BMCR_PDOWN)) in
    do_ set_dev (set_pause 0);
    do_ set_dev (set_asym_pause 0);
    do sp <- get (fun w => speed (phydev w));
    let ctl :=
      if sp =? SPEED_1000 then Z.lor ctl BMCR_SPEED1000
      else if sp =? SPEED_100 then Z.lor ctl BMCR_SPEED100
      else ctl in
    do dx <- get (fun w => duplex (phydev w));
    let ctl := if dx =? DUPLEX_FULL then Z.lor ctl BMCR_FULLDPLX else ctl in
    do r <- mars_page_write CTC_PHY_REG_SPACE MII_BMCR ctl;
    if r <? 0 then ret r else
    fiber_part
  else fiber_part.

Definition mars_restart_aneg : M Z :=
  let fiber_part : M Z :=
    do t <- get g_port_type;
    if is_fiber_or_combo t then
      do ctl <- mars_page_read CTC_SDS_REG_SPACE MII_BMCR;
      if ctl <? 0 then ret ctl else
      let ctl := Z.lor ctl BMCR_ANENABLE in
      do r <- mars_page_write CTC_SDS_REG_SPACE MII_BMCR ctl;
      if r <? 0 then ret r else
      ret 0
    else ret 0 in
  do t <- get g_port_type;
  if is_utp_or_combo t then
    do ctl <- mars_page_read CTC_PHY_REG_SPACE MII_BMCR;
    if ctl <? 0 then ret ctl else
    let ctl := Z.lor ctl (Z.lor BMCR_ANENABLE BMCR_ANRESTART) in
    (* Don't isolate the PHY if we're negotiating *)
    let ctl := clear_bits ctl BMCR_ISOLATE in
    do r <- mars_page_write CTC_PHY_REG_SPACE MII_BMCR ctl;
    if r <? 0 then ret r else
    fiber_part
  else fiber_part.

Definition mars_config_advert : M Z :=
  (* Only allow advertising what this PHY supports *)
  do_ set_dev (fun d => set_advertising (Z.land (advertising d) (supported d)) d);
  do advertise <- get (fun w => advertising (phydev w));
  (* Setup standard advertisement *)
  do adv <- mars_page_read CTC_PHY_REG_SPACE MII_ADVERTISE;
  if adv <? 0 then ret adv else
  let oldadv := adv in
  let adv := clear_bits adv
               (Z.lor ADVERTISE_ALL
                  (Z.lor ADVERTISE_100BASE4
                     (Z.lor ADVERTISE_PAUSE_CAP ADVERTISE_PAUSE_ASYM))) in
  let adv := Z.lor adv (ethtool_adv_to_mii_adv_t advertise) in
  let gigabit (changed : Z) : M Z :=
    do bmsr <- mars_page_read CTC_PHY_REG_SPACE MII_BMSR;
    if bmsr <? 0 then ret bmsr else
    if negb (truthy (Z.land bmsr BMSR_ESTATEN)) then ret changed else
    (* Configure gigabit if it's supported *)
    do adv <- mars_page_read CTC_PHY_REG_SPACE MII_CTRL1000;
    if adv <? 0 then ret adv else
    let oldadv := adv in
    let adv := clear_bits adv (Z.lor ADVERTISE_1000FULL ADVERTISE_1000HALF) in
    do sup <- get (fun w => supported (phydev w));
    let adv :=
      if truthy (Z.land sup (Z.lor SUPPORTED_1000baseT_Half
                                   SUPPORTED_1000baseT_Full))
      then Z.lor adv (ethtool_adv_to_mii_ctrl1000_t advertise)
      else adv in
    let changed := if negb (adv =? oldadv) then 1 else changed in
    do err <- mars_page_write CTC_PHY_REG_SPACE MII_CTRL1000 adv;
    if err <? 0 then ret err else
    ret changed in
  if negb (adv =? oldadv) then
    do err <- mars_page_write CTC_PHY_REG_SPACE MII_ADVERTISE adv;
    if err <? 0 then ret err else
    gigabit 1
  else gigabit 0.

Definition mars1s_config_aneg : M Z :=
  let fiber_part : M Z :=
    do t <- get g_port_type;
    if is_fiber_or_combo t then
      do an <- get (fun w => autoneg (phydev w));
      if negb (an =? AUTONEG_ENABLE) then
        mars_setup_forced
      else
        do r <- mars_restart_aneg;
        if r <? 0 then ret r else
        ret 0
    else ret 0 in
  do t <- get g_port_type;
  if is_utp_or_combo t then
    do an <- get (fun w => autoneg (phydev w));
    do r <- (if negb (an =? AUTONEG_ENABLE) then mars_setup_forced else ret 0);
    if r <? 0 then ret r else
    do err <- mars_config_advert;
    if err <? 0 then ret err else
    let changed := Z.lor 0 err in
    let restart (changed : Z) : M Z :=
      (* Only restart aneg if we are advertising something different
         than we were before. *)
      do r <- (if changed >? 0 then mars_restart_aneg else ret r);
      if r <? 0 then ret r else
      fiber_part in
    if changed =? 0 then
      (* Advertisement hasn't changed, but maybe aneg was never on to
         begin with?  Or maybe phy was isolated? *)
      do ctl <- mars_page_read CTC_PHY_REG_SPACE MII_BMCR;
      if ctl <? 0 then ret ctl else
      if negb (truthy (Z.land ctl BMCR_ANENABLE))
         || truthy (Z.land ctl BMCR_ISOLATE)
      then restart 1        (* do restart aneg *)
      else restart changed
    else restart changed
  else fiber_part.

Definition mars_update_link : M Z :=
  let fiber_part : M Z :=
    do t <- get g_port_type;
    if is_fiber_or_combo t then
      (* Do a fake read *)
      do status <- mars_page_read CTC_SDS_REG_SPACE MII_BMSR;
      if status <? 0 then ret status else
      (* Read link and autonegotiation status *)
      do status <- mars_page_read CTC_SDS_REG_SPACE MII_BMSR;
      if status <? 0 then ret status else
      if Z.land status BMSR_LSTATUS =? 0 then
        do_ set_dev (set_link 0);
        ret 0
      else
        do_ set_dev (set_link 1);
        do r <- mars_select_reg_space CTC_SDS_REG_SPACE;
        if r <? 0 then ret r else
        do_ modify (set_port_status MARS_PORT_TYPE_FIBER);
        ret 0
    else ret 0 in
  do t <- get g_port_type;
  if is_utp_or_combo t then
    (* Do a fake read *)
    do status <- mars_page_read CTC_PHY_REG_SPACE MII_BMSR;
    if status <? 0 then ret status else
    (* Read link and autonegotiation status *)
    do status <- mars_page_read CTC_PHY_REG_SPACE MII_BMSR;
    if status <? 0 then ret status else
    if Z.land status BMSR_LSTATUS =? 0 then
      do_ set_dev (set_link 0);
      fiber_part
    else
      do_ set_dev (set_link 1);
      do r <- mars_select_reg_space CTC_PHY_REG_SPACE;
      if r <? 0 then ret r else
      do_ modify (set_port_status MARS_PORT_TYPE_UTP);
      ret 0
  else fiber_part.

Definition mars_read_status : M Z :=
  (* Update the link, but return if there was an error *)
  do r <- mars_update_link;
  if r <? 0 then ret r else
  do st <- get g_port_status;
  let page := if truthy st then CTC_SDS_REG_SPACE else CTC_PHY_REG_SPACE in
  do_ set_dev (set_speed SPEED_10);
  do_ set_dev (set_duplex DUPLEX_HALF);
  do_ set_dev (set_pause 0);
  do_ set_dev (set_asym_pause 0);
  do val <- mars_page_read page CTC_MARS_SSREG;
  if val <? 0 then ret val else
  do lpa <- mars_page_read page MII_LPA;
  if lpa <? 0 then ret lpa else
  do_ (if truthy (Z.land val 0x8000) then
         do_ set_dev (set_speed SPEED_1000);
         set_dev (set_duplex DUPLEX_FULL)
       else if truthy (Z.land val 0x4000) then
         do_ set_dev (set_speed SPEED_100);
         if truthy (Z.land val 0x2000)
         then set_dev (set_duplex DUPLEX_FULL)
         else ret tt
       else if truthy (Z.land val 0x2000) then
         set_dev (set_duplex DUPLEX_FULL)
       else ret tt);
  do dx <- get (fun w => duplex (phydev w));
  do_ (if dx =? DUPLEX_FULL then
         do_ set_dev (set_pause (if truthy (Z.land lpa LPA_PAUSE_CAP) then 1 else 0));
         set_dev (set_asym_pause (if truthy (Z.land lpa LPA_PAUSE_ASYM) then 1 else 0))
       else ret tt);
  ret 0.

Definition mars_set_wol (wol : ethtool_wolinfo) : M Z :=
  if truthy (Z.land (wolopts wol) WAKE_MAGIC) then
    (* Enable the WOL interrupt *)
    do val <- mars_page_read CTC_PHY_REG_SPACE CTC_MARS_INTR_REG;
    let val := Z.lor val CTC_MARS_WOL_INTR in
    do r <- mars_page_write CTC_PHY_REG_SPACE CTC_MARS_INTR_REG val;
    if r <? 0 then ret r else
    (* Set the WOL config *)
    let wol_cfg :=
      mk_wol_cfg CTC_PHY_GLB_ENABLE MARS_WOL_TYPE_PULSE MARS_WOL_WIDTH_672MS in
    do r <- mars_wol_en_cfg wol_cfg;
    if r <? 0 then ret r else
    (* Store the device address for the magic packet *)
    store_magic_addr (ret 0)
  else
    let wol_cfg :=
      mk_wol_cfg CTC_PHY_GLB_DISABLE MARS_WOL_TYPE_MAX MARS_WOL_WIDTH_MAX in
    do r <- mars_wol_en_cfg wol_cfg;
    if r <? 0 then ret r else
    ret 0.

Definition mars_get_port_type : M Z :=
  do val <- mars_ext_read CTC_MARS_CHIP_CFG_REG;
  if val <? 0 then ret val else
  let val := Z.land val 0x7 in
  do_ (if (val =? 0x0) || (val =? 0x3) then
         do_ modify (set_port_type MARS_PORT_TYPE_UTP);
         modify (set_port_status MARS_PORT_TYPE_UTP)
       else if (val =? 0x1) || (val =? 0x4) || (val =? 0x5) then
         do_ modify (set_port_type MARS_PORT_TYPE_FIBER);
         modify (set_port_status MARS_PORT_TYPE_FIBER)
       else
         modify (set_port_type MARS_PORT_TYPE_COMBO));
  ret 0.

Definition mars_ack_interrupt : M Z :=
  (* Clear the interrupts by reading the reg *)
  do err <- mars_page_read CTC_PHY_REG_SPACE CTC_PHY_IEVENT;
  if err <? 0 then ret err else
  ret 0.

(** [phydev->interrupts], which the descriptor record does not carry, is
    an argument. *)
Definition mars_config_intr (interrupts : Z) : M Z :=
  if interrupts =? PHY_INTERRUPT_ENABLED
  then mars_page_write CTC_PHY_REG_SPACE CTC_PHY_IMASK CTC_PHY_IMASK_INIT
  else mars_page_write CTC_PHY_REG_SPACE CTC_PHY_IMASK CTC_PHY_IMASK_CLEAR.

Definition mars_set_link_timer_2_6ms : M Z :=
  mars_page_ext_write CTC_SDS_REG_SPACE 0xa5 0x5.

(** [CTC_MARS_WOL_ENABLE] is not defined in the source, so the WOL block
    of the function is compiled out. *)
Definition mars_config_init : M Z :=
  do_ mars_set_link_timer_2_6ms;
  (* Do we support autonegotiation? *)
  do val <- mars_page_read CTC_PHY_REG_SPACE MII_BMSR;
  if val <? 0 then ret val else
  let finish (features : Z) : M Z :=
    do_ apply_features features;
    do_ mars_get_port_type;
    ret 0 in
  if truthy (Z.land val BMSR_ESTATEN) then
    do val2 <- mars_page_read CTC_PHY_REG_SPACE MII_ESTATUS;
    if val2 <? 0 then ret val2 else
    finish (init_features val (Some val2))
  else finish (init_features val None).

Definition mars1p_config_init : M Z :=
  (* RGMII clock 2.5M when link down, bit12:1->0 *)
  do_ mars_page_ext_write CTC_PHY_REG_SPACE 0xc 0x8051;
  (* Disable sleep mode, bit15:1->0 *)
  do_ mars_page_ext_write CTC_PHY_REG_SPACE 0x27 0x2029;
  (* disable PHY to respond to MDIO access with PHYAD0 *)
  (* MMD7 8001h: bit6: 0, change value: 0x7f --> 0x3f *)
  do_ mars_page_write CTC_PHY_REG_SPACE 0xd 0x7;
  do_ mars_page_write CTC_PHY_REG_SPACE 0xe 0x8001;
  do_ mars_page_write CTC_PHY_REG_SPACE 0xd 0x4007;
  do_ mars_page_write CTC_PHY_REG_SPACE 0xe 0x3f;
  mars_config_init.

End Rev2.

(** ** The earlier revision *)

Module Rev1.

Section ReadStatus.
(** [genphy_update_link] belongs to the host framework, not to the
    driver: it is taken as given. *)
Variable genphy_update_link : M Z.

Definition mars_read_status : M Z :=
  (* Update the link, but return if there was an error *)
  do err <- genphy_update_link;
  if truthy err then ret err else
  do_ set_dev (set_speed SPEED_10);
  do_ set_dev (set_duplex DUPLEX_HALF);
  do_ set_dev (set_pause 0);
  do_ set_dev (set_asym_pause 0);
  do val <- phy_read CTC_MARS_SSREG;
  if val <? 0 then ret val else
  do lpa <- phy_read MII_LPA;
  if lpa <? 0 then ret lpa else
  do_ (if truthy (Z.land val 0x8000) then
         do_ set_dev (set_speed SPEED_1000);
         set_dev (set_duplex DUPLEX_FULL)
       else if truthy (Z.land val 0x4000) then
         do_ set_dev (set_speed SPEED_100);
         if truthy (Z.land val 0x2000)
         then set_dev (set_duplex DUPLEX_FULL)
         else ret tt
       else if truthy (Z.land val 0x2000) then
         set_dev (set_duplex DUPLEX_FULL)
       else ret tt);
  do dx <- get (fun w => duplex (phydev w));
  do_ (if dx =? DUPLEX_FULL then
         do_ set_dev (set_pause (if truthy (Z.land lpa LPA_PAUSE_CAP) then 1 else 0));
         set_dev (set_asym_pause (if truthy (Z.land lpa LPA_PAUSE_ASYM) then 1 else 0))
       else ret tt);
  ret 0.
End ReadStatus.

Definition mars_set_wol (wol : ethtool_wolinfo) : M Z :=
  do oldpage <- mars_ext_read CTC_MARS_PAGE_REG;
  if oldpage <? 0 then ret oldpage else
  (* Switch to phy page *)
  do r <- mars_select_reg_space CTC_PHY_REG_SPACE;
  if r <? 0 then ret r else
  let recover : M Z :=
    (* Recover to old page *)
    do r <- mars_select_reg_space (Z.land oldpage 0x1);
    if r <? 0 then ret r else
    ret 0 in
  if truthy (Z.land (wolopts wol) WAKE_MAGIC) then
    (* Enable the WOL interrupt *)
    do val <- phy_read CTC_MARS_INTR_REG;
    let val := Z.lor val CTC_MARS_WOL_INTR in
    do r <- phy_write CTC_MARS_INTR_REG val;
    if r <? 0 then ret r else
    (* Set the WOL config *)
    let wol_cfg :=
      mk_wol_cfg CTC_PHY_GLB_ENABLE MARS_WOL_TYPE_PULSE MARS_WOL_WIDTH_672MS in
    do r <- mars_wol_en_cfg wol_cfg;
    if r <? 0 then ret r else
    (* Store the device address for the magic packet *)
    store_magic_addr recover
  else
    let wol_cfg :=
      mk_wol_cfg CTC_PHY_GLB_DISABLE MARS_WOL_TYPE_MAX MARS_WOL_WIDTH_MAX in
    do r <- mars_wol_en_cfg wol_cfg;
    if r <? 0 then ret r else
    recover.

Definition mars_ack_interrupt : M Z :=
  (* Clear the interrupts by reading the reg *)
  do err <- phy_read CTC_PHY_IEVENT;
  if err <? 0 then ret err else
  ret 0.

Definition mars_config_intr (interrupts : Z) : M Z :=
  if interrupts =? PHY_INTERRUPT_ENABLED
  then phy_write CTC_PHY_IMASK CTC_PHY_IMASK_INIT
  else phy_write CTC_PHY_IMASK CTC_PHY_IMASK_CLEAR.

Definition mars_set_link_timer_2_6ms : M Z :=
  do r <- mars_select_reg_space CTC_SDS_REG_SPACE;
  do_ (if r =? 0
       then do_ mars_ext_write 0xa5 0x5; ret tt
       else ret tt);
  do_ mars_select_reg_space CTC_PHY_REG_SPACE;
  ret 0.

Definition mars_config_init : M Z :=
  do_ mars_set_link_timer_2_6ms;
  (* Do we support autonegotiation? *)
  do val <- phy_read MII_BMSR;
  if val <? 0 then ret val else
  let finish (features : Z) : M Z :=
    do_ apply_features features;
    ret 0 in
  if truthy (Z.land val BMSR_ESTATEN) then
    do val2 <- phy_read MII_ESTATUS;
    if val2 <? 0 then ret val2 else
    finish (init_features val (Some val2))
  else finish (init_features val None).

Definition mars1p_config_init : M Z :=
  (* RGMII clock 2.5M when link down, bit12:1->0 *)
  do_ mars_ext_write 0xc 0x8051;
  (* Disable sleep mode, bit15:1->0 *)
  do_ mars_ext_write 0x27 0x2029;
  (* disable PHY to respond to MDIO access with PHYAD0 *)
  (* MMD7 8001h: bit6: 0, change value: 0x7f --> 0x3f *)
  do_ phy_write 0xd 0x7;
  do_ phy_write 0xe 0x8001;
  do_ phy_write 0xd 0x4007;
  do_ phy_write 0xe 0x3f;
  mars_config_init.

End Rev1.


(** ** Notions used to state the properties *)

(** *** The bus *)

(** The next [n] bus transactions succeed. *)
Definition next_ok (n : nat) (o : list Z) : Prop :=
  Forall (fun e => 0 <= e) (take n o).

(** Every coming bus transaction succeeds. *)
Definition bus_ok (w : world) : Prop :=
  Forall (fun e => 0 <= e) (bus_outcomes w).

(** The bus transaction number [i] (from 0) fails. *)
Definition fails_at (o : list Z) (i : nat) : Prop :=
  exists e, o !! i = Some e /\ e < 0.

(** What a bus primitive returns: the errno when the next outcome is a
    failure, its proper result [v] otherwise. *)
Definition outcome_of (o : list Z) (v : Z) : Z :=
  match o with
  | e :: _ => if e <? 0 then e else v
  | [] => v
  end.

(** [-EIO] *)
Definition EIO : Z := -5.

(** *** Traces *)

(** The trace [t'] continues the trace [t] (newest events first). *)
Definition extends (t t' : list bus_event) : Prop :=
  exists evs, t' = evs ++ t.

(** The event is an access to a directly addressed (banked) register
    issued while space [s] is selected; accesses to the latch and data
    registers 0x1e and 0x1f are not banked. *)
Definition banked_access (s : space) (ev : bus_event) : bool :=
  match ev with
  | EvRead s' r | EvWrite s' r _ =>
      negb (r =? 0x1e) && negb (r =? 0x1f) &&
      match s, s' with
      | PRIMARY, PRIMARY | SECONDARY, SECONDARY => true
      | _, _ => false
      end
  end.

(** The event touches one of the two advertisement registers. *)
Definition advert_access (ev : bus_event) : bool :=
  match ev with
  | EvRead _ r | EvWrite _ r _ => (r =? MII_ADVERTISE) || (r =? MII_CTRL1000)
  end.

(** Since the trace was [t0], no advertisement register has been
    accessed. *)
Definition no_advert_since (t0 : list bus_event) (w : world) : Prop :=
  exists evs,
    bus_trace w = evs ++ t0 /\
    forallb (fun ev => negb (advert_access ev)) evs = true.

(** *** Frames and invariants *)

(** The part of the world that lives in host memory: the device
    descriptor and the two globals. *)
Definition host_state (w : world) : phy_device * Z * Z :=
  (phydev w, g_port_type w, g_port_status w).

(** The two globals of the later revision. *)
Definition globals (w : world) : Z * Z := (g_port_type w, g_port_status w).

(** [m] leaves the observation [f] of the world unchanged, whatever the
    bus does. *)
Definition keeps {A B : Type} (f : world -> B) (m : M A) : Prop :=
  forall w, f (snd (m w)) = f w.

(** [m] maintains the invariant [I], whatever the bus does. *)
Definition preserves {A : Type} (I : world -> Prop) (m : M A) : Prop :=
  forall w, I w -> I (snd (m w)).

(** Active Media holds a medium: COPPER or FIBER. *)
Definition port_status_ok (w : world) : Prop :=
  g_port_status w = MARS_PORT_TYPE_UTP \/ g_port_status w = MARS_PORT_TYPE_FIBER.

(** *** Register spaces and page-banked accesses *)

(** The register space a [space] argument of the driver designates:
    [mars_select_reg_space] compares it with [CTC_PHY_REG_SPACE]. *)
Definition space_of (page : Z) : space :=
  if page =? CTC_PHY_REG_SPACE then PRIMARY else SECONDARY.

(** The value [mars_select_reg_space] writes to the page register. *)
Definition page_code (page : Z) : Z :=
  if page =? CTC_PHY_REG_SPACE then 0x0 else 0x2.

(** The register space of a medium. *)
Definition media_space (media : Z) : space :=
  if media =? MARS_PORT_TYPE_FIBER then SECONDARY else PRIMARY.

(** The chip after a page-banked access has put the old page back: the
    latch points at the page register, which holds bit 1 of its former
    value. *)
Definition restored (c : chip) : chip :=
  mk_chip CTC_MARS_PAGE_REG
          (<[CTC_MARS_PAGE_REG := Z.land (u16 (page_reg c)) 0x2]> (ext c))
          (phy_regs c) (sds_regs c).

(** A write to a directly addressed register of one bank. *)
Definition bank_write (s : space) (regnum val : Z) (c : chip) : chip :=
  match s with
  | PRIMARY =>
      mk_chip (latch c) (ext c) (<[regnum := val]> (phy_regs c)) (sds_regs c)
  | SECONDARY =>
      mk_chip (latch c) (ext c) (phy_regs c) (<[regnum := val]> (sds_regs c))
  end.

(** The seven bus transactions of a page-banked access that runs to its
    end, newest first: read of the page register, select, the access
    itself, select back. *)
Definition page_access_events (c : chip) (page : Z) (access : bus_event)
  : list bus_event :=
  [ EvWrite (space_of page) 0x1f (Z.land (u16 (page_reg c)) 0x2);
    EvWrite (space_of page) 0x1e CTC_MARS_PAGE_REG;
    access;
    EvWrite (selected_space c) 0x1f (page_code page);
    EvWrite (selected_space c) 0x1e CTC_MARS_PAGE_REG;
    EvRead (selected_space c) 0x1f;
    EvWrite (selected_space c) 0x1e CTC_MARS_PAGE_REG ].

(** The common shape of the three page-banked accessors: read the page
    register, select the target page, run the inner access, then hand the
    old page and the inner result to the restoring tail. *)
Definition page_banked {A : Type} (inner : M A) (finish : Z -> A -> M Z)
    (page : Z) : M Z :=
  do oldpage <- mars_ext_read CTC_MARS_PAGE_REG;
  if oldpage <? 0 then ret oldpage else
  do r <- mars_select_reg_space page;
  if r <? 0 then ret r else
  do val <- inner;
  finish oldpage val.

(** The restoring tail of the later revision. *)
Definition restore_old_page (oldpage val : Z) : M Z :=
  do r <- mars_select_reg_space (Z.land oldpage 0x2);
  if r <? 0 then ret r else
  ret val.

(** The three page-banked accessors of the later revision. *)
Inductive page_access :=
  | PageRead (page regnum : Z)
  | PageWrite (page regnum value : Z)
  | PageExtWrite (page regnum value : Z).

Definition run_access (a : page_access) : M Z :=
  match a with
  | PageRead page regnum => Rev2.mars_page_read page regnum
  | PageWrite page regnum value => Rev2.mars_page_write page regnum value
  | PageExtWrite page regnum value => Rev2.mars_page_ext_write page regnum value
  end.

(** The restoring select of a page-banked access does not fail.  Either
    the access stops before the page is switched (a failure among its
    first four transactions: page-register read and select), or the two
    transactions of the restoring select succeed.  These come after the
    inner access, which takes one transaction, or two for an extended
    write whose latch write succeeds; the outcome of the inner access
    itself is left free. *)
Definition restore_not_failing (a : page_access) (o : list Z) : Prop :=
  ~ next_ok 4 o \/
  match a with
  | PageRead _ _ | PageWrite _ _ _ => next_ok 2 (drop 5 o)
  | PageExtWrite _ _ _ =>
      (fails_at o 4 /\ next_ok 2 (drop 5 o)) \/
      (next_ok 5 o /\ next_ok 2 (drop 6 o))
  end.

(** *** Port type *)

(** The classification of the spec: configuration value [V] (the low
    three bits of the chip configuration register) in {0,3} is COPPER,
    in {1,4,5} is FIBER, anything else is COMBO. *)
Definition port_type_of_cfg (V : Z) : Z :=
  if (V =? 0) || (V =? 3) then MARS_PORT_TYPE_UTP
  else if (V =? 1) || (V =? 4) || (V =? 5) then MARS_PORT_TYPE_FIBER
  else MARS_PORT_TYPE_COMBO.

(** Active Media after detection: pre-seeded to the port's medium for a
    COPPER or FIBER port, left as it is for a COMBO port. *)
Definition seeded_media (port_type old_media : Z) : Z :=
  if port_type =? MARS_PORT_TYPE_COMBO then old_media else port_type.

(** *** Status decoding *)

(** The chip status register (0x11) as the spec decodes it. *)
Definition status_speed (val : Z) : Z :=
  if Z.testbit val 15 then SPEED_1000
  else if Z.testbit val 14 then SPEED_100
  else SPEED_10.

Definition status_duplex (val : Z) : Z :=
  if Z.testbit val 15 then DUPLEX_FULL
  else if Z.testbit val 14 then
    (if Z.testbit val 13 then DUPLEX_FULL else DUPLEX_HALF)
  else if Z.testbit val 13 then DUPLEX_FULL
  else DUPLEX_HALF.

(** Pause and asym-pause come from bits 10 and 11 of the
    link-partner-ability register, and only for a full-duplex link. *)
Definition status_pause (val lpa : Z) : Z :=
  if status_duplex val =? DUPLEX_FULL
  then (if Z.testbit lpa 10 then 1 else 0) else 0.

Definition status_asym_pause (val lpa : Z) : Z :=
  if status_duplex val =? DUPLEX_FULL
  then (if Z.testbit lpa 11 then 1 else 0) else 0.

(** The defaults [mars_read_status] starts from. *)
Definition status_defaults (d : phy_device) : phy_device :=
  set_asym_pause 0 (set_pause 0 (set_duplex DUPLEX_HALF (set_speed SPEED_10 d))).

(** The descriptor once status [val] and link-partner ability [lpa] are
    decoded into it. *)
Definition status_decoded (val lpa : Z) (d : phy_device) : phy_device :=
  mk_phydev (autoneg d) (status_speed val) (status_duplex val)
            (status_pause val lpa) (status_asym_pause val lpa)
            (link d) (supported d) (advertising d) (dev_addr d).

(** The register space [mars_read_status] of the later revision queries
    for Active Media [media]. *)
Definition status_page (media : Z) : Z :=
  if truthy media then CTC_SDS_REG_SPACE else CTC_PHY_REG_SPACE.

(** *** Wake-on-LAN *)

(** The bits of the WOL configuration register that belong to WOL:
    type (0), pulse width (1, 2), enable (3), interrupt select (6). *)
Definition WOL_BITS : Z :=
  Z.lor CTC_MARS_WOL_TYPE
    (Z.lor CTC_MARS_WOL_WIDTH1
       (Z.lor CTC_MARS_WOL_WIDTH2
          (Z.lor CTC_MARS_WOL_EN CTC_MARS_WOL_INTR_SEL))).

Definition is_wol_bit (n : Z) : bool :=
  (n =? 0) || (n =? 1) || (n =? 2) || (n =? 3) || (n =? 6).

(** The WOL bits a configuration asks for, in the words of the spec:
    enable, type, width and interrupt select "according to the new
    config".  Interrupt select goes with the pulse type. *)
Definition wol_bits_of_cfg (wol_cfg : mars_wol_cfg_t) : Z :=
  if truthy (enable wol_cfg) then
    Z.lor CTC_MARS_WOL_EN
      (if type wol_cfg =? MARS_WOL_TYPE_PULSE then
         Z.lor CTC_MARS_WOL_TYPE
           (Z.lor CTC_MARS_WOL_INTR_SEL
              (Z.shiftl (Z.land (width wol_cfg) 0x3) 1))
       else 0)
  else 0.

(** The register value the spec describes: every WOL bit cleared, then
    the bits of the new configuration set. *)
Definition wol_cfg_value_spec (val : Z) (wol_cfg : mars_wol_cfg_t) : Z :=
  Z.lor (clear_bits val WOL_BITS) (wol_bits_of_cfg wol_cfg).

Definition wol_disable : mars_wol_cfg_t :=
  mk_wol_cfg CTC_PHY_GLB_DISABLE MARS_WOL_TYPE_MAX MARS_WOL_WIDTH_MAX.
Definition wol_pulse_672 : mars_wol_cfg_t :=
  mk_wol_cfg CTC_PHY_GLB_ENABLE MARS_WOL_TYPE_PULSE MARS_WOL_WIDTH_672MS.

(** Byte [i] of the attached device's hardware address, as a number. *)
Definition mac_byte (d : phy_device) (i : nat) : Z :=
  Z.of_N (Byte.to_N (nth i (dev_addr d) Byte.x00)).

(** The hardware address AA:BB:CC:DD:EE:FF of the spec's scenario. *)
Definition mac_aabbccddeeff : list byte :=
  [Byte.xaa; Byte.xbb; Byte.xcc; Byte.xdd; Byte.xee; Byte.xff].

(** The three magic-packet address registers are programmed with the
    six address bytes, two per register, earlier byte high. *)
Definition magic_addr_programmed (d : phy_device) (c : chip) : Prop :=
  reg (ext c) CTC_MARS_MAGIC_PACKET_MAC_ADDR2 = 256 * mac_byte d 0 + mac_byte d 1 /\
  reg (ext c) CTC_MARS_MAGIC_PACKET_MAC_ADDR1 = 256 * mac_byte d 2 + mac_byte d 3 /\
  reg (ext c) CTC_MARS_MAGIC_PACKET_MAC_ADDR0 = 256 * mac_byte d 4 + mac_byte d 5.

(** *** Concrete worlds used in the examples *)

Definition no_dev : phy_device := mk_phydev 0 0 0 0 0 0 0 0 [].

(** A chip whose page register holds [p], everything else zero. *)
Definition chip_on_page (p : Z) : chip :=
  mk_chip 0 (<[CTC_MARS_PAGE_REG := p]> ∅) ∅ ∅.

(** A world on that chip with the bus outcomes [o]. *)
Definition world_on_page (p : Z) (o : list Z) : world :=
  mk_world (chip_on_page p) o [] no_dev MARS_PORT_TYPE_UTP MARS_PORT_TYPE_UTP.

(** A copper port asked for forced 100 Mbit/s full duplex, on a chip
    whose registers are all zero and a working bus. *)
Definition forced_100_full : phy_device :=
  mk_phydev AUTONEG_DISABLE SPEED_100 DUPLEX_FULL 0 0 0 0 0 [].

Definition forced_copper_world : world :=
  mk_world (mk_chip 0 ∅ ∅ ∅) [] [] forced_100_full
           MARS_PORT_TYPE_UTP MARS_PORT_TYPE_UTP.


(** *** Control-register words *)

(** Bit [n] of the control word the forced setup of the copper side
    builds from the value [old] read and the descriptor: loopback,
    isolate and power-down are kept, the speed and duplex bits follow
    the descriptor, every other bit is clear. *)
Definition forced_ctl_bit (old : Z) (d : phy_device) (n : Z) : bool :=
  if (n =? 14) || (n =? 10) || (n =? 11) then Z.testbit old n
  else if n =? 6 then speed d =? SPEED_1000
  else if n =? 13 then negb (speed d =? SPEED_1000) && (speed d =? SPEED_100)
  else if n =? 8 then duplex d =? DUPLEX_FULL
  else false.

(** *** Advertisement registers *)

(** The word [mars_config_advert] computes for the advertisement
    register from the value [old] read and the advertised modes. *)
Definition advert_word (old advertise : Z) : Z :=
  Z.lor (clear_bits old
           (Z.lor ADVERTISE_ALL
              (Z.lor ADVERTISE_100BASE4
                 (Z.lor ADVERTISE_PAUSE_CAP ADVERTISE_PAUSE_ASYM))))
        (ethtool_adv_to_mii_adv_t advertise).

(** The word it computes for the gigabit control register. *)
Definition ctrl1000_word (old sup advertise : Z) : Z :=
  let adv := clear_bits old (Z.lor ADVERTISE_1000FULL ADVERTISE_1000HALF) in
  if truthy (Z.land sup (Z.lor SUPPORTED_1000baseT_Half
                               SUPPORTED_1000baseT_Full))
  then Z.lor adv (ethtool_adv_to_mii_ctrl1000_t advertise)
  else adv.

(** The 16-bit contents of the two advertisement registers of the PHY
    space. *)
Definition advert_regs (c : chip) : Z * Z :=
  (u16 (reg (phy_regs c) MII_ADVERTISE), u16 (reg (phy_regs c) MII_CTRL1000)).

(** The chip reports extended status (gigabit) capability. *)
Definition has_estatus (c : chip) : bool :=
  truthy (Z.land (u16 (reg (phy_regs c) MII_BMSR)) BMSR_ESTATEN).

(** *** Link status *)

(** The link-status bit of the basic status register of a bank, as a
    16-bit read of it yields. *)
Definition link_up (regs : gmap Z Z) : bool :=
  negb (Z.land (u16 (reg regs MII_BMSR)) BMSR_LSTATUS =? 0).

(** *** Feature detection *)


(** The status registers as [mars_config_init] reads them from the PHY
    space: the extended status only when the basic status announces
    it. *)
Definition bmsr_of (c : chip) : Z := u16 (reg (phy_regs c) MII_BMSR).

Definition estatus_of (c : chip) : option Z :=
  if Z.testbit (bmsr_of c) 8
  then Some (u16 (reg (phy_regs c) MII_ESTATUS))
  else None.



(** * Properties *)

#[local] Arguments Z.testbit : simpl never.
#[local] Arguments Z.land : simpl never.
#[local] Arguments Z.lor : simpl never.
#[local] Arguments Z.lnot : simpl never.
#[local] Arguments Z.shiftl : simpl never.
#[local] Arguments Z.ltb : simpl nomatch.
#[local] Arguments Z.eqb : simpl nomatch.
#[local] Arguments u16 : simpl never.

(** ** Arithmetic of 16-bit values *)

Lemma u16_range x : 0 <= u16 x < 65536.
Proof.
  unfold u16. change 65535 with (Z.ones 16). rewrite Z.land_ones by lia.
  apply Z.mod_pos_bound. lia.
Qed.

Lemma u16_ltb x : (u16 x <? 0) = false.
Proof. apply Z.ltb_ge. apply u16_range. Qed.

Lemma u16_small x : 0 <= x < 65536 -> u16 x = x.
Proof.
  intros H. unfold u16. change 65535 with (Z.ones 16).
  rewrite Z.land_ones by lia. apply Z.mod_small. lia.
Qed.

Lemma u16_page_reg : u16 CTC_MARS_PAGE_REG = CTC_MARS_PAGE_REG.
Proof. reflexivity. Qed.

Lemma u16_u16 x : u16 (u16 x) = u16 x.
Proof. apply u16_small, u16_range. Qed.

Lemma u16_testbit x n : 0 <= n ->
  Z.testbit (u16 x) n = Z.testbit x n && (n <? 16).
Proof.
  intros Hn. unfold u16. change 65535 with (Z.ones 16).
  rewrite Z.land_spec. f_equal.
  destruct (Z.ltb_spec n 16).
  - apply Z.ones_spec_low. lia.
  - apply Z.ones_spec_high. lia.
Qed.

Lemma land_pow2 x k :
  0 <= k -> Z.land x (2 ^ k) = if Z.testbit x k then 2 ^ k else 0.
Proof.
  intros Hk. apply Z.bits_inj'. intros n Hn. rewrite Z.land_spec.
  destruct (Z.eq_dec n k) as [->|Hne].
  - rewrite Z.pow2_bits_true by assumption.
    destruct (Z.testbit x k); [|rewrite Z.bits_0]; try reflexivity.
    rewrite Z.pow2_bits_true by assumption. reflexivity.
  - rewrite Z.pow2_bits_false by lia. rewrite andb_false_r.
    destruct (Z.testbit x k); [|rewrite Z.bits_0]; try reflexivity.
    rewrite Z.pow2_bits_false by lia. reflexivity.
Qed.

Lemma land2_cases x : Z.land x 2 = 0 \/ Z.land x 2 = 2.
Proof.
  change 2 with (2 ^ 1). rewrite land_pow2 by lia.
  destruct (Z.testbit x 1); auto.
Qed.

Lemma land2_testbit x : Z.testbit (Z.land x 2) 1 = Z.testbit x 1.
Proof. rewrite Z.land_spec. change (Z.testbit 2 1) with true. apply andb_true_r. Qed.

(** ** Register files *)

Lemma reg_insert_eq (m : gmap Z Z) k v : reg (<[k := v]> m) k = v.
Proof. unfold reg. rewrite lookup_insert_eq. reflexivity. Qed.

Lemma reg_insert_ne (m : gmap Z Z) k k' v :
  k <> k' -> reg (<[k := v]> m) k' = reg m k'.
Proof. intros H. unfold reg. rewrite lookup_insert_ne by assumption. reflexivity. Qed.

(** Bring updates of the world to constructor form. *)
Ltac norm_world :=
  unfold set_dev, modify, get, set_phydev, set_port_status, set_port_type,
    set_chip, set_outcomes, log_event;
  cbn [the_chip bus_outcomes bus_trace phydev g_port_type g_port_status
       fst snd].

Ltac norm_world_in H :=
  unfold set_dev, modify, get, set_phydev, set_port_status, set_port_type,
    set_chip, set_outcomes, log_event in H;
  cbn [the_chip bus_outcomes bus_trace phydev g_port_type g_port_status
       fst snd] in H.

(** Two distinct numerals. *)
Ltac neq_const :=
  let H := fresh in intros H; vm_compute in H; discriminate H.

(** ** The bus primitives *)

Lemma next_ok_drop k n o : next_ok (k + n) o -> next_ok n (drop k o).
Proof.
  unfold next_ok. intros H. rewrite take_drop_commute. apply Forall_drop, H.
Qed.

Lemma next_ok_nil n : next_ok n [].
Proof. unfold next_ok. rewrite take_nil. constructor. Qed.

Lemma next_ok_le m n o : (n <= m)%nat -> next_ok m o -> next_ok n o.
Proof.
  unfold next_ok. intros Hle H.
  replace n with (Nat.min n m) by lia. rewrite <- take_take.
  apply Forall_take, H.
Qed.

Lemma bus_ok_next_ok n k o :
  Forall (fun e => 0 <= e) o -> next_ok n (drop k o).
Proof. intros H. apply Forall_take, Forall_drop, H. Qed.

Lemma outcome_of_ok o v : next_ok 1 o -> outcome_of o v = v.
Proof.
  unfold next_ok, outcome_of. destruct o as [|e o]; [reflexivity|].
  cbn. intros H. apply Forall_cons in H as [He _].
  destruct (Z.ltb_spec e 0); [lia|reflexivity].
Qed.

Lemma outcome_of_fail o v : fails_at o 0 -> outcome_of o v < 0.
Proof.
  intros (e & He & Hneg). destruct o as [|e' o]; [discriminate|].
  cbn in He. injection He as ->. cbn.
  destruct (Z.ltb_spec e 0); lia.
Qed.

(** Any outcome: a read never changes the chip. *)
Lemma phy_read_any c o t d pt ps r :
  phy_read r (mk_world c o t d pt ps) =
  (outcome_of o (u16 (chip_read c r)),
   mk_world c (drop 1 o) (EvRead (selected_space c) r :: t) d pt ps).
Proof.
  unfold phy_read, next_outcome, outcome_of. cbn.
  destruct o as [|e o]; cbn; [reflexivity|].
  destruct (e <? 0); reflexivity.
Qed.

(** Any outcome: a failed write leaves the chip as it was. *)
Lemma phy_write_any c o t d pt ps r v :
  phy_write r v (mk_world c o t d pt ps) =
  (outcome_of o 0,
   mk_world (if outcome_of o 0 <? 0 then c else chip_write c r (u16 v))
            (drop 1 o) (EvWrite (selected_space c) r (u16 v) :: t) d pt ps).
Proof.
  unfold phy_write, next_outcome, outcome_of. cbn.
  destruct o as [|e o]; cbn; [reflexivity|].
  destruct (e <? 0) eqn:E; cbn; rewrite ?E; reflexivity.
Qed.

Lemma phy_read_ok c o t d pt ps r :
  next_ok 1 o ->
  phy_read r (mk_world c o t d pt ps) =
  (u16 (chip_read c r),
   mk_world c (drop 1 o) (EvRead (selected_space c) r :: t) d pt ps).
Proof. intros H. rewrite phy_read_any, outcome_of_ok by assumption. reflexivity. Qed.

Lemma phy_write_ok c o t d pt ps r v :
  next_ok 1 o ->
  phy_write r v (mk_world c o t d pt ps) =
  (0, mk_world (chip_write c r (u16 v)) (drop 1 o)
               (EvWrite (selected_space c) r (u16 v) :: t) d pt ps).
Proof. intros H. rewrite phy_write_any, outcome_of_ok by assumption. reflexivity. Qed.

Ltac ok_side :=
  rewrite ?drop_drop; simpl Nat.add;
  first
    [ assumption
    | apply bus_ok_next_ok; assumption
    | apply (bus_ok_next_ok _ 0); assumption
    | match goal with
      | H : next_ok ?m ?o |- next_ok ?n ?o =>
          apply (next_ok_le m n o); [lia | exact H]
      end
    | match goal with
      | H : next_ok ?m ?o |- next_ok ?n (drop ?k ?o) =>
          apply next_ok_drop; apply (next_ok_le m _ o); [cbn; lia | exact H]
      end ].

Lemma mars_ext_read_ok c o t d pt ps r :
  next_ok 2 o ->
  mars_ext_read r (mk_world c o t d pt ps) =
  (u16 (reg (ext c) (u16 r)),
   mk_world (mk_chip (u16 r) (ext c) (phy_regs c) (sds_regs c)) (drop 2 o)
            (EvRead (selected_space c) 0x1f
             :: EvWrite (selected_space c) 0x1e (u16 r) :: t) d pt ps).
Proof.
  intros H. unfold mars_ext_read, bind.
  rewrite phy_write_ok by ok_side. cbn.
  rewrite phy_read_ok by ok_side.
  rewrite drop_drop. reflexivity.
Qed.

Lemma mars_ext_write_ok c o t d pt ps r v :
  next_ok 2 o ->
  mars_ext_write r v (mk_world c o t d pt ps) =
  (0,
   mk_world (mk_chip (u16 r) (<[u16 r := u16 v]> (ext c)) (phy_regs c) (sds_regs c))
            (drop 2 o)
            (EvWrite (selected_space c) 0x1f (u16 v)
             :: EvWrite (selected_space c) 0x1e (u16 r) :: t) d pt ps).
Proof.
  intros H. unfold mars_ext_write, bind.
  rewrite phy_write_ok by ok_side. cbn.
  rewrite phy_write_ok by ok_side.
  rewrite drop_drop, !u16_u16. reflexivity.
Qed.

Lemma mars_select_reg_space_ok c o t d pt ps page :
  next_ok 2 o ->
  mars_select_reg_space page (mk_world c o t d pt ps) =
  (0,
   mk_world (mk_chip CTC_MARS_PAGE_REG
                     (<[CTC_MARS_PAGE_REG := page_code page]> (ext c))
                     (phy_regs c) (sds_regs c))
            (drop 2 o)
            (EvWrite (selected_space c) 0x1f (page_code page)
             :: EvWrite (selected_space c) 0x1e CTC_MARS_PAGE_REG :: t) d pt ps).
Proof.
  intros H. unfold mars_select_reg_space, page_code.
  destruct (page =? CTC_PHY_REG_SPACE);
    rewrite mars_ext_write_ok by assumption; reflexivity.
Qed.

Lemma selected_space_page_code e l p s page :
  selected_space (mk_chip l (<[CTC_MARS_PAGE_REG := page_code page]> e) p s)
  = space_of page.
Proof.
  unfold selected_space, page_reg, reg, space_of, page_code. cbn.
  rewrite lookup_insert_eq. destruct (page =? CTC_PHY_REG_SPACE); reflexivity.
Qed.

Lemma page_code_land2 x : page_code (Z.land x 2) = Z.land x 2.
Proof.
  unfold page_code, CTC_PHY_REG_SPACE.
  destruct (land2_cases x) as [-> | ->]; reflexivity.
Qed.

Lemma space_of_land2 x :
  space_of (Z.land x 2) = if Z.testbit x 1 then SECONDARY else PRIMARY.
Proof.
  rewrite <- (land2_testbit x). unfold space_of, CTC_PHY_REG_SPACE.
  destruct (land2_cases x) as [-> | ->]; reflexivity.
Qed.

Lemma selected_space_restored c : selected_space (restored c) = selected_space c.
Proof.
  unfold selected_space, restored, page_reg at 1, reg. cbn.
  rewrite lookup_insert_eq. cbn.
  rewrite land2_testbit, u16_testbit by lia. cbn. rewrite andb_true_r.
  reflexivity.
Qed.

Lemma page_reg_testbit_u16 c :
  Z.testbit (u16 (page_reg c)) 1 = Z.testbit (page_reg c) 1.
Proof. rewrite u16_testbit by lia. apply andb_true_r. Qed.

(** ** Page-banked accessors on a working bus *)

Lemma chip_read_banked c r :
  r <> 0x1e -> r <> 0x1f -> chip_read c r = reg (bank c (selected_space c)) r.
Proof.
  intros H1 H2. unfold chip_read.
  destruct (Z.eqb_spec r 0x1e); [contradiction|].
  destruct (Z.eqb_spec r 0x1f); [contradiction|]. reflexivity.
Qed.

Lemma chip_write_banked c r v :
  r <> 0x1e -> r <> 0x1f -> chip_write c r v = bank_write (selected_space c) r v c.
Proof.
  intros H1 H2. unfold chip_write.
  destruct (Z.eqb_spec r 0x1e); [contradiction|].
  destruct (Z.eqb_spec r 0x1f); [contradiction|]. reflexivity.
Qed.

Lemma mars_page_read_ok c o t d pt ps page r :
  next_ok 7 o -> r <> 0x1e -> r <> 0x1f ->
  Rev2.mars_page_read page r (mk_world c o t d pt ps) =
  (u16 (reg (bank c (space_of page)) r),
   mk_world (restored c) (drop 7 o)
            (page_access_events c page (EvRead (space_of page) r) ++ t)
            d pt ps).
Proof.
  intros H H1 H2. unfold Rev2.mars_page_read, bind.
  rewrite mars_ext_read_ok by ok_side. cbn. rewrite u16_ltb, !u16_page_reg.
  rewrite mars_select_reg_space_ok by ok_side. cbn.
  rewrite phy_read_ok by ok_side.
  rewrite mars_select_reg_space_ok by ok_side. cbn.
  rewrite !drop_drop. cbn.
  rewrite chip_read_banked by assumption. cbn.
  rewrite !selected_space_page_code, insert_insert_eq, page_code_land2.
  reflexivity.
Qed.

Lemma mars_page_write_ok c o t d pt ps page r v :
  next_ok 7 o -> r <> 0x1e -> r <> 0x1f ->
  Rev2.mars_page_write page r v (mk_world c o t d pt ps) =
  (0,
   mk_world (restored (bank_write (space_of page) r (u16 v) c)) (drop 7 o)
            (page_access_events c page (EvWrite (space_of page) r (u16 v)) ++ t)
            d pt ps).
Proof.
  intros H H1 H2. unfold Rev2.mars_page_write, bind.
  rewrite mars_ext_read_ok by ok_side. cbn. rewrite u16_ltb, !u16_page_reg.
  rewrite mars_select_reg_space_ok by ok_side. cbn.
  rewrite phy_write_ok by ok_side.
  rewrite chip_write_banked by assumption. cbn.
  rewrite !selected_space_page_code.
  assert (Hsel : forall s : space, selected_space (bank_write s r (u16 (u16 v))
             (mk_chip CTC_MARS_PAGE_REG (<[CTC_MARS_PAGE_REG := page_code page]> (ext c))
                      (phy_regs c) (sds_regs c))) = space_of page).
  { intros []; apply selected_space_page_code. }
  rewrite mars_select_reg_space_ok by ok_side. cbn.
  rewrite !drop_drop, Hsel, u16_u16. cbn.
  unfold restored, page_access_events.
  destruct (space_of page); cbn;
    rewrite insert_insert_eq, page_code_land2; reflexivity.
Qed.


(** ** Page-banked accessors under arbitrary bus outcomes *)

Lemma next_ok_split m n o :
  next_ok (m + n) o <-> next_ok m o /\ next_ok n (drop m o).
Proof.
  unfold next_ok. rewrite <- Forall_app.
  rewrite <- (take_drop m (take (m + n) o)) at 1.
  rewrite take_take, <- take_drop_commute.
  replace (Nat.min m (m + n)) with m by lia. reflexivity.
Qed.

Lemma next_ok_dec n o : {next_ok n o} + {~ next_ok n o}.
Proof. unfold next_ok. apply Forall_dec. intros e. apply Z_le_dec. Qed.

Lemma fails_at_drop o k i : fails_at o (k + i) -> fails_at (drop k o) i.
Proof. unfold fails_at. intros (e & He & Hn). exists e. rewrite lookup_drop. auto. Qed.

Lemma ltb_outcome_fail o v : fails_at o 0 -> (outcome_of o v <? 0) = true.
Proof. intros H. apply Z.ltb_lt. apply outcome_of_fail, H. Qed.

Lemma fails_at_not_ok o : fails_at o 0 -> ~ next_ok 1 o.
Proof.
  intros (e & He & Hn) H. destruct o as [|a o]; [discriminate|].
  cbn in He. injection He as ->. apply Forall_cons in H as [H _]. lia.
Qed.

(** A failing indirect access leaves the extended registers, hence the
    selected space, as they were; at most the latch has moved. *)
Lemma mars_ext_write_fail c o t d pt ps r v :
  ~ next_ok 2 o ->
  exists e o' t' l,
    mars_ext_write r v (mk_world c o t d pt ps) =
    (e, mk_world (mk_chip l (ext c) (phy_regs c) (sds_regs c)) o' t' d pt ps)
    /\ e < 0.
Proof.
  intros H. unfold mars_ext_write, bind. rewrite phy_write_any. cbn.
  destruct o as [|a1 o].
  { exfalso. apply H. constructor. }
  cbn. destruct (Z.ltb_spec a1 0) as [Hneg|Hpos]; cbn.
  - rewrite (proj2 (Z.ltb_lt a1 0) Hneg). cbn.
    exists a1, o, (EvWrite (selected_space c) 30 (u16 r) :: t), (latch c).
    split; [|assumption]. destruct c; reflexivity.
  - rewrite phy_write_any. cbn.
    destruct o as [|a2 o].
    { exfalso. apply H. repeat constructor. assumption. }
    cbn. destruct (Z.ltb_spec a2 0) as [Hneg2|Hpos2]; cbn.
    + rewrite (proj2 (Z.ltb_lt a2 0) Hneg2). cbn.
      eexists a2, o, _, (u16 r). split; [reflexivity|assumption].
    + exfalso. apply H. repeat constructor; assumption.
Qed.

Lemma mars_ext_read_fail c o t d pt ps r :
  ~ next_ok 2 o ->
  exists e o' t' l,
    mars_ext_read r (mk_world c o t d pt ps) =
    (e, mk_world (mk_chip l (ext c) (phy_regs c) (sds_regs c)) o' t' d pt ps)
    /\ e < 0.
Proof.
  intros H. unfold mars_ext_read, bind. rewrite phy_write_any. cbn.
  destruct o as [|a1 o].
  { exfalso. apply H. constructor. }
  cbn. destruct (Z.ltb_spec a1 0) as [Hneg|Hpos]; cbn.
  - rewrite (proj2 (Z.ltb_lt a1 0) Hneg). cbn.
    exists a1, o, (EvWrite (selected_space c) 30 (u16 r) :: t), (latch c).
    split; [|assumption]. destruct c; reflexivity.
  - rewrite phy_read_any. cbn.
    destruct o as [|a2 o].
    { exfalso. apply H. repeat constructor. assumption. }
    cbn. destruct (Z.ltb_spec a2 0) as [Hneg2|Hpos2]; cbn.
    + eexists a2, o, _, (u16 r). split; [reflexivity|assumption].
    + exfalso. apply H. repeat constructor; assumption.
Qed.

Lemma mars_select_reg_space_fail c o t d pt ps page :
  ~ next_ok 2 o ->
  exists e o' t' l,
    mars_select_reg_space page (mk_world c o t d pt ps) =
    (e, mk_world (mk_chip l (ext c) (phy_regs c) (sds_regs c)) o' t' d pt ps)
    /\ e < 0.
Proof.
  intros H. unfold mars_select_reg_space.
  destruct (page =? CTC_PHY_REG_SPACE); apply mars_ext_write_fail, H.
Qed.

Lemma selected_space_old_page c :
  space_of (Z.land (u16 (page_reg c)) 2) = selected_space c.
Proof.
  rewrite space_of_land2, page_reg_testbit_u16. reflexivity.
Qed.

(** A page-banked access that meets a failure among its first four bus
    transactions returns before the page register has been written. *)
Lemma page_banked_early_exit {A} (inner : M A) finish c o t d pt ps page :
  ~ next_ok 4 o ->
  selected_space
    (the_chip (snd (page_banked inner finish page (mk_world c o t d pt ps))))
  = selected_space c.
Proof.
  intros H. unfold page_banked, bind.
  destruct (next_ok_dec 2 o) as [H2|H2].
  - rewrite mars_ext_read_ok by assumption. cbn.
    rewrite u16_ltb.
    assert (H3 : ~ next_ok 2 (drop 2 o)).
    { intros H3. apply H. apply (next_ok_split 2 2). auto. }
    edestruct mars_select_reg_space_fail as (e & o' & t' & l & -> & He);
      [exact H3|].
    rewrite (proj2 (Z.ltb_lt e 0) He). reflexivity.
  - edestruct mars_ext_read_fail as (e & o' & t' & l & -> & He);
      [exact H2|].
    rewrite (proj2 (Z.ltb_lt e 0) He). reflexivity.
Qed.

(** The accessors of the source are instances of the common shape. *)
Lemma run_access_page_banked a :
  run_access a =
  match a with
  | PageRead page r => page_banked (phy_read r) restore_old_page page
  | PageWrite page r v =>
      page_banked (phy_write r (u16 v)) restore_old_page page
  | PageExtWrite page r v =>
      page_banked (mars_ext_write r (u16 v)) restore_old_page page
  end.
Proof. destruct a; reflexivity. Qed.

Lemma run_access_early_exit a c o t d pt ps :
  ~ next_ok 4 o ->
  selected_space (the_chip (snd (run_access a (mk_world c o t d pt ps))))
  = selected_space c.
Proof.
  intros H. rewrite run_access_page_banked.
  destruct a; apply page_banked_early_exit, H.
Qed.

(** The restoring select, when it succeeds, selects the old space whatever
    the inner access has done to the chip in between. *)
Lemma restore_selects_old_space c c' o t d pt ps val :
  next_ok 2 o ->
  selected_space (the_chip (snd (
    (do r <- mars_select_reg_space (Z.land (u16 (page_reg c)) 0x2);
     if r <? 0 then ret r else ret val) (mk_world c' o t d pt ps))))
  = selected_space c.
Proof.
  intros H. unfold bind. rewrite mars_select_reg_space_ok by assumption.
  cbn. rewrite selected_space_page_code. apply selected_space_old_page.
Qed.

(** C1, as amended.  For [mars_page_read], [mars_page_write] and
    [mars_page_ext_write]: the register space selected when the operation
    returns is the one that was selected when it was called, on every exit
    path on which the restoring select does not fail -- the early returns
    (page-register read or target select failed) and the complete runs,
    whether the inner bus read or write succeeds or fails. *)
Theorem page_access_restores_space (a : page_access) (w : world) :
  restore_not_failing a (bus_outcomes w) ->
  selected_space (the_chip (snd (run_access a w)))
  = selected_space (the_chip w).
Proof.
  destruct w as [c o t d pt ps]. cbn [bus_outcomes the_chip].
  intros H. destruct (next_ok_dec 4 o) as [H4|H4];
    [|apply run_access_early_exit, H4].
  destruct H as [H|H]; [contradiction|].
  assert (H2 : next_ok 2 o) by ok_side.
  assert (H2' : next_ok 2 (drop 2 o)) by ok_side.
  destruct a as [page r | page r v | page r v]; cbn [run_access].
  - unfold Rev2.mars_page_read. unfold bind at 1.
    rewrite mars_ext_read_ok by assumption. cbn. rewrite u16_ltb, !u16_page_reg.
    unfold bind at 1.
    rewrite mars_select_reg_space_ok by assumption. cbn.
    unfold bind at 1. rewrite phy_read_any.
    apply restore_selects_old_space. ok_side.
  - unfold Rev2.mars_page_write. unfold bind at 1.
    rewrite mars_ext_read_ok by assumption. cbn. rewrite u16_ltb, !u16_page_reg.
    unfold bind at 1.
    rewrite mars_select_reg_space_ok by assumption. cbn.
    unfold bind at 1. rewrite phy_write_any.
    apply restore_selects_old_space. ok_side.
  - unfold Rev2.mars_page_ext_write. unfold bind at 1.
    rewrite mars_ext_read_ok by assumption. cbn. rewrite u16_ltb, !u16_page_reg.
    unfold bind at 1.
    rewrite mars_select_reg_space_ok by assumption. cbn.
    unfold bind at 1. unfold mars_ext_write. unfold bind at 1.
    rewrite phy_write_any. rewrite drop_drop. cbn [Nat.add].
    destruct H as [[Hf Hr] | [H5 Hr]].
    + rewrite ltb_outcome_fail by (apply (fails_at_drop o 4 0), Hf).
      unfold ret at 1.
      apply restore_selects_old_space. ok_side.
    + rewrite outcome_of_ok by ok_side. cbn.
      rewrite phy_write_any.
      apply restore_selects_old_space. ok_side.
Qed.

(** The inner read fails with [-EIO] while the SerDes space is the old
    space: the error is returned and the SerDes space is selected again. *)
Lemma page_access_restores_space_witness :
  restore_not_failing (PageRead CTC_PHY_REG_SPACE MII_BMSR) [0; 0; 0; 0; EIO; 0; 0] /\
  fst (Rev2.mars_page_read CTC_PHY_REG_SPACE MII_BMSR
         (world_on_page 0x2 [0; 0; 0; 0; EIO; 0; 0])) = EIO /\
  selected_space (the_chip (snd (Rev2.mars_page_read CTC_PHY_REG_SPACE MII_BMSR
         (world_on_page 0x2 [0; 0; 0; 0; EIO; 0; 0])))) = SECONDARY.
Proof.
  assert (H : restore_not_failing (PageRead CTC_PHY_REG_SPACE MII_BMSR)
                [0; 0; 0; 0; EIO; 0; 0]).
  { right. unfold next_ok. cbn. repeat constructor; lia. }
  split; [exact H|]. split; [reflexivity|].
  exact (page_access_restores_space (PageRead CTC_PHY_REG_SPACE MII_BMSR)
           (world_on_page 0x2 [0; 0; 0; 0; EIO; 0; 0]) H).
Defined.

(** The claim as stated fails on two exit paths.  Later revision: the
    PHY space is selected, [mars_page_read] of the SerDes space meets a
    failure on the first transaction of its restoring select, and returns
    [-EIO] with the SerDes space selected.  Earlier revision: the SerDes
    space is selected (page register 0x2), [mars_set_wol] runs on a
    working bus, and returns 0 with the PHY space selected. *)
Lemma space_not_restored_counterexample :
  (let w := world_on_page 0x0 [0; 0; 0; 0; 0; EIO] in
   selected_space (the_chip w) = PRIMARY /\
   fst (Rev2.mars_page_read CTC_SDS_REG_SPACE MII_BMSR w) = EIO /\
   selected_space (the_chip (snd (Rev2.mars_page_read CTC_SDS_REG_SPACE MII_BMSR w)))
   = SECONDARY) /\
  (let w := world_on_page 0x2 [] in
   selected_space (the_chip w) = SECONDARY /\
   fst (Rev1.mars_set_wol (mk_wolinfo WAKE_MAGIC 0) w) = 0 /\
   selected_space (the_chip (snd (Rev1.mars_set_wol (mk_wolinfo WAKE_MAGIC 0) w)))
   = PRIMARY).
Proof. vm_compute. repeat split. Qed.

(** Hence neither the accessors of the later revision nor [mars_set_wol]
    of the earlier one restore the space on every exit path. *)
Lemma not_every_exit_restores_space :
  ~ (forall a w,
       selected_space (the_chip (snd (run_access a w)))
       = selected_space (the_chip w)) /\
  ~ (forall wol w,
       selected_space (the_chip (snd (Rev1.mars_set_wol wol w)))
       = selected_space (the_chip w)).
Proof.
  split.
  - intros H.
    specialize (H (PageRead CTC_SDS_REG_SPACE MII_BMSR)
                  (world_on_page 0x0 [0; 0; 0; 0; 0; EIO])).
    vm_compute in H. discriminate H.
  - intros H.
    specialize (H (mk_wolinfo WAKE_MAGIC 0) (world_on_page 0x2 [])).
    vm_compute in H. discriminate H.
Qed.

(** When the restoring select itself fails, a page-banked read returns
    the errno with the chip left in the target space. *)
Lemma page_read_restore_failure c o t d pt ps page r :
  next_ok 4 o -> ~ next_ok 2 (drop 5 o) ->
  exists e w',
    Rev2.mars_page_read page r (mk_world c o t d pt ps) = (e, w') /\
    e < 0 /\
    selected_space (the_chip w') = space_of page.
Proof.
  intros H4 Hr.
  assert (H2 : next_ok 2 o) by ok_side.
  assert (H2' : next_ok 2 (drop 2 o)) by ok_side.
  unfold Rev2.mars_page_read. unfold bind at 1.
  rewrite mars_ext_read_ok by assumption. cbn. rewrite u16_ltb, !u16_page_reg.
  unfold bind at 1.
  rewrite mars_select_reg_space_ok by assumption. cbn.
  unfold bind at 1. rewrite phy_read_any. unfold bind.
  rewrite !drop_drop. cbn [Nat.add].
  edestruct mars_select_reg_space_fail as (e & o' & t' & l & -> & He);
    [exact Hr|].
  rewrite (proj2 (Z.ltb_lt e 0) He). unfold ret.
  eexists _, _. split; [reflexivity|]. split; [exact He|].
  cbn [the_chip ext]. apply selected_space_page_code.
Qed.

(** ** Port-type detection *)

Lemma rev2_get_port_type_eq (w : world) :
  let v := fst (mars_ext_read CTC_MARS_CHIP_CFG_REG w) in
  let w1 := snd (mars_ext_read CTC_MARS_CHIP_CFG_REG w) in
  let port_type := port_type_of_cfg (Z.land v 0x7) in
  Rev2.mars_get_port_type w =
  if v <? 0 then (v, w1)
  else (0, set_port_status (seeded_media port_type (g_port_status w1))
             (set_port_type port_type w1)).
Proof.
  cbv zeta. unfold Rev2.mars_get_port_type, bind.
  destruct (mars_ext_read CTC_MARS_CHIP_CFG_REG w) as [v w1]. cbn [fst snd].
  destruct (v <? 0); [reflexivity|].
  unfold port_type_of_cfg, seeded_media.
  destruct ((Z.land v 7 =? 0) || (Z.land v 7 =? 3)); [reflexivity|].
  destruct ((Z.land v 7 =? 1) || (Z.land v 7 =? 4) || (Z.land v 7 =? 5));
    [reflexivity|].
  destruct w1; reflexivity.
Qed.

(** C3.  [mars_get_port_type] reads the chip configuration register; when
    the read fails it returns the errno and changes neither global; when
    the read yields [v] it returns 0, sets the port type to the
    classification of the low three bits of [v] ({0,3}: COPPER, {1,4,5}:
    FIBER, else COMBO) and pre-seeds Active Media to the same medium for
    COPPER and FIBER, leaving it untouched for COMBO. *)
Theorem get_port_type_classifies (w : world) :
  let v := fst (mars_ext_read CTC_MARS_CHIP_CFG_REG w) in
  let w1 := snd (mars_ext_read CTC_MARS_CHIP_CFG_REG w) in
  let port_type := port_type_of_cfg (Z.land v 0x7) in
  Rev2.mars_get_port_type w =
  if v <? 0 then (v, w1)
  else (0, set_port_status (seeded_media port_type (g_port_status w1))
             (set_port_type port_type w1)).
Proof. exact (rev2_get_port_type_eq w). Qed.

Lemma land7_u16 x : Z.land (u16 x) 7 = Z.land x 7.
Proof.
  unfold u16. rewrite <- Z.land_assoc. reflexivity.
Qed.

(** On a working bus the value classified is the one held by the chip. *)
Lemma get_port_type_on_chip (w : world) :
  next_ok 2 (bus_outcomes w) ->
  let V := Z.land (reg (ext (the_chip w)) CTC_MARS_CHIP_CFG_REG) 0x7 in
  let w' := snd (Rev2.mars_get_port_type w) in
  fst (Rev2.mars_get_port_type w) = 0 /\
  g_port_type w' = port_type_of_cfg V /\
  g_port_status w' = seeded_media (port_type_of_cfg V) (g_port_status w).
Proof.
  intros H. cbv zeta. rewrite rev2_get_port_type_eq.
  destruct w as [c o t d pt ps]. cbn [bus_outcomes the_chip] in *.
  rewrite mars_ext_read_ok by assumption. cbn [fst snd].
  rewrite u16_ltb, land7_u16. cbn. auto.
Qed.

Example get_port_type_fiber_scenario :
  let w := mk_world (mk_chip 0 (<[CTC_MARS_CHIP_CFG_REG := 0x1]> ∅) ∅ ∅)
                    [] [] no_dev MARS_PORT_TYPE_UTP MARS_PORT_TYPE_UTP in
  g_port_type (snd (Rev2.mars_get_port_type w)) = MARS_PORT_TYPE_FIBER /\
  g_port_status (snd (Rev2.mars_get_port_type w)) = MARS_PORT_TYPE_FIBER.
Proof. vm_compute. split; reflexivity. Qed.

(** ** Wake-on-LAN status *)

Lemma truthy_land_bit v k :
  0 <= k -> truthy (Z.land v (2 ^ k)) = Z.testbit v k.
Proof.
  intros Hk. unfold truthy.
  destruct (Z.testbit v k) eqn:E.
  - apply negb_true_iff, Z.eqb_neq. intros H0.
    assert (Hb : Z.testbit (Z.land v (2 ^ k)) k = true).
    { rewrite Z.land_spec, E, Z.pow2_bits_true by lia. reflexivity. }
    rewrite H0, Z.bits_0 in Hb. discriminate.
  - apply negb_false_iff, Z.eqb_eq. apply Z.bits_inj'. intros n Hn.
    rewrite Z.land_spec, Z.bits_0.
    destruct (Z.eq_dec n k) as [->|Hne].
    + rewrite E. reflexivity.
    + rewrite Z.pow2_bits_false by lia. apply andb_false_r.
Qed.

(** C9.  [mars_get_wol] has no error result.  It always reports
    magic-packet support; it reports the option disabled ([wolopts = 0])
    when the read of the WOL configuration register fails, and otherwise
    reports it enabled exactly when bit 3 of the value read is set. *)
Theorem get_wol_swallows_read_failure (wol : ethtool_wolinfo) (w : world) :
  let v := fst (mars_ext_read CTC_MARS_WOL_CFG_REG w) in
  mars_get_wol wol w =
  (mk_wolinfo WAKE_MAGIC
     (if v <? 0 then 0 else if Z.testbit v 3 then WAKE_MAGIC else 0),
   snd (mars_ext_read CTC_MARS_WOL_CFG_REG w)).
Proof.
  cbv zeta. unfold mars_get_wol, bind.
  destruct (mars_ext_read CTC_MARS_WOL_CFG_REG w) as [v w1]. cbn [fst snd].
  destruct (v <? 0); [reflexivity|].
  change CTC_MARS_WOL_EN with (2 ^ 3). rewrite truthy_land_bit by lia.
  destruct (Z.testbit v 3); reflexivity.
Qed.

Example get_wol_read_failure :
  fst (mars_get_wol (mk_wolinfo 0 0)
         (mk_world (mk_chip 0 (<[CTC_MARS_WOL_CFG_REG := 0x4f]> ∅) ∅ ∅)
                   [0; EIO] [] no_dev 0 0))
  = mk_wolinfo WAKE_MAGIC 0.
Proof. reflexivity. Qed.

Example get_wol_enabled :
  fst (mars_get_wol (mk_wolinfo 0 0)
         (mk_world (mk_chip 0 (<[CTC_MARS_WOL_CFG_REG := 0x4f]> ∅) ∅ ∅)
                   [] [] no_dev 0 0))
  = mk_wolinfo WAKE_MAGIC WAKE_MAGIC.
Proof. reflexivity. Qed.

(** ** The WOL configuration register *)

Lemma testbit_const_1 n : Z.testbit 1 n = (n =? 0).
Proof. change 1 with (2 ^ 0). rewrite Z.pow2_bits_eqb by lia. apply Z.eqb_sym. Qed.
Lemma testbit_const_2 n : Z.testbit 2 n = (n =? 1).
Proof. change 2 with (2 ^ 1). rewrite Z.pow2_bits_eqb by lia. apply Z.eqb_sym. Qed.
Lemma testbit_const_4 n : Z.testbit 4 n = (n =? 2).
Proof. change 4 with (2 ^ 2). rewrite Z.pow2_bits_eqb by lia. apply Z.eqb_sym. Qed.
Lemma testbit_const_8 n : Z.testbit 8 n = (n =? 3).
Proof. change 8 with (2 ^ 3). rewrite Z.pow2_bits_eqb by lia. apply Z.eqb_sym. Qed.
Lemma testbit_const_64 n : Z.testbit 64 n = (n =? 6).
Proof. change 64 with (2 ^ 6). rewrite Z.pow2_bits_eqb by lia. apply Z.eqb_sym. Qed.

Ltac wol_bits :=
  unfold clear_bits, CTC_MARS_WOL_EN, CTC_MARS_WOL_TYPE, CTC_MARS_WOL_INTR_SEL,
    CTC_MARS_WOL_WIDTH1, CTC_MARS_WOL_WIDTH2;
  repeat first
    [ rewrite Z.lor_spec | rewrite Z.land_spec | rewrite Z.lnot_spec by assumption
    | rewrite testbit_const_1 | rewrite testbit_const_2 | rewrite testbit_const_4
    | rewrite testbit_const_8 | rewrite testbit_const_64 ].

(** What [wol_cfg_value] does to bit [n] of the value read. *)
Lemma wol_cfg_value_testbit val wol_cfg n :
  0 <= n ->
  Z.testbit (wol_cfg_value val wol_cfg) n =
  if truthy (enable wol_cfg) then
    if type wol_cfg =? MARS_WOL_TYPE_LEVEL then
      if n =? 3 then true
      else if (n =? 0) || (n =? 6) then false
      else Z.testbit val n
    else if type wol_cfg =? MARS_WOL_TYPE_PULSE then
      if (n =? 3) || (n =? 0) || (n =? 6) then true
      else if (n =? 1) || (n =? 2) then
        if (0 <=? width wol_cfg) && (width wol_cfg <=? 3)
        then Z.testbit (width wol_cfg) (n - 1)
        else Z.testbit val n
      else Z.testbit val n
    else
      if n =? 3 then true else Z.testbit val n
  else
    if (n =? 3) || (n =? 6) then false else Z.testbit val n.
Proof.
  intros Hn. unfold wol_cfg_value.
  destruct (truthy (enable wol_cfg)).
  2:{ wol_bits. destruct (Z.eqb_spec n 3), (Z.eqb_spec n 6); cbn;
        rewrite ?andb_true_r, ?andb_false_r; reflexivity. }
  destruct (type wol_cfg =? MARS_WOL_TYPE_LEVEL).
  { wol_bits. destruct (Z.eqb_spec n 3), (Z.eqb_spec n 0), (Z.eqb_spec n 6);
      cbn; rewrite ?andb_true_r, ?andb_false_r, ?orb_true_r, ?orb_false_r;
      try reflexivity; lia. }
  destruct (type wol_cfg =? MARS_WOL_TYPE_PULSE).
  2:{ wol_bits. destruct (Z.eqb_spec n 3); cbn;
        rewrite ?orb_true_r, ?orb_false_r; reflexivity. }
  unfold MARS_WOL_WIDTH_84MS, MARS_WOL_WIDTH_168MS, MARS_WOL_WIDTH_336MS,
    MARS_WOL_WIDTH_672MS.
  destruct (Z.eqb_spec (width wol_cfg) 0) as [->|H0].
  { wol_bits. destruct (Z.eqb_spec n 3), (Z.eqb_spec n 0), (Z.eqb_spec n 6),
      (Z.eqb_spec n 1), (Z.eqb_spec n 2); subst; cbn;
      rewrite ?andb_true_r, ?andb_false_r, ?orb_true_r, ?orb_false_r;
      try reflexivity; try lia. all: symmetry; apply Z.bits_0. }
  destruct (Z.eqb_spec (width wol_cfg) 1) as [->|H1].
  { wol_bits. destruct (Z.eqb_spec n 3), (Z.eqb_spec n 0), (Z.eqb_spec n 6),
      (Z.eqb_spec n 1), (Z.eqb_spec n 2); subst; cbn;
      rewrite ?andb_true_r, ?andb_false_r, ?orb_true_r, ?orb_false_r;
      try reflexivity; try lia. }
  destruct (Z.eqb_spec (width wol_cfg) 2) as [->|H2].
  { wol_bits. destruct (Z.eqb_spec n 3), (Z.eqb_spec n 0), (Z.eqb_spec n 6),
      (Z.eqb_spec n 1), (Z.eqb_spec n 2); subst; cbn;
      rewrite ?andb_true_r, ?andb_false_r, ?orb_true_r, ?orb_false_r;
      try reflexivity; try lia. }
  destruct (Z.eqb_spec (width wol_cfg) 3) as [->|H3].
  { wol_bits. destruct (Z.eqb_spec n 3), (Z.eqb_spec n 0), (Z.eqb_spec n 6),
      (Z.eqb_spec n 1), (Z.eqb_spec n 2); subst; cbn;
      rewrite ?andb_true_r, ?andb_false_r, ?orb_true_r, ?orb_false_r;
      try reflexivity; try lia. }
  wol_bits.
  replace ((0 <=? width wol_cfg) && (width wol_cfg <=? 3)) with false.
  2:{ symmetry. apply andb_false_iff.
      destruct (Z.leb_spec 0 (width wol_cfg)); [right|left; reflexivity].
      apply Z.leb_gt. lia. }
  destruct (Z.eqb_spec n 3), (Z.eqb_spec n 0), (Z.eqb_spec n 6),
      (Z.eqb_spec n 1), (Z.eqb_spec n 2); subst; cbn;
      rewrite ?andb_true_r, ?andb_false_r, ?orb_true_r, ?orb_false_r;
      try reflexivity; try lia.
Qed.

Lemma is_wol_bit_false n :
  is_wol_bit n = false ->
  (n =? 0) = false /\ (n =? 1) = false /\ (n =? 2) = false /\
  (n =? 3) = false /\ (n =? 6) = false.
Proof.
  unfold is_wol_bit. intros H.
  repeat (apply orb_false_iff in H; destruct H as [H ?]). auto.
Qed.

(** Bits outside the WOL bits pass through [wol_cfg_value] unchanged. *)
Lemma wol_cfg_value_frame val wol_cfg n :
  0 <= n -> is_wol_bit n = false ->
  Z.testbit (wol_cfg_value val wol_cfg) n = Z.testbit val n.
Proof.
  intros Hn H. apply is_wol_bit_false in H as (H0 & H1 & H2 & H3 & H6).
  rewrite wol_cfg_value_testbit by assumption.
  rewrite H0, H1, H2, H3, H6. cbn.
  repeat match goal with |- context [if ?b then _ else _] => destruct b end;
    reflexivity.
Qed.

Lemma wol_cfg_value_u16 val wol_cfg :
  u16 (wol_cfg_value (u16 val) wol_cfg) = wol_cfg_value (u16 val) wol_cfg.
Proof.
  apply Z.bits_inj'. intros n Hn. rewrite u16_testbit by assumption.
  destruct (Z.ltb_spec n 16); [apply andb_true_r|].
  rewrite andb_false_r, wol_cfg_value_frame, u16_testbit by
    (try assumption; unfold is_wol_bit;
     repeat (apply orb_false_iff; split); apply Z.eqb_neq; lia).
  destruct (Z.ltb_spec n 16); [lia|]. symmetry. apply andb_false_r.
Qed.

Lemma mars_wol_en_cfg_ok c o t d pt ps wol_cfg :
  next_ok 4 o ->
  exists t',
    mars_wol_en_cfg wol_cfg (mk_world c o t d pt ps) =
    (0,
     mk_world
       (mk_chip CTC_MARS_WOL_CFG_REG
          (<[CTC_MARS_WOL_CFG_REG :=
               wol_cfg_value (u16 (reg (ext c) CTC_MARS_WOL_CFG_REG)) wol_cfg]>
             (ext c))
          (phy_regs c) (sds_regs c))
       (drop 4 o) t' d pt ps).
Proof.
  intros H. unfold mars_wol_en_cfg, bind.
  rewrite mars_ext_read_ok by ok_side. cbn. rewrite u16_ltb.
  rewrite mars_ext_write_ok by ok_side. cbn.
  rewrite wol_cfg_value_u16, drop_drop. eexists. reflexivity.
Qed.

(** C6, as amended.  [mars_wol_en_cfg] reads the WOL configuration
    register, changes only WOL-related bits and writes the value back:
    every bit outside the WOL-related bits keeps the value read.  Among
    the WOL bits it touches only those the new configuration decides: when
    disabling, enable and interrupt-select are cleared while type and
    width keep the value read; when enabling, enable is set, the level
    type clears type and interrupt-select (width keeps the value read),
    and the pulse type sets type and interrupt-select and sets the width
    bits to the configured width. *)
Theorem wol_en_cfg_read_modify_write (wol_cfg : mars_wol_cfg_t) (w : world) :
  next_ok 4 (bus_outcomes w) ->
  let old := u16 (reg (ext (the_chip w)) CTC_MARS_WOL_CFG_REG) in
  let new := reg (ext (the_chip (snd (mars_wol_en_cfg wol_cfg w))))
                 CTC_MARS_WOL_CFG_REG in
  fst (mars_wol_en_cfg wol_cfg w) = 0 /\
  new = wol_cfg_value old wol_cfg /\
  (forall n, 0 <= n -> is_wol_bit n = false ->
             Z.testbit new n = Z.testbit old n) /\
  (forall n, 0 <= n ->
     Z.testbit new n =
     if truthy (enable wol_cfg) then
       if type wol_cfg =? MARS_WOL_TYPE_LEVEL then
         if n =? 3 then true
         else if (n =? 0) || (n =? 6) then false
         else Z.testbit old n
       else if type wol_cfg =? MARS_WOL_TYPE_PULSE then
         if (n =? 3) || (n =? 0) || (n =? 6) then true
         else if (n =? 1) || (n =? 2) then
           if (0 <=? width wol_cfg) && (width wol_cfg <=? 3)
           then Z.testbit (width wol_cfg) (n - 1)
           else Z.testbit old n
         else Z.testbit old n
       else
         if n =? 3 then true else Z.testbit old n
     else
       if (n =? 3) || (n =? 6) then false else Z.testbit old n).
Proof.
  destruct w as [c o t d pt ps]. cbn [bus_outcomes the_chip]. intros H.
  destruct (mars_wol_en_cfg_ok c o t d pt ps wol_cfg H) as [t' ->].
  cbn [fst snd the_chip ext]. rewrite reg_insert_eq. split; [reflexivity|]. split; [reflexivity|]. split.
  - intros n Hn Hb. apply wol_cfg_value_frame; assumption.
  - intros n Hn. apply wol_cfg_value_testbit; assumption.
Qed.

(** Enabling pulse / 672 ms on a register holding 0x8030: the bits 4, 5
    and 15 outside the WOL bits survive, the five WOL bits are set. *)
Lemma wol_en_cfg_read_modify_write_witness :
  let w := mk_world (mk_chip 0 (<[CTC_MARS_WOL_CFG_REG := 0x8030]> ∅) ∅ ∅)
                    [] [] no_dev 0 0 in
  next_ok 4 (bus_outcomes w) /\
  fst (mars_wol_en_cfg wol_pulse_672 w) = 0 /\
  reg (ext (the_chip (snd (mars_wol_en_cfg wol_pulse_672 w))))
      CTC_MARS_WOL_CFG_REG = 0x807f.
Proof.
  cbv zeta. split; [apply next_ok_nil|].
  pose proof (wol_en_cfg_read_modify_write wol_pulse_672
    (mk_world (mk_chip 0 (<[CTC_MARS_WOL_CFG_REG := 0x8030]> ∅) ∅ ∅)
              [] [] no_dev 0 0) (next_ok_nil _)) as (H0 & H1 & _).
  split; [exact H0|]. rewrite H1. reflexivity.
Defined.

(** The claim as stated fails: disabling leaves the type and width bits
    as they were read, so the WOL bits of the value written depend on the
    value read, where "clear all, then set from the configuration" would
    make them a function of the configuration alone. *)
Lemma wol_bits_not_all_cleared :
  wol_cfg_value 0x4f wol_disable = 0x07 /\
  wol_cfg_value_spec 0x4f wol_disable = 0x00 /\
  wol_cfg_value 0x48 wol_disable = 0x00 /\
  (let w := mk_world (mk_chip 0 (<[CTC_MARS_WOL_CFG_REG := 0x4f]> ∅) ∅ ∅)
                     [] [] no_dev 0 0 in
   fst (mars_wol_en_cfg wol_disable w) = 0 /\
   reg (ext (the_chip (snd (mars_wol_en_cfg wol_disable w))))
       CTC_MARS_WOL_CFG_REG = 0x07).
Proof. vm_compute. repeat split. Qed.

(** For the one enabling configuration the driver builds, the code and
    the spec's description agree. *)
Lemma wol_cfg_value_pulse_672 val :
  wol_cfg_value val wol_pulse_672 = wol_cfg_value_spec val wol_pulse_672.
Proof.
  apply Z.bits_inj'. intros n Hn.
  rewrite wol_cfg_value_testbit by assumption.
  unfold wol_cfg_value_spec, wol_bits_of_cfg, WOL_BITS. cbn.
  change (Z.shiftl (Z.land MARS_WOL_WIDTH_672MS 3) 1) with 6.
  change MARS_WOL_WIDTH_672MS with 3.
  wol_bits.
  assert (H6 : Z.testbit 6 n = (n =? 1) || (n =? 2)).
  { change 6 with (Z.lor 2 4). rewrite Z.lor_spec, testbit_const_2, testbit_const_4.
    reflexivity. }
  rewrite H6.
  destruct (Z.eqb_spec n 3), (Z.eqb_spec n 0), (Z.eqb_spec n 6),
    (Z.eqb_spec n 1), (Z.eqb_spec n 2); subst; cbn;
    rewrite ?andb_true_r, ?andb_false_r, ?orb_true_r, ?orb_false_r;
    try reflexivity; try lia.
Qed.

(** ** The two restore steps *)

Lemma select_after_mask c o t d pt ps oldpage mask :
  next_ok 2 o -> mask = 1 \/ mask = 2 ->
  selected_space (the_chip (snd (mars_select_reg_space (Z.land oldpage mask)
                                   (mk_world c o t d pt ps))))
  = if Z.testbit oldpage (mask - 1) then SECONDARY else PRIMARY.
Proof.
  intros H Hm. rewrite mars_select_reg_space_ok by assumption.
  cbn [snd the_chip]. rewrite selected_space_page_code.
  unfold space_of, CTC_PHY_REG_SPACE.
  destruct Hm as [-> | ->]; cbn [Z.sub Z.add Z.opp Z.pos_sub].
  - change (1 - 1) with 0. change 1 with (2 ^ 0) at 1.
    rewrite land_pow2 by lia. destruct (Z.testbit oldpage 0); reflexivity.
  - change (2 - 1) with 1. rewrite <- (land2_testbit oldpage).
    destruct (land2_cases oldpage) as [-> | ->]; reflexivity.
Qed.

(** C7.  There is a prior page-register value, 0x2 (SerDes space
    selected), for which the restore step of the earlier revision,
    [mars_select_reg_space(oldpage & 0x1)], selects the PHY space while
    that of the later revision, [mars_select_reg_space(oldpage & 0x2)],
    selects the SerDes space. *)
Theorem restore_steps_not_equivalent :
  exists oldpage : Z,
    forall w : world,
      next_ok 2 (bus_outcomes w) ->
      selected_space
        (the_chip (snd (mars_select_reg_space (Z.land oldpage 0x1) w)))
      = PRIMARY /\
      selected_space
        (the_chip (snd (mars_select_reg_space (Z.land oldpage 0x2) w)))
      = SECONDARY.
Proof.
  exists 0x2. intros [c o t d pt ps] H. cbn [bus_outcomes] in H.
  rewrite (select_after_mask c o t d pt ps 2 1) by auto.
  rewrite (select_after_mask c o t d pt ps 2 2) by auto.
  split; reflexivity.
Qed.

(** On a chip with the SerDes space selected. *)
Lemma restore_steps_not_equivalent_witness :
  exists oldpage : Z,
    selected_space
      (the_chip (snd (mars_select_reg_space (Z.land oldpage 0x1)
                        (world_on_page 0x2 []))))
    <> selected_space
      (the_chip (snd (mars_select_reg_space (Z.land oldpage 0x2)
                        (world_on_page 0x2 [])))).
Proof.
  destruct restore_steps_not_equivalent as [oldpage H].
  exists oldpage.
  destruct (H (world_on_page 0x2 []) (next_ok_nil _)) as [-> ->].
  discriminate.
Defined.

(** The two restore steps agree exactly on the page values whose bits 0
    and 1 are equal. *)
Lemma restore_steps_agree_iff c o t d pt ps oldpage :
  next_ok 2 o ->
  selected_space (the_chip (snd (mars_select_reg_space (Z.land oldpage 0x1)
                                   (mk_world c o t d pt ps))))
  = selected_space (the_chip (snd (mars_select_reg_space (Z.land oldpage 0x2)
                                   (mk_world c o t d pt ps))))
  <-> Z.testbit oldpage 0 = Z.testbit oldpage 1.
Proof.
  intros H.
  rewrite (select_after_mask c o t d pt ps oldpage 1) by auto.
  rewrite (select_after_mask c o t d pt ps oldpage 2) by auto.
  change (1 - 1) with 0. change (2 - 1) with 1.
  destruct (Z.testbit oldpage 0), (Z.testbit oldpage 1); split;
    intros; try reflexivity; discriminate.
Qed.

(** ** Frame rules: what the driver leaves alone whatever the bus does *)

Lemma keeps_ret {A B} (f : world -> B) (a : A) : keeps f (ret a).
Proof. intros w. reflexivity. Qed.

Lemma keeps_bind {A B C} (f : world -> C) (m : M A) (k : A -> M B) :
  keeps f m -> (forall a, keeps f (k a)) -> keeps f (bind m k).
Proof.
  intros Hm Hk w. unfold bind. specialize (Hm w).
  destruct (m w) as [a w1]. cbn in Hm. rewrite <- Hm. apply Hk.
Qed.

Lemma keeps_get {A B} (f : world -> B) (g : world -> A) : keeps f (get g).
Proof. intros w. reflexivity. Qed.

Lemma keeps_host_phy_read r : keeps host_state (phy_read r).
Proof. intros [c o t d pt ps]. rewrite phy_read_any. reflexivity. Qed.

Lemma keeps_host_phy_write r v : keeps host_state (phy_write r v).
Proof. intros [c o t d pt ps]. rewrite phy_write_any. reflexivity. Qed.

Ltac keeps_step :=
  lazymatch goal with
  | |- keeps _ (bind _ _) => apply keeps_bind; [ | intros ? ]
  | |- keeps _ (ret _) => apply keeps_ret
  | |- keeps _ (get _) => apply keeps_get
  | |- keeps _ (if ?b then _ else _) => destruct b
  | |- keeps _ (let _ := _ in _) => cbv zeta
  | |- keeps _ _ => solve [ auto with keeps ]
  end.
Ltac keeps_tac := repeat keeps_step.

Create HintDb keeps.
#[local] Hint Resolve keeps_host_phy_read keeps_host_phy_write : keeps.

Lemma keeps_host_ext_read r : keeps host_state (mars_ext_read r).
Proof. unfold mars_ext_read. keeps_tac. Qed.

Lemma keeps_host_ext_write r v : keeps host_state (mars_ext_write r v).
Proof. unfold mars_ext_write. keeps_tac. Qed.

#[local] Hint Resolve keeps_host_ext_read keeps_host_ext_write : keeps.

Lemma keeps_host_select page : keeps host_state (mars_select_reg_space page).
Proof. unfold mars_select_reg_space. keeps_tac. Qed.

#[local] Hint Resolve keeps_host_select : keeps.

Lemma keeps_host_page_read page r : keeps host_state (Rev2.mars_page_read page r).
Proof. unfold Rev2.mars_page_read. keeps_tac. Qed.

Lemma keeps_host_page_write page r v :
  keeps host_state (Rev2.mars_page_write page r v).
Proof. unfold Rev2.mars_page_write. keeps_tac. Qed.

Lemma keeps_host_page_ext_write page r v :
  keeps host_state (Rev2.mars_page_ext_write page r v).
Proof. unfold Rev2.mars_page_ext_write. keeps_tac. Qed.

#[local] Hint Resolve keeps_host_page_read keeps_host_page_write
  keeps_host_page_ext_write : keeps.

Lemma keeps_host_wol_en_cfg cfg : keeps host_state (mars_wol_en_cfg cfg).
Proof. unfold mars_wol_en_cfg. keeps_tac. Qed.

#[local] Hint Resolve keeps_host_wol_en_cfg : keeps.

Lemma host_state_phydev w w' : host_state w' = host_state w -> phydev w' = phydev w.
Proof. unfold host_state. congruence. Qed.

Lemma host_state_port_type w w' :
  host_state w' = host_state w -> g_port_type w' = g_port_type w.
Proof. unfold host_state. congruence. Qed.

Lemma host_state_port_status w w' :
  host_state w' = host_state w -> g_port_status w' = g_port_status w.
Proof. unfold host_state. congruence. Qed.

(** ** Status decoding *)

Lemma truthy_land_0x8000 v : truthy (Z.land v 0x8000) = Z.testbit v 15.
Proof. exact (truthy_land_bit v 15 ltac:(lia)). Qed.
Lemma truthy_land_0x4000 v : truthy (Z.land v 0x4000) = Z.testbit v 14.
Proof. exact (truthy_land_bit v 14 ltac:(lia)). Qed.
Lemma truthy_land_0x2000 v : truthy (Z.land v 0x2000) = Z.testbit v 13.
Proof. exact (truthy_land_bit v 13 ltac:(lia)). Qed.
Lemma truthy_land_pause_cap v : truthy (Z.land v LPA_PAUSE_CAP) = Z.testbit v 10.
Proof. exact (truthy_land_bit v 10 ltac:(lia)). Qed.
Lemma truthy_land_pause_asym v : truthy (Z.land v LPA_PAUSE_ASYM) = Z.testbit v 11.
Proof. exact (truthy_land_bit v 11 ltac:(lia)). Qed.

Ltac decode_bits :=
  rewrite ?truthy_land_0x8000, ?truthy_land_0x4000, ?truthy_land_0x2000,
    ?truthy_land_pause_cap, ?truthy_land_pause_asym.

Lemma rev2_read_status_eq (w : world) :
  let r := fst (Rev2.mars_update_link w) in
  let w1 := snd (Rev2.mars_update_link w) in
  let page := status_page (g_port_status w1) in
  let w2 := set_phydev (status_defaults (phydev w1)) w1 in
  let val := fst (Rev2.mars_page_read page CTC_MARS_SSREG w2) in
  let w3 := snd (Rev2.mars_page_read page CTC_MARS_SSREG w2) in
  let lpa := fst (Rev2.mars_page_read page MII_LPA w3) in
  let w4 := snd (Rev2.mars_page_read page MII_LPA w3) in
  phydev w3 = status_defaults (phydev w1) /\
  phydev w4 = status_defaults (phydev w1) /\
  Rev2.mars_read_status w =
  if r <? 0 then (r, w1)
  else if val <? 0 then (val, w3)
  else if lpa <? 0 then (lpa, w4)
  else (0, set_phydev (status_decoded val lpa (phydev w1)) w4).
Proof.
  cbv zeta.
  unfold Rev2.mars_read_status. unfold bind at 1.
  destruct (Rev2.mars_update_link w) as [r w1]. cbn [fst snd].
  set (page := status_page (g_port_status w1)).
  set (w2 := set_phydev (status_defaults (phydev w1)) w1).
  pose proof (host_state_phydev _ _
                (keeps_host_page_read page CTC_MARS_SSREG w2)) as F3.
  pose proof (host_state_phydev _ _
                (keeps_host_page_read page MII_LPA
                   (snd (Rev2.mars_page_read page CTC_MARS_SSREG w2)))) as F4.
  rewrite F3 in F4. change (phydev w2) with (status_defaults (phydev w1)) in *.
  split; [exact F3|]. split; [exact F4|].
  destruct (r <? 0); [reflexivity|].
  unfold bind, get, set_dev, modify. cbn [fst snd].
  change (if truthy (g_port_status w1) then CTC_SDS_REG_SPACE
          else CTC_PHY_REG_SPACE) with page.
  change (set_phydev _ (set_phydev _ (set_phydev _ (set_phydev _ w1))))
    with w2.
  destruct (Rev2.mars_page_read page CTC_MARS_SSREG w2) as [val w3].
  cbn [fst snd] in *.
  destruct (val <? 0); [reflexivity|].
  destruct (Rev2.mars_page_read page MII_LPA w3) as [lpa w4].
  cbn [fst snd] in *.
  destruct (lpa <? 0); [reflexivity|].
  decode_bits. unfold status_decoded, status_pause, status_asym_pause,
    status_speed, status_duplex.
  destruct w4 as [c4 o4 t4 d4 pt4 ps4]. cbn in F4. subst d4.
  destruct (phydev w1) as [an sp dx pa ap li su ad da].
  destruct (Z.testbit val 15), (Z.testbit val 14), (Z.testbit val 13),
    (Z.testbit lpa 10), (Z.testbit lpa 11); reflexivity.
Qed.

Lemma rev1_read_status_eq (genphy_update_link : M Z) (w : world) :
  let r := fst (genphy_update_link w) in
  let w1 := snd (genphy_update_link w) in
  let w2 := set_phydev (status_defaults (phydev w1)) w1 in
  let val := fst (phy_read CTC_MARS_SSREG w2) in
  let w3 := snd (phy_read CTC_MARS_SSREG w2) in
  let lpa := fst (phy_read MII_LPA w3) in
  let w4 := snd (phy_read MII_LPA w3) in
  phydev w3 = status_defaults (phydev w1) /\
  phydev w4 = status_defaults (phydev w1) /\
  Rev1.mars_read_status genphy_update_link w =
  if truthy r then (r, w1)
  else if val <? 0 then (val, w3)
  else if lpa <? 0 then (lpa, w4)
  else (0, set_phydev (status_decoded val lpa (phydev w1)) w4).
Proof.
  cbv zeta.
  unfold Rev1.mars_read_status. unfold bind at 1.
  destruct (genphy_update_link w) as [r w1]. cbn [fst snd].
  set (w2 := set_phydev (status_defaults (phydev w1)) w1).
  pose proof (host_state_phydev _ _
                (keeps_host_phy_read CTC_MARS_SSREG w2)) as F3.
  pose proof (host_state_phydev _ _
                (keeps_host_phy_read MII_LPA
                   (snd (phy_read CTC_MARS_SSREG w2)))) as F4.
  rewrite F3 in F4. change (phydev w2) with (status_defaults (phydev w1)) in *.
  split; [exact F3|]. split; [exact F4|].
  destruct (truthy r); [reflexivity|].
  unfold bind, get, set_dev, modify. cbn [fst snd].
  change (set_phydev _ (set_phydev _ (set_phydev _ (set_phydev _ w1))))
    with w2.
  destruct (phy_read CTC_MARS_SSREG w2) as [val w3].
  cbn [fst snd] in *.
  destruct (val <? 0); [reflexivity|].
  destruct (phy_read MII_LPA w3) as [lpa w4].
  cbn [fst snd] in *.
  destruct (lpa <? 0); [reflexivity|].
  decode_bits. unfold status_decoded, status_pause, status_asym_pause,
    status_speed, status_duplex.
  destruct w4 as [c4 o4 t4 d4 pt4 ps4]. cbn in F4. subst d4.
  destruct (phydev w1) as [an sp dx pa ap li su ad da].
  destruct (Z.testbit val 15), (Z.testbit val 14), (Z.testbit val 13),
    (Z.testbit lpa 10), (Z.testbit lpa 11); reflexivity.
Qed.

(** C5.  [mars_read_status], in both revisions: once the link update
    has succeeded, speed, duplex, pause and asym-pause are set to
    10 / half / 0 / 0; the chip status register and the
    link-partner-ability register are read (a failing read returns its
    errno and leaves the defaults); then bit 15 of the status gives
    1000 / full whatever bit 13 is, else bit 14 gives 100 with full duplex
    iff bit 13 is set, else bit 13 gives full duplex; and pause and
    asym-pause are taken from the link partner's ability only when the
    decoded duplex is full. *)
Theorem read_status_decodes :
  (forall w : world,
     let r := fst (Rev2.mars_update_link w) in
     let w1 := snd (Rev2.mars_update_link w) in
     let page := status_page (g_port_status w1) in
     let w2 := set_phydev (status_defaults (phydev w1)) w1 in
     let val := fst (Rev2.mars_page_read page CTC_MARS_SSREG w2) in
     let w3 := snd (Rev2.mars_page_read page CTC_MARS_SSREG w2) in
     let lpa := fst (Rev2.mars_page_read page MII_LPA w3) in
     let w4 := snd (Rev2.mars_page_read page MII_LPA w3) in
     phydev w3 = status_defaults (phydev w1) /\
     phydev w4 = status_defaults (phydev w1) /\
     Rev2.mars_read_status w =
     if r <? 0 then (r, w1)
     else if val <? 0 then (val, w3)
     else if lpa <? 0 then (lpa, w4)
     else (0, set_phydev (status_decoded val lpa (phydev w1)) w4)) /\
  (forall (genphy_update_link : M Z) (w : world),
     let r := fst (genphy_update_link w) in
     let w1 := snd (genphy_update_link w) in
     let w2 := set_phydev (status_defaults (phydev w1)) w1 in
     let val := fst (phy_read CTC_MARS_SSREG w2) in
     let w3 := snd (phy_read CTC_MARS_SSREG w2) in
     let lpa := fst (phy_read MII_LPA w3) in
     let w4 := snd (phy_read MII_LPA w3) in
     phydev w3 = status_defaults (phydev w1) /\
     phydev w4 = status_defaults (phydev w1) /\
     Rev1.mars_read_status genphy_update_link w =
     if truthy r then (r, w1)
     else if val <? 0 then (val, w3)
     else if lpa <? 0 then (lpa, w4)
     else (0, set_phydev (status_decoded val lpa (phydev w1)) w4)).
Proof.
  split.
  - exact rev2_read_status_eq.
  - exact rev1_read_status_eq.
Qed.

(** The scenario of the spec: bit 15 set and bit 13 clear decode to
    1000 / full. *)
Example status_bit15_without_bit13 :
  status_speed 0x8000 = SPEED_1000 /\ status_duplex 0x8000 = DUPLEX_FULL.
Proof. split; reflexivity. Qed.

Example read_status_gigabit_scenario :
  let w := mk_world (mk_chip 0 ∅ (<[MII_LPA := 0x0400]>
                                    (<[CTC_MARS_SSREG := 0x8000]>
                                       (<[MII_BMSR := 0x0004]> ∅))) ∅)
                    [] [] no_dev MARS_PORT_TYPE_UTP MARS_PORT_TYPE_UTP in
  fst (Rev2.mars_read_status w) = 0 /\
  phydev (snd (Rev2.mars_read_status w)) =
  mk_phydev 0 SPEED_1000 DUPLEX_FULL 1 0 1 0 0 [].
Proof. vm_compute. split; reflexivity. Qed.

(** ** Programming the magic-packet address *)

Lemma mac_byte_range d i : 0 <= mac_byte d i < 256.
Proof.
  unfold mac_byte. pose proof (Byte.to_N_bounded (nth i (dev_addr d) Byte.x00)).
  lia.
Qed.

Lemma byte_pair_word hi lo :
  0 <= hi < 256 -> 0 <= lo < 256 ->
  u16 (Z.lor (Z.shiftl hi 8) lo) = 256 * hi + lo.
Proof.
  intros Hhi Hlo.
  assert (Hdisj : Z.land (Z.shiftl hi 8) lo = 0).
  { apply Z.bits_inj'. intros n Hn. rewrite Z.land_spec, Z.bits_0.
    destruct (Z.ltb_spec n 8).
    - rewrite Z.shiftl_spec_low by lia. reflexivity.
    - replace (Z.testbit lo n) with false; [apply andb_false_r|].
      symmetry. apply Z.bits_above_log2; [lia|].
      destruct (Z.eq_dec lo 0) as [->|]; [cbn; lia|].
      apply Z.log2_lt_pow2; [lia|].
      apply Z.lt_le_trans with (2 ^ 8); [cbn; lia|].
      apply Z.pow_le_mono_r; lia. }
  rewrite <- Z.lxor_lor by assumption.
  rewrite <- Z.add_nocarry_lxor by assumption.
  rewrite Z.shiftl_mul_pow2 by lia. change (2 ^ 8) with 256.
  rewrite (Z.mul_comm hi 256). apply u16_small. lia.
Qed.

Lemma store_magic_addr_ok c o t d pt ps k :
  next_ok 6 o ->
  exists t',
    store_magic_addr k (mk_world c o t d pt ps) =
    k (mk_world
         (mk_chip CTC_MARS_MAGIC_PACKET_MAC_ADDR0
            (<[CTC_MARS_MAGIC_PACKET_MAC_ADDR0 := 256 * mac_byte d 4 + mac_byte d 5]>
             (<[CTC_MARS_MAGIC_PACKET_MAC_ADDR1 := 256 * mac_byte d 2 + mac_byte d 3]>
              (<[CTC_MARS_MAGIC_PACKET_MAC_ADDR2 := 256 * mac_byte d 0 + mac_byte d 1]>
               (ext c))))
            (phy_regs c) (sds_regs c))
         (drop 6 o) t' d pt ps).
Proof.
  intros H. unfold store_magic_addr, bind, dev_addr_at, get. cbn [phydev].
  fold (mac_byte d 0) (mac_byte d 1) (mac_byte d 2) (mac_byte d 3)
       (mac_byte d 4) (mac_byte d 5).
  rewrite mars_ext_write_ok by ok_side. cbn [Z.ltb Z.compare phydev].
  fold (mac_byte d 2) (mac_byte d 3).
  rewrite mars_ext_write_ok by ok_side. cbn [Z.ltb Z.compare phydev].
  fold (mac_byte d 4) (mac_byte d 5).
  rewrite mars_ext_write_ok by ok_side. cbn [Z.ltb Z.compare phydev].
  rewrite !byte_pair_word by apply mac_byte_range.
  rewrite !drop_drop. eexists. reflexivity.
Qed.

Lemma magic_addr_after_store d e l p s :
  magic_addr_programmed d
    (mk_chip l
       (<[CTC_MARS_MAGIC_PACKET_MAC_ADDR0 := 256 * mac_byte d 4 + mac_byte d 5]>
        (<[CTC_MARS_MAGIC_PACKET_MAC_ADDR1 := 256 * mac_byte d 2 + mac_byte d 3]>
         (<[CTC_MARS_MAGIC_PACKET_MAC_ADDR2 := 256 * mac_byte d 0 + mac_byte d 1]>
          e))) p s).
Proof.
  unfold magic_addr_programmed. cbn [ext].
  repeat split.
  - do 2 rewrite reg_insert_ne by neq_const. apply reg_insert_eq.
  - rewrite reg_insert_ne by neq_const. apply reg_insert_eq.
  - apply reg_insert_eq.
Qed.

Lemma rev2_set_wol_enable_ok wol c o t d pt ps :
  Forall (fun e => 0 <= e) o ->
  truthy (Z.land (wolopts wol) WAKE_MAGIC) = true ->
  exists c' o' t',
    Rev2.mars_set_wol wol (mk_world c o t d pt ps) =
    (0, mk_world c' o' t' d pt ps) /\
    magic_addr_programmed d c'.
Proof.
  intros Hok Hmagic.
  unfold Rev2.mars_set_wol. rewrite Hmagic. unfold bind at 1.
  rewrite mars_page_read_ok by (try ok_side; neq_const). unfold bind at 1.
  rewrite mars_page_write_ok by (try ok_side; neq_const).
  cbn [Z.ltb Z.compare]. unfold bind at 1.
  edestruct mars_wol_en_cfg_ok as [t1 ->]; [ok_side|].
  cbn [Z.ltb Z.compare].
  edestruct store_magic_addr_ok as [t2 ->]; [ok_side|].
  unfold ret. do 3 eexists. split; [reflexivity|].
  apply magic_addr_after_store.
Qed.

Lemma rev1_set_wol_enable_ok wol c o t d pt ps :
  Forall (fun e => 0 <= e) o ->
  truthy (Z.land (wolopts wol) WAKE_MAGIC) = true ->
  exists c' o' t',
    Rev1.mars_set_wol wol (mk_world c o t d pt ps) =
    (0, mk_world c' o' t' d pt ps) /\
    magic_addr_programmed d c'.
Proof.
  intros Hok Hmagic.
  unfold Rev1.mars_set_wol. unfold bind at 1.
  rewrite mars_ext_read_ok by ok_side. rewrite u16_ltb. unfold bind at 1.
  rewrite mars_select_reg_space_ok by ok_side. cbn [Z.ltb Z.compare].
  rewrite Hmagic. unfold bind at 1.
  rewrite phy_read_ok by ok_side. unfold bind at 1.
  rewrite phy_write_ok by ok_side. cbn [Z.ltb Z.compare]. unfold bind at 1.
  edestruct mars_wol_en_cfg_ok as [t1 ->]; [ok_side|].
  cbn [Z.ltb Z.compare].
  edestruct store_magic_addr_ok as [t2 ->]; [ok_side|].
  unfold bind. rewrite mars_select_reg_space_ok by ok_side.
  cbn [Z.ltb Z.compare]. unfold ret. do 3 eexists. split; [reflexivity|].
  unfold magic_addr_programmed. cbn [ext].
  rewrite !(reg_insert_ne _ CTC_MARS_PAGE_REG) by neq_const.
  apply (magic_addr_after_store d _ 0 ∅ ∅).
Qed.

(** C8.  [mars_set_wol] asked for magic-packet wake, on a working bus,
    in both revisions: it returns 0 and leaves in registers 0xa007,
    0xa008 and 0xa009 the address bytes 0-1, 2-3 and 4-5 of the attached
    device, the earlier byte of each pair in the high-order position. *)
Theorem set_wol_programs_magic_addr (wol : ethtool_wolinfo) (w : world) :
  bus_ok w ->
  truthy (Z.land (wolopts wol) WAKE_MAGIC) = true ->
  (fst (Rev2.mars_set_wol wol w) = 0 /\
   magic_addr_programmed (phydev w) (the_chip (snd (Rev2.mars_set_wol wol w)))) /\
  (fst (Rev1.mars_set_wol wol w) = 0 /\
   magic_addr_programmed (phydev w) (the_chip (snd (Rev1.mars_set_wol wol w)))).
Proof.
  destruct w as [c o t d pt ps]. unfold bus_ok. cbn [bus_outcomes phydev].
  intros Hok Hmagic. split.
  - destruct (rev2_set_wol_enable_ok wol c o t d pt ps Hok Hmagic)
      as (c' & o' & t' & -> & H). split; [reflexivity | exact H].
  - destruct (rev1_set_wol_enable_ok wol c o t d pt ps Hok Hmagic)
      as (c' & o' & t' & -> & H). split; [reflexivity | exact H].
Qed.

(** The scenario of the spec: AA:BB:CC:DD:EE:FF gives 0xAABB, 0xCCDD and
    0xEEFF, in both revisions. *)
Lemma set_wol_programs_magic_addr_witness :
  let d := mk_phydev 0 0 0 0 0 0 0 0 mac_aabbccddeeff in
  let w := mk_world (chip_on_page 0x0) [] [] d
                    MARS_PORT_TYPE_UTP MARS_PORT_TYPE_UTP in
  let wol := mk_wolinfo WAKE_MAGIC WAKE_MAGIC in
  (reg (ext (the_chip (snd (Rev2.mars_set_wol wol w)))) 0xa007 = 0xAABB /\
   reg (ext (the_chip (snd (Rev2.mars_set_wol wol w)))) 0xa008 = 0xCCDD /\
   reg (ext (the_chip (snd (Rev2.mars_set_wol wol w)))) 0xa009 = 0xEEFF) /\
  (reg (ext (the_chip (snd (Rev1.mars_set_wol wol w)))) 0xa007 = 0xAABB /\
   reg (ext (the_chip (snd (Rev1.mars_set_wol wol w)))) 0xa008 = 0xCCDD /\
   reg (ext (the_chip (snd (Rev1.mars_set_wol wol w)))) 0xa009 = 0xEEFF).
Proof.
  cbv zeta.
  pose proof (set_wol_programs_magic_addr
                (mk_wolinfo WAKE_MAGIC WAKE_MAGIC)
                (mk_world (chip_on_page 0x0) [] []
                   (mk_phydev 0 0 0 0 0 0 0 0 mac_aabbccddeeff)
                   MARS_PORT_TYPE_UTP MARS_PORT_TYPE_UTP)
                (List.Forall_nil _) eq_refl) as [[_ H2] [_ H1]].
  split; [exact H2 | exact H1].
Defined.

(** ** Link update *)

Lemma lstatus_clear v :
  (Z.land (u16 v) BMSR_LSTATUS =? 0) = negb (Z.testbit v 2).
Proof.
  change BMSR_LSTATUS with (2 ^ 2).
  pose proof (truthy_land_bit (u16 v) 2 ltac:(lia)) as H.
  unfold truthy in H. rewrite u16_testbit in H by lia.
  cbn [Z.ltb Z.compare] in H. rewrite andb_true_r in H.
  rewrite <- H, negb_involutive. reflexivity.
Qed.

Lemma is_utp_or_combo_combo : is_utp_or_combo MARS_PORT_TYPE_COMBO = true.
Proof. reflexivity. Qed.

(** C4.  On a COMBO port with a working bus, when the copper link-status
    bit is set, [mars_update_link] reports link up, records Active
    Media = COPPER, leaves the PRIMARY space selected and returns 0; no
    directly addressed register of the SerDes space is accessed during the
    call, so the result is the same whether or not the fiber link is up. *)
Theorem update_link_copper_precedence (w : world) :
  bus_ok w ->
  g_port_type w = MARS_PORT_TYPE_COMBO ->
  Z.testbit (reg (phy_regs (the_chip w)) MII_BMSR) 2 = true ->
  let w' := snd (Rev2.mars_update_link w) in
  fst (Rev2.mars_update_link w) = 0 /\
  g_port_status w' = MARS_PORT_TYPE_UTP /\
  link (phydev w') = 1 /\
  selected_space (the_chip w') = PRIMARY /\
  exists evs,
    bus_trace w' = evs ++ bus_trace w /\
    Forall (fun ev => banked_access SECONDARY ev = false) evs.
Proof.
  destruct w as [c o t d pt ps]. unfold bus_ok.
  cbn [bus_outcomes g_port_type the_chip bus_trace]. intros Hok -> Hup.
  cbv zeta.
  assert (E : exists c' o' evs,
             Rev2.mars_update_link (mk_world c o t d MARS_PORT_TYPE_COMBO ps) =
             (0, mk_world c' o' (evs ++ t) (set_link 1 d)
                          MARS_PORT_TYPE_COMBO MARS_PORT_TYPE_UTP) /\
             selected_space c' = PRIMARY /\
             Forall (fun ev => banked_access SECONDARY ev = false) evs).
  { unfold Rev2.mars_update_link. unfold bind at 1, get at 1.
    cbn [g_port_type]. rewrite is_utp_or_combo_combo. unfold bind at 1.
    rewrite mars_page_read_ok by (try ok_side; neq_const).
    rewrite u16_ltb. unfold bind at 1.
    rewrite mars_page_read_ok by (try ok_side; neq_const).
    rewrite u16_ltb.
    cbn [bank space_of restored phy_regs Z.eqb CTC_PHY_REG_SPACE].
    rewrite lstatus_clear, Hup. cbn [negb].
    unfold bind at 1, set_dev, modify. unfold bind at 1. norm_world.
    rewrite mars_select_reg_space_ok by ok_side.
    cbn [Z.ltb Z.compare]. unfold bind, ret. norm_world.
    eexists _, _,
      (EvWrite _ 0x1f _ :: EvWrite _ 0x1e _ ::
       page_access_events _ _ _ ++ page_access_events _ _ _).
    split; [|split].
    - cbn [app]. rewrite <- app_assoc. reflexivity.
    - apply (selected_space_page_code _ _ _ _ CTC_PHY_REG_SPACE).
    - unfold page_access_events. cbn [app space_of CTC_PHY_REG_SPACE Z.eqb].
      repeat constructor. }
  destruct E as (c' & o' & evs & -> & Hsp & Hev).
  cbn [fst snd g_port_status phydev the_chip bus_trace].
  repeat split; try reflexivity; try assumption.
  exists evs. auto.
Qed.

(** Both links up, Active Media FIBER and the SerDes space selected
    beforehand: Active Media becomes COPPER. *)
Lemma update_link_copper_precedence_witness :
  let w := mk_world (mk_chip 0 (<[CTC_MARS_PAGE_REG := 0x2]> ∅)
                             (<[MII_BMSR := 0x0004]> ∅)
                             (<[MII_BMSR := 0x0004]> ∅))
                    [] [] no_dev MARS_PORT_TYPE_COMBO MARS_PORT_TYPE_FIBER in
  g_port_status (snd (Rev2.mars_update_link w)) = MARS_PORT_TYPE_UTP /\
  selected_space (the_chip (snd (Rev2.mars_update_link w))) = PRIMARY.
Proof.
  cbv zeta.
  pose proof (update_link_copper_precedence
    (mk_world (mk_chip 0 (<[CTC_MARS_PAGE_REG := 0x2]> ∅)
                         (<[MII_BMSR := 0x0004]> ∅)
                         (<[MII_BMSR := 0x0004]> ∅))
              [] [] no_dev MARS_PORT_TYPE_COMBO MARS_PORT_TYPE_FIBER)
    (List.Forall_nil _) eq_refl eq_refl) as (_ & H1 & _ & H2 & _).
  split; [exact H1 | exact H2].
Defined.

(** ** The Active Media invariant *)

Lemma preserves_ret {A} (I : world -> Prop) (a : A) : preserves I (ret a).
Proof. intros w H. exact H. Qed.

Lemma preserves_bind {A B} (I : world -> Prop) (m : M A) (k : A -> M B) :
  preserves I m -> (forall a, preserves I (k a)) -> preserves I (bind m k).
Proof.
  intros Hm Hk w H. unfold bind. specialize (Hm w H).
  destruct (m w) as [a w1]. apply Hk, Hm.
Qed.

Lemma preserves_get {A} (I : world -> Prop) (g : world -> A) :
  preserves I (get g).
Proof. intros w H. exact H. Qed.

Lemma preserves_status_keeps {A} (m : M A) :
  keeps host_state m -> preserves port_status_ok m.
Proof.
  intros Hk w H. unfold port_status_ok in *.
  rewrite (host_state_port_status _ _ (Hk w)). exact H.
Qed.

Lemma preserves_status_set_dev f : preserves port_status_ok (set_dev f).
Proof. intros w H. exact H. Qed.

Lemma preserves_status_set_utp :
  preserves port_status_ok (modify (set_port_status MARS_PORT_TYPE_UTP)).
Proof. intros w _. left. reflexivity. Qed.

Lemma preserves_status_set_fiber :
  preserves port_status_ok (modify (set_port_status MARS_PORT_TYPE_FIBER)).
Proof. intros w _. right. reflexivity. Qed.

Lemma preserves_status_set_port_type t :
  preserves port_status_ok (modify (set_port_type t)).
Proof. intros w H. exact H. Qed.

Create HintDb media.
Create HintDb quiet.
#[local] Hint Resolve preserves_status_set_dev preserves_status_set_utp
  preserves_status_set_fiber preserves_status_set_port_type : media.
#[local] Hint Extern 1 (preserves port_status_ok _) =>
  (apply preserves_status_keeps; solve [auto with keeps]) : media.

Ltac preserves_step :=
  lazymatch goal with
  | |- preserves _ (bind _ _) => apply preserves_bind; [ | intros ? ]
  | |- preserves _ (ret _) => apply preserves_ret
  | |- preserves _ (get _) => apply preserves_get
  | |- preserves _ (if ?b then _ else _) => destruct b
  | |- preserves _ (let _ := _ in _) => cbv zeta
  | |- preserves _ _ => solve [ auto with media quiet ]
  end.
Ltac preserves_tac := repeat preserves_step.

Lemma preserves_status_get_port_type :
  preserves port_status_ok Rev2.mars_get_port_type.
Proof. unfold Rev2.mars_get_port_type. preserves_tac. Qed.

Lemma preserves_status_update_link :
  preserves port_status_ok Rev2.mars_update_link.
Proof. unfold Rev2.mars_update_link. preserves_tac. Qed.

#[local] Hint Resolve preserves_status_update_link : media.

Lemma preserves_status_read_status :
  preserves port_status_ok Rev2.mars_read_status.
Proof. unfold Rev2.mars_read_status. preserves_tac. Qed.

(** ** Symbolic execution on a working bus *)

Lemma extends_refl t : extends t t.
Proof. exists []. reflexivity. Qed.

Lemma extends_cons t t' ev : extends t t' -> extends t (ev :: t').
Proof. intros [evs ->]. exists (ev :: evs). reflexivity. Qed.

Lemma extends_app t t' evs : extends t t' -> extends t (evs ++ t').
Proof. intros [evs' ->]. exists (evs ++ evs'). apply app_assoc. Qed.

Lemma extends_trans t1 t2 t3 : extends t1 t2 -> extends t2 t3 -> extends t1 t3.
Proof. intros [e1 ->] [e2 ->]. exists (e2 ++ e1). apply app_assoc. Qed.

Ltac extends_tac :=
  repeat first [ apply extends_refl | apply extends_cons | apply extends_app ].

(** One step of a run whose bus transactions all succeed. *)
Ltac run_step :=
  first
    [ rewrite mars_page_read_ok by (try ok_side; neq_const)
    | rewrite mars_page_write_ok by (try ok_side; neq_const)
    | rewrite mars_select_reg_space_ok by ok_side
    | rewrite mars_ext_read_ok by ok_side
    | rewrite mars_ext_write_ok by ok_side
    | rewrite phy_read_ok by ok_side
    | rewrite phy_write_ok by ok_side
    | rewrite u16_ltb
    | progress cbn [Z.ltb Z.compare]
    | progress norm_world
    | progress unfold ret at 1
    | progress unfold bind at 1 ].
Ltac run := repeat run_step.

Lemma rev2_update_link_ok c o t d pt ps :
  Forall (fun e => 0 <= e) o ->
  exists c' o' t' d' ps',
    Rev2.mars_update_link (mk_world c o t d pt ps) =
    (0, mk_world c' o' t' d' pt ps') /\
    Forall (fun e => 0 <= e) o' /\
    extends t t' /\
    (ps' = ps \/ ps' = MARS_PORT_TYPE_UTP \/ ps' = MARS_PORT_TYPE_FIBER).
Proof.
  intros Hok.
  assert (Hd : forall n, Forall (fun e => 0 <= e) (drop n o))
    by (intros n; apply Forall_drop, Hok).
  unfold Rev2.mars_update_link. run.
  destruct (is_utp_or_combo pt); run.
  - destruct (Z.land _ BMSR_LSTATUS =? 0); run.
    + destruct (is_fiber_or_combo pt); run.
      * destruct (Z.land _ BMSR_LSTATUS =? 0); run;
          do 5 eexists; (split; [reflexivity|]);
          rewrite ?drop_drop; (split; [apply Hd|]);
          (split; [extends_tac|]); auto.
      * do 5 eexists; (split; [reflexivity|]);
          rewrite ?drop_drop; (split; [apply Hd|]);
          (split; [extends_tac|]); auto.
    + do 5 eexists; (split; [reflexivity|]);
        rewrite ?drop_drop; (split; [apply Hd|]);
        (split; [extends_tac|]); auto.
  - destruct (is_fiber_or_combo pt); run.
    + destruct (Z.land _ BMSR_LSTATUS =? 0); run;
        do 5 eexists; (split; [reflexivity|]);
        rewrite ?drop_drop; (split; [first [apply Hd | exact Hok]|]);
        (split; [extends_tac|]); auto.
    + do 5 eexists; (split; [reflexivity|]);
        rewrite ?drop_drop; (split; [first [apply Hd | exact Hok]|]);
        (split; [extends_tac|]); auto.
Qed.

(** ** Who writes the globals *)

Lemma keeps_globals_host {A} (m : M A) :
  keeps host_state m -> keeps globals m.
Proof.
  intros H w. specialize (H w). unfold host_state, globals in *. congruence.
Qed.

Lemma keeps_globals_set_dev f : keeps globals (set_dev f).
Proof. intros w. reflexivity. Qed.

#[local] Hint Resolve keeps_globals_set_dev : keeps.
#[local] Hint Extern 2 (keeps globals _) =>
  (apply keeps_globals_host; solve [auto with keeps]) : keeps.

Lemma keeps_globals_setup_forced : keeps globals Rev2.mars_setup_forced.
Proof. unfold Rev2.mars_setup_forced. keeps_tac. Qed.

Lemma keeps_globals_restart_aneg : keeps globals Rev2.mars_restart_aneg.
Proof. unfold Rev2.mars_restart_aneg. keeps_tac. Qed.

Lemma keeps_globals_config_advert : keeps globals Rev2.mars_config_advert.
Proof. unfold Rev2.mars_config_advert. keeps_tac. Qed.

#[local] Hint Resolve keeps_globals_setup_forced keeps_globals_restart_aneg
  keeps_globals_config_advert : keeps.

Lemma keeps_globals_config_aneg : keeps globals Rev2.mars1s_config_aneg.
Proof. unfold Rev2.mars1s_config_aneg. keeps_tac. Qed.

Lemma keeps_host_store_magic_addr k :
  keeps host_state k -> keeps host_state (store_magic_addr k).
Proof. intros Hk. unfold store_magic_addr, dev_addr_at. keeps_tac. Qed.

Lemma keeps_host_set_wol wol : keeps host_state (Rev2.mars_set_wol wol).
Proof.
  unfold Rev2.mars_set_wol. keeps_tac.
  apply keeps_host_store_magic_addr, keeps_ret.
Qed.

Lemma keeps_host_get_wol wol : keeps host_state (mars_get_wol wol).
Proof. unfold mars_get_wol. keeps_tac. Qed.

Lemma media_space_page media :
  media = MARS_PORT_TYPE_UTP \/ media = MARS_PORT_TYPE_FIBER ->
  space_of (status_page media) = media_space media.
Proof. intros [-> | ->]; reflexivity. Qed.

Lemma rev2_read_status_ok c o t d pt ps :
  Forall (fun e => 0 <= e) o ->
  ps = MARS_PORT_TYPE_UTP \/ ps = MARS_PORT_TYPE_FIBER ->
  exists c' o' d' ps' evs,
    Rev2.mars_read_status (mk_world c o t d pt ps) =
    (0, mk_world c' o' (evs ++ t) d' pt ps') /\
    (ps' = MARS_PORT_TYPE_UTP \/ ps' = MARS_PORT_TYPE_FIBER) /\
    In (EvRead (media_space ps') CTC_MARS_SSREG) evs /\
    In (EvRead (media_space ps') MII_LPA) evs.
Proof.
  intros Hok Hps.
  destruct (rev2_update_link_ok c o t d pt ps Hok)
    as (c1 & o1 & t1 & d1 & ps1 & Hul & Hok1 & [evs1 ->] & Hps1).
  assert (Hm : ps1 = MARS_PORT_TYPE_UTP \/ ps1 = MARS_PORT_TYPE_FIBER)
    by (destruct Hps1 as [-> | [-> | ->]]; auto).
  pose proof (rev2_read_status_eq (mk_world c o t d pt ps)) as (_ & _ & E).
  cbv zeta in E. rewrite Hul in E. cbn [fst snd Z.ltb Z.compare] in E.
  norm_world_in E.
  rewrite mars_page_read_ok in E by (try ok_side; neq_const).
  cbn [fst snd] in E. rewrite u16_ltb in E.
  rewrite mars_page_read_ok in E by (try ok_side; neq_const).
  cbn [fst snd] in E. rewrite u16_ltb in E. norm_world_in E.
  rewrite E. rewrite (media_space_page ps1 Hm).
  eexists _, _, _, ps1,
    (page_access_events _ _ (EvRead (media_space ps1) MII_LPA)
     ++ page_access_events _ _ (EvRead (media_space ps1) CTC_MARS_SSREG)
     ++ evs1).
  split; [rewrite <- !app_assoc; reflexivity|].
  split; [exact Hm|]. split.
  - apply in_or_app. right. apply in_or_app. left.
    unfold page_access_events. cbn. auto.
  - apply in_or_app. left. unfold page_access_events. cbn. auto.
Qed.

(** C10.  Active Media ([g_port_status]) always holds a medium, COPPER
    or FIBER, never COMBO: it starts at zero (COPPER), the two functions
    that write it, [mars_get_port_type] and [mars_update_link], maintain
    this whatever the bus does, and so does [mars_read_status]; the other
    entry points do not write it.  Hence the truthiness test of
    [mars_read_status] picks the space of the recorded medium: on a
    working bus the chip status register and the link-partner-ability
    register are read in the PHY space when Active Media is COPPER and in
    the SerDes space when it is FIBER. *)
Theorem active_media_is_a_medium :
  (forall w, g_port_status w = 0 -> port_status_ok w) /\
  preserves port_status_ok Rev2.mars_get_port_type /\
  preserves port_status_ok Rev2.mars_update_link /\
  preserves port_status_ok Rev2.mars_read_status /\
  keeps g_port_status Rev2.mars1s_config_aneg /\
  (forall wol, keeps g_port_status (Rev2.mars_set_wol wol)) /\
  (forall wol, keeps g_port_status (mars_get_wol wol)) /\
  (forall w, port_status_ok w -> bus_ok w ->
     let w' := snd (Rev2.mars_read_status w) in
     port_status_ok w' /\
     exists evs,
       bus_trace w' = evs ++ bus_trace w /\
       In (EvRead (media_space (g_port_status w')) CTC_MARS_SSREG) evs /\
       In (EvRead (media_space (g_port_status w')) MII_LPA) evs).
Proof.
  split; [intros w H; left; exact H|].
  split; [exact preserves_status_get_port_type|].
  split; [exact preserves_status_update_link|].
  split; [exact preserves_status_read_status|].
  split.
  { intros w. pose proof (keeps_globals_config_aneg w) as H.
    unfold globals in H. congruence. }
  split.
  { intros wol w. apply host_state_port_status, keeps_host_set_wol. }
  split.
  { intros wol w. apply host_state_port_status, keeps_host_get_wol. }
  intros [c o t d pt ps] Hps Hok. unfold port_status_ok, bus_ok in *.
  cbn [g_port_status bus_outcomes] in Hps, Hok.
  destruct (rev2_read_status_ok c o t d pt ps Hok Hps)
    as (c' & o' & d' & ps' & evs & -> & Hps' & H1 & H2).
  cbn [snd g_port_status bus_trace]. split; [exact Hps'|].
  exists evs. auto.
Qed.

(** A COMBO port whose fiber link alone is up: the status read moves
    Active Media to FIBER and reads register 0x11 in the SerDes space. *)
Lemma active_media_is_a_medium_witness :
  let w := mk_world (mk_chip 0 ∅ ∅ (<[MII_BMSR := 0x0004]> ∅))
                    [] [] no_dev MARS_PORT_TYPE_COMBO MARS_PORT_TYPE_UTP in
  port_status_ok w /\ bus_ok w /\
  g_port_status (snd (Rev2.mars_read_status w)) = MARS_PORT_TYPE_FIBER /\
  port_status_ok (snd (Rev2.mars_read_status w)) /\
  exists evs,
    bus_trace (snd (Rev2.mars_read_status w)) = evs ++ [] /\
    In (EvRead SECONDARY CTC_MARS_SSREG) evs.
Proof.
  cbv zeta.
  assert (H0 : port_status_ok
                 (mk_world (mk_chip 0 ∅ ∅ (<[MII_BMSR := 0x0004]> ∅))
                    [] [] no_dev MARS_PORT_TYPE_COMBO MARS_PORT_TYPE_UTP))
    by (left; reflexivity).
  assert (H1 : bus_ok
                 (mk_world (mk_chip 0 ∅ ∅ (<[MII_BMSR := 0x0004]> ∅))
                    [] [] no_dev MARS_PORT_TYPE_COMBO MARS_PORT_TYPE_UTP))
    by constructor.
  split; [exact H0|]. split; [exact H1|]. split; [reflexivity|].
  destruct active_media_is_a_medium as (_ & _ & _ & _ & _ & _ & _ & H).
  destruct (H _ H0 H1) as (Hok & evs & Ht & Hin & _).
  split; [exact Hok|]. exists evs. split; [exact Ht|]. exact Hin.
Defined.

(** ** Autonegotiation configuration *)

(** C2.  The code at the failing input: a copper port with
    autonegotiation disabled.  Forced setup alone leaves the control
    register at 0x2100 (100 Mbit/s, full duplex, autonegotiation off);
    [mars1s_config_aneg] goes on after the forced setup, accesses the
    advertisement registers and restarts autonegotiation, leaving 0x3300
    (autonegotiation enabled and restarted). *)
Theorem config_aneg_forced_copper_falls_through :
  reg (phy_regs (the_chip (snd (Rev2.mars_setup_forced forced_copper_world))))
      MII_BMCR = 0x2100 /\
  fst (Rev2.mars1s_config_aneg forced_copper_world) = 0 /\
  reg (phy_regs (the_chip (snd (Rev2.mars1s_config_aneg forced_copper_world))))
      MII_BMCR = 0x3300 /\
  existsb advert_access
    (bus_trace (snd (Rev2.mars1s_config_aneg forced_copper_world))) = true /\
  existsb advert_access
    (bus_trace (snd (Rev2.mars_setup_forced forced_copper_world))) = false.
Proof. vm_compute. repeat split. Qed.

(** The part of the claim about a fiber port holds: with autonegotiation
    disabled, [mars1s_config_aneg] is exactly [mars_setup_forced]. *)
Lemma config_aneg_forced_fiber (w : world) :
  g_port_type w = MARS_PORT_TYPE_FIBER ->
  autoneg (phydev w) <> AUTONEG_ENABLE ->
  Rev2.mars1s_config_aneg w = Rev2.mars_setup_forced w.
Proof.
  intros Ht Han. unfold Rev2.mars1s_config_aneg.
  unfold bind at 1, get at 1. rewrite Ht. cbn [is_utp_or_combo orb Z.eqb
    MARS_PORT_TYPE_FIBER MARS_PORT_TYPE_UTP MARS_PORT_TYPE_COMBO Pos.eqb].
  unfold bind at 1, get at 1. rewrite Ht.
  cbn [is_fiber_or_combo orb Z.eqb MARS_PORT_TYPE_FIBER MARS_PORT_TYPE_COMBO
         Pos.eqb].
  unfold bind at 1, get at 1.
  destruct (Z.eqb_spec (autoneg (phydev w)) AUTONEG_ENABLE); [contradiction|].
  reflexivity.
Qed.
Lemma truthy_land_anenable v : truthy (Z.land v BMCR_ANENABLE) = Z.testbit v 12.
Proof. exact (truthy_land_bit v 12 ltac:(lia)). Qed.

Lemma forced_ctl_bit12 old sp dx :
  Z.testbit
    (let ctl := Z.land old (Z.lor BMCR_LOOPBACK (Z.lor BMCR_ISOLATE BMCR_PDOWN)) in
     let ctl :=
       if sp =? SPEED_1000 then Z.lor ctl BMCR_SPEED1000
       else if sp =? SPEED_100 then Z.lor ctl BMCR_SPEED100
       else ctl in
     if dx =? DUPLEX_FULL then Z.lor ctl BMCR_FULLDPLX else ctl) 12 = false.
Proof.
  cbv zeta.
  destruct (dx =? DUPLEX_FULL), (sp =? SPEED_1000), (sp =? SPEED_100);
    rewrite ?Z.lor_spec, Z.land_spec; cbn; rewrite ?andb_false_r; reflexivity.
Qed.

Lemma rev2_setup_forced_utp_ok c o t d ps :
  Forall (fun e => 0 <= e) o ->
  exists F o' t',
    Rev2.mars_setup_forced (mk_world c o t d MARS_PORT_TYPE_UTP ps) =
    (0, mk_world (restored (bank_write PRIMARY MII_BMCR (u16 F) (restored c)))
                 o' t' (set_asym_pause 0 (set_pause 0 d))
                 MARS_PORT_TYPE_UTP ps) /\
    Forall (fun e => 0 <= e) o' /\
    Z.testbit F 12 = false.
Proof.
  intros Hok.
  unfold Rev2.mars_setup_forced. run.
  change (is_utp_or_combo MARS_PORT_TYPE_UTP) with true. cbv iota. run.
  change (is_fiber_or_combo MARS_PORT_TYPE_UTP) with false. cbv iota. run.
  eexists _, _, _. split; [reflexivity|]. split.
  - rewrite ?drop_drop. apply Forall_drop, Hok.
  - apply forced_ctl_bit12.
Qed.

Lemma rev2_restart_aneg_utp_ok c o t d ps :
  Forall (fun e => 0 <= e) o ->
  exists c' o' t',
    Rev2.mars_restart_aneg (mk_world c o t d MARS_PORT_TYPE_UTP ps) =
    (0, mk_world c' o' t' d MARS_PORT_TYPE_UTP ps) /\
    Forall (fun e => 0 <= e) o' /\
    Z.testbit (reg (phy_regs c') MII_BMCR) 12 = true /\
    Z.testbit (reg (phy_regs c') MII_BMCR) 9 = true.
Proof.
  intros Hok.
  unfold Rev2.mars_restart_aneg. run.
  change (is_utp_or_combo MARS_PORT_TYPE_UTP) with true. cbv iota. run.
  change (is_fiber_or_combo MARS_PORT_TYPE_UTP) with false. cbv iota. run.
  eexists _, _, _. split; [reflexivity|]. split.
  - rewrite ?drop_drop. apply Forall_drop, Hok.
  - cbn [restored bank_write space_of CTC_PHY_REG_SPACE Z.eqb phy_regs].
    rewrite reg_insert_eq.
    split; rewrite u16_testbit by lia; unfold clear_bits;
      rewrite Z.land_spec, Z.lor_spec, Z.lnot_spec by lia;
      cbn; rewrite ?orb_true_r; reflexivity.
Qed.

Lemma rev2_config_advert_ok c o t d pt ps :
  Forall (fun e => 0 <= e) o ->
  exists c' o' t' d' changed,
    Rev2.mars_config_advert (mk_world c o t d pt ps) =
    (changed, mk_world c' o' t' d' pt ps) /\
    Forall (fun e => 0 <= e) o' /\
    (changed = 0 \/ changed = 1) /\
    reg (phy_regs c') MII_BMCR = reg (phy_regs c) MII_BMCR /\
    autoneg d' = autoneg d.
Proof.
  intros Hok.
  assert (Hd : forall n, Forall (fun e => 0 <= e) (drop n o))
    by (intros n; apply Forall_drop, Hok).
  unfold Rev2.mars_config_advert. run.
  repeat (match goal with
          | |- context [if ?b then _ else _] => destruct b
          end; cbn [negb]; cbv beta; run).
  all: eexists _, _, _, _, _; (split; [reflexivity|]);
    rewrite ?drop_drop; (split; [apply Hd|]); (split; [auto|]);
    cbn [restored bank_write space_of CTC_PHY_REG_SPACE Z.eqb phy_regs];
    rewrite ?reg_insert_ne by neq_const; split; reflexivity.
Qed.

(** On a copper port with autonegotiation disabled and a working bus,
    [mars1s_config_aneg] always ends by restarting autonegotiation: the
    forced setup clears the autonegotiation-enable bit, the advertisement
    is reconfigured all the same, and either it changed or the enable bit
    is found clear, so [mars_restart_aneg] runs. *)
Lemma config_aneg_forced_copper_restarts c o t d ps :
  Forall (fun e => 0 <= e) o ->
  autoneg d <> AUTONEG_ENABLE ->
  exists c' o' t' d',
    Rev2.mars1s_config_aneg (mk_world c o t d MARS_PORT_TYPE_UTP ps) =
    (0, mk_world c' o' t' d' MARS_PORT_TYPE_UTP ps) /\
    Z.testbit (reg (phy_regs c') MII_BMCR) 12 = true /\
    Z.testbit (reg (phy_regs c') MII_BMCR) 9 = true.
Proof.
  intros Hok Han.
  unfold Rev2.mars1s_config_aneg. run.
  change (is_utp_or_combo MARS_PORT_TYPE_UTP) with true. cbv iota. run.
  destruct (Z.eqb_spec (autoneg d) AUTONEG_ENABLE); [contradiction|].
  cbn [negb].
  destruct (rev2_setup_forced_utp_ok c o t d ps Hok)
    as (F & o1 & t1 & -> & Hok1 & HF).
  run.
  edestruct rev2_config_advert_ok
    as (c2 & o2 & t2 & d2 & changed & -> & Hok2 & Hch & Hbmcr & _);
    [exact Hok1|].
  cbn [restored bank_write phy_regs] in Hbmcr.
  rewrite reg_insert_eq in Hbmcr.
  destruct Hch as [-> | ->]; run.
  - change (Z.lor 0 0 =? 0) with true. cbv iota. run.
    cbn [bank space_of CTC_PHY_REG_SPACE Z.eqb]. rewrite Hbmcr.
    rewrite truthy_land_anenable, !u16_testbit, HF by lia.
    cbn [andb negb orb]. cbv beta iota.
    change (1 >? 0) with true. cbv iota. run.
    edestruct rev2_restart_aneg_utp_ok
      as (c3 & o3 & t3 & -> & Hok3 & H12 & H9);
      [rewrite ?drop_drop; apply Forall_drop, Hok2|].
    run.
    change (is_fiber_or_combo MARS_PORT_TYPE_UTP) with false. cbv iota. run.
    eexists _, _, _, _. split; [reflexivity|]. split; assumption.
  - change (Z.lor 0 1 =? 0) with false. cbv iota.
    change (Z.lor 0 1 >? 0) with true. cbv iota. run.
    edestruct rev2_restart_aneg_utp_ok
      as (c3 & o3 & t3 & -> & Hok3 & H12 & H9); [exact Hok2|].
    run.
    change (is_fiber_or_combo MARS_PORT_TYPE_UTP) with false. cbv iota. run.
    eexists _, _, _, _. split; [reflexivity|]. split; assumption.
Qed.

(** *** Forced setup never touches the advertisement registers *)

Lemma no_advert_phy_read t0 r :
  (r =? MII_ADVERTISE) || (r =? MII_CTRL1000) = false ->
  preserves (no_advert_since t0) (phy_read r).
Proof.
  intros Hr [c o t d pt ps] (evs & Ht & Hq). cbn [bus_trace] in Ht. subst t.
  rewrite phy_read_any. cbn [snd].
  exists (EvRead (selected_space c) r :: evs). split; [reflexivity|].
  cbn [forallb advert_access]. rewrite Hr, Hq. reflexivity.
Qed.

Lemma no_advert_phy_write t0 r v :
  (r =? MII_ADVERTISE) || (r =? MII_CTRL1000) = false ->
  preserves (no_advert_since t0) (phy_write r v).
Proof.
  intros Hr [c o t d pt ps] (evs & Ht & Hq). cbn [bus_trace] in Ht. subst t.
  rewrite phy_write_any. cbn [snd].
  exists (EvWrite (selected_space c) r (u16 v) :: evs). split; [reflexivity|].
  cbn [forallb advert_access]. rewrite Hr, Hq. reflexivity.
Qed.

Lemma no_advert_set_dev t0 f : preserves (no_advert_since t0) (set_dev f).
Proof. intros w H. exact H. Qed.

#[local] Hint Resolve no_advert_set_dev : quiet.
#[local] Hint Extern 1 (preserves (no_advert_since _) (phy_read _)) =>
  (apply no_advert_phy_read; reflexivity) : quiet.
#[local] Hint Extern 1 (preserves (no_advert_since _) (phy_write _ _)) =>
  (apply no_advert_phy_write; reflexivity) : quiet.

Lemma no_advert_ext_read t0 r : preserves (no_advert_since t0) (mars_ext_read r).
Proof. unfold mars_ext_read. preserves_tac. Qed.

Lemma no_advert_ext_write t0 r v :
  preserves (no_advert_since t0) (mars_ext_write r v).
Proof. unfold mars_ext_write. preserves_tac. Qed.

#[local] Hint Resolve no_advert_ext_read no_advert_ext_write : quiet.

Lemma no_advert_select t0 page :
  preserves (no_advert_since t0) (mars_select_reg_space page).
Proof. unfold mars_select_reg_space. preserves_tac. Qed.

#[local] Hint Resolve no_advert_select : quiet.

Lemma no_advert_page_read_bmcr t0 page :
  preserves (no_advert_since t0) (Rev2.mars_page_read page MII_BMCR).
Proof. unfold Rev2.mars_page_read. preserves_tac. Qed.

Lemma no_advert_page_write_bmcr t0 page v :
  preserves (no_advert_since t0) (Rev2.mars_page_write page MII_BMCR v).
Proof. unfold Rev2.mars_page_write. preserves_tac. Qed.

#[local] Hint Resolve no_advert_page_read_bmcr no_advert_page_write_bmcr : quiet.

Lemma no_advert_setup_forced t0 :
  preserves (no_advert_since t0) Rev2.mars_setup_forced.
Proof. unfold Rev2.mars_setup_forced. preserves_tac. Qed.

(** On a fiber port with autonegotiation disabled, whatever the bus
    does, [mars1s_config_aneg] accesses no advertisement register. *)
Lemma config_aneg_forced_fiber_no_advert (w : world) :
  g_port_type w = MARS_PORT_TYPE_FIBER ->
  autoneg (phydev w) <> AUTONEG_ENABLE ->
  exists evs,
    bus_trace (snd (Rev2.mars1s_config_aneg w)) = evs ++ bus_trace w /\
    forallb (fun ev => negb (advert_access ev)) evs = true.
Proof.
  intros Ht Han. rewrite config_aneg_forced_fiber by assumption.
  apply (no_advert_setup_forced (bus_trace w) w).
  exists []. split; reflexivity.
Qed.

(** * Further properties of the register accessors *)

(** X1.  Selecting a register space twice in a row leaves the chip as
    selecting it once does. *)
Theorem select_reg_space_idempotent (page : Z) (w : world) :
  next_ok 4 (bus_outcomes w) ->
  fst ((do_ mars_select_reg_space page; mars_select_reg_space page) w) = 0 /\
  the_chip (snd ((do_ mars_select_reg_space page;
                  mars_select_reg_space page) w))
  = the_chip (snd (mars_select_reg_space page w)).
Proof.
  destruct w as [c o t d pt ps]. cbn [bus_outcomes]. intros H.
  unfold bind.
  rewrite mars_select_reg_space_ok by ok_side.
  rewrite mars_select_reg_space_ok by ok_side.
  cbn [fst snd the_chip ext phy_regs sds_regs].
  rewrite insert_insert_eq. split; reflexivity.
Qed.

Lemma select_reg_space_idempotent_witness :
  the_chip (snd ((do_ mars_select_reg_space CTC_SDS_REG_SPACE;
                  mars_select_reg_space CTC_SDS_REG_SPACE)
                   (world_on_page 0x0 [])))
  = the_chip (snd (mars_select_reg_space CTC_SDS_REG_SPACE
                     (world_on_page 0x0 []))).
Proof.
  exact (proj2 (select_reg_space_idempotent CTC_SDS_REG_SPACE
                  (world_on_page 0x0 []) (next_ok_nil 4))).
Defined.

(** X2.  When the write of the register number to the latch fails, the
    indirect accessors return that errno at once: the data register is
    not accessed and the chip is as it was. *)
Theorem ext_access_aborts_on_latch_failure
    (regnum val e : Z) (rest : list Z) (w : world) :
  bus_outcomes w = e :: rest ->
  e < 0 ->
  let w' :=
    set_outcomes rest
      (log_event (EvWrite (selected_space (the_chip w)) 0x1e (u16 regnum)) w) in
  mars_ext_read regnum w = (e, w') /\
  mars_ext_write regnum val w = (e, w').
Proof.
  destruct w as [c o t d pt ps]. cbn [bus_outcomes the_chip].
  intros -> He. cbv zeta.
  assert (Hlt : (e <? 0) = true) by (apply Z.ltb_lt; exact He).
  unfold mars_ext_read, mars_ext_write, bind.
  rewrite phy_write_any. cbn [outcome_of]. rewrite Hlt. cbn [Z.ltb Z.compare].
  rewrite Hlt. split; reflexivity.
Qed.

Lemma ext_access_aborts_on_latch_failure_witness :
  mars_ext_read CTC_MARS_WOL_CFG_REG (world_on_page 0x2 [EIO]) =
  (EIO, mk_world (chip_on_page 0x2) []
                 [EvWrite SECONDARY 0x1e CTC_MARS_WOL_CFG_REG]
                 no_dev MARS_PORT_TYPE_UTP MARS_PORT_TYPE_UTP).
Proof.
  exact (proj1 (ext_access_aborts_on_latch_failure CTC_MARS_WOL_CFG_REG 0
                  EIO [] (world_on_page 0x2 [EIO]) eq_refl eq_refl)).
Defined.

(** X3.  An extended register reads back the 16-bit value written to
    it. *)
Theorem ext_write_read_round_trip (regnum val : Z) (w : world) :
  next_ok 4 (bus_outcomes w) ->
  fst ((do_ mars_ext_write regnum val; mars_ext_read regnum) w) = u16 val.
Proof.
  destruct w as [c o t d pt ps]. cbn [bus_outcomes]. intros H.
  unfold bind.
  rewrite mars_ext_write_ok by ok_side.
  rewrite mars_ext_read_ok by ok_side.
  cbn [fst ext]. rewrite reg_insert_eq. apply u16_u16.
Qed.

Lemma ext_write_read_round_trip_witness :
  fst ((do_ mars_ext_write 0xa5 0x12345; mars_ext_read 0xa5)
         (world_on_page 0x0 [])) = 0x2345.
Proof.
  exact (ext_write_read_round_trip 0xa5 0x12345 (world_on_page 0x0 [])
           (next_ok_nil 4)).
Defined.

(** ** Page-banked accessors: round trip and error results *)

Lemma bank_restored c s : bank (restored c) s = bank c s.
Proof. destruct s; reflexivity. Qed.

Lemma bank_bank_write_eq s r v c :
  bank (bank_write s r v c) s = <[r := v]> (bank c s).
Proof. destruct s; reflexivity. Qed.

Lemma bank_bank_write_ne s s' r v c :
  s' <> s -> bank (bank_write s r v c) s' = bank c s'.
Proof. destruct s, s'; intros H; try reflexivity; contradiction. Qed.

Lemma selected_space_bank_write s r v c :
  selected_space (bank_write s r v c) = selected_space c.
Proof. destruct s; reflexivity. Qed.

(** X4.  On a working bus a page-banked write changes the addressed
    register of the addressed bank only, leaves the selected space as it
    was, and a page-banked read of the same register returns the 16-bit
    value written. *)
Theorem page_write_read_round_trip (page regnum val : Z) (w : world) :
  next_ok 14 (bus_outcomes w) ->
  regnum <> 0x1e -> regnum <> 0x1f ->
  let w' := snd (Rev2.mars_page_write page regnum val w) in
  bank (the_chip w') (space_of page)
    = <[regnum := u16 val]> (bank (the_chip w) (space_of page)) /\
  (forall s, s <> space_of page -> bank (the_chip w') s = bank (the_chip w) s) /\
  selected_space (the_chip w') = selected_space (the_chip w) /\
  fst (Rev2.mars_page_read page regnum w') = u16 val.
Proof.
  destruct w as [c o t d pt ps]. cbn [bus_outcomes the_chip].
  intros H H1 H2. cbv zeta.
  rewrite mars_page_write_ok by (assumption || ok_side).
  cbn [snd the_chip].
  rewrite mars_page_read_ok by (assumption || ok_side).
  cbn [fst]. rewrite !bank_restored, bank_bank_write_eq, reg_insert_eq.
  rewrite u16_u16, selected_space_restored, selected_space_bank_write.
  repeat split.
  intros s Hs. rewrite bank_restored. apply bank_bank_write_ne, Hs.
Qed.

Lemma page_write_read_round_trip_witness :
  fst (Rev2.mars_page_read CTC_SDS_REG_SPACE MII_BMCR
         (snd (Rev2.mars_page_write CTC_SDS_REG_SPACE MII_BMCR 0x1140
                 (world_on_page 0x0 [])))) = 0x1140.
Proof.
  refine (proj2 (proj2 (proj2
    (page_write_read_round_trip CTC_SDS_REG_SPACE MII_BMCR 0x1140
       (world_on_page 0x0 []) (next_ok_nil 14) _ _))));
    intros H; vm_compute in H; discriminate H.
Defined.

Lemma outcome_of_neg_iff o v :
  0 <= v -> outcome_of o v < 0 <-> ~ next_ok 1 o.
Proof.
  intros Hv. unfold outcome_of, next_ok. destruct o as [|e o]; cbn.
  - split; [lia|]. intros H. exfalso. apply H. constructor.
  - rewrite take_0. destruct (Z.ltb_spec e 0).
    + split; [|intros; assumption]. intros _ H'.
      apply Forall_cons in H' as [H' _]. lia.
    + split; [lia|]. intros H'. exfalso. apply H'. repeat constructor.
      assumption.
Qed.

Lemma next_ok_7_split o :
  next_ok 7 o <->
  next_ok 2 o /\ next_ok 2 (drop 2 o) /\ next_ok 1 (drop 4 o) /\
  next_ok 2 (drop 5 o).
Proof.
  rewrite (next_ok_split 2 5 o), (next_ok_split 2 3 (drop 2 o)).
  rewrite (next_ok_split 1 2 (drop 2 (drop 2 o))).
  rewrite !drop_drop. cbn [Nat.add]. tauto.
Qed.

(** A page-banked access whose inner step is one bus transaction returns
    a negative value exactly when one of its seven transactions fails. *)
Lemma page_banked_fail_iff (inner : M Z) page :
  (forall c o t d pt ps, exists v c' t',
      inner (mk_world c o t d pt ps) =
      (outcome_of o v, mk_world c' (drop 1 o) t' d pt ps) /\ 0 <= v) ->
  forall c o t d pt ps,
    fst (page_banked inner restore_old_page page (mk_world c o t d pt ps)) < 0
    <-> ~ next_ok 7 o.
Proof.
  intros Hin c o t d pt ps. rewrite next_ok_7_split.
  unfold page_banked. unfold bind at 1.
  destruct (next_ok_dec 2 o) as [H2|H2].
  2:{ edestruct mars_ext_read_fail as (e & o' & t' & l & -> & He);
        [exact H2|].
      rewrite (proj2 (Z.ltb_lt e 0) He). cbn [fst ret]. tauto. }
  rewrite mars_ext_read_ok by assumption. rewrite u16_ltb, !u16_page_reg.
  unfold bind at 1.
  destruct (next_ok_dec 2 (drop 2 o)) as [H3|H3].
  2:{ edestruct mars_select_reg_space_fail as (e & o' & t' & l & -> & He);
        [exact H3|].
      rewrite (proj2 (Z.ltb_lt e 0) He). cbn [fst ret]. tauto. }
  rewrite mars_select_reg_space_ok by assumption.
  change (0 <? 0) with false. cbv iota.
  unfold bind at 1.
  match goal with |- context [inner (mk_world ?c1 ?o1 ?t1 _ _ _)] =>
    destruct (Hin c1 o1 t1 d pt ps) as (v & c' & t' & Ev & Hv) end.
  rewrite Ev. rewrite !drop_drop. cbn [Nat.add].
  unfold restore_old_page, bind.
  destruct (next_ok_dec 2 (drop 5 o)) as [H5|H5].
  2:{ edestruct mars_select_reg_space_fail as (e & o' & t'' & l & -> & He);
        [exact H5|].
      rewrite (proj2 (Z.ltb_lt e 0) He). cbn [fst ret]. tauto. }
  rewrite mars_select_reg_space_ok by assumption.
  change (0 <? 0) with false. cbv iota. cbn [fst ret].
  rewrite (outcome_of_neg_iff _ _ Hv). tauto.
Qed.

Lemma rev2_page_read_fail_iff page r c o t d pt ps :
  fst (Rev2.mars_page_read page r (mk_world c o t d pt ps)) < 0
  <-> ~ next_ok 7 o.
Proof.
  apply (page_banked_fail_iff (phy_read r) page).
  intros. eexists _, _, _. rewrite phy_read_any.
  split; [reflexivity|]. apply u16_range.
Qed.

Lemma rev2_page_write_fail_iff page r v c o t d pt ps :
  fst (Rev2.mars_page_write page r v (mk_world c o t d pt ps)) < 0
  <-> ~ next_ok 7 o.
Proof.
  apply (page_banked_fail_iff (phy_write r (u16 v)) page).
  intros. eexists _, _, _. rewrite phy_write_any.
  split; [reflexivity|]. lia.
Qed.

(** X5.  For any behaviour of the bus, [mars_page_read] and
    [mars_page_write] return a negative value exactly when one of the
    seven bus transactions they are made of fails. *)
Theorem page_read_write_fail_iff (page regnum val : Z) (w : world) :
  (fst (Rev2.mars_page_read page regnum w) < 0
   <-> ~ next_ok 7 (bus_outcomes w)) /\
  (fst (Rev2.mars_page_write page regnum val w) < 0
   <-> ~ next_ok 7 (bus_outcomes w)).
Proof.
  destruct w as [c o t d pt ps]. cbn [bus_outcomes]. split.
  - apply rev2_page_read_fail_iff.
  - apply rev2_page_write_fail_iff.
Qed.

(** X6.  [mars_ack_interrupt] never returns the event register's value:
    it returns 0 when all seven bus transactions of the read succeed and
    a negative errno when one of them fails. *)
Theorem ack_interrupt_result (w : world) :
  (next_ok 7 (bus_outcomes w) /\ fst (Rev2.mars_ack_interrupt w) = 0) \/
  (~ next_ok 7 (bus_outcomes w) /\ fst (Rev2.mars_ack_interrupt w) < 0).
Proof.
  destruct w as [c o t d pt ps]. cbn [bus_outcomes].
  pose proof (rev2_page_read_fail_iff CTC_PHY_REG_SPACE CTC_PHY_IEVENT
                c o t d pt ps) as Hiff.
  unfold Rev2.mars_ack_interrupt, bind.
  destruct (Rev2.mars_page_read CTC_PHY_REG_SPACE CTC_PHY_IEVENT
              (mk_world c o t d pt ps)) as [err w'].
  cbn [fst] in Hiff. unfold ret.
  destruct (Z.ltb_spec err 0) as [Hn|Hp]; cbn [fst].
  - right. split; [apply Hiff|]; assumption.
  - left. split; [|reflexivity].
    destruct (next_ok_dec 7 o) as [H|H]; [assumption|].
    apply Hiff in H. lia.
Qed.

(** ** Wake-on-LAN: what is set is what is reported *)

Lemma mars_get_wol_ok wol c o t d pt ps :
  next_ok 2 o ->
  fst (mars_get_wol wol (mk_world c o t d pt ps)) =
  mk_wolinfo WAKE_MAGIC
    (if Z.testbit (reg (ext c) CTC_MARS_WOL_CFG_REG) 3 then WAKE_MAGIC else 0).
Proof.
  intros H. unfold mars_get_wol, bind.
  rewrite mars_ext_read_ok by assumption. rewrite u16_ltb.
  change CTC_MARS_WOL_EN with (2 ^ 3). rewrite truthy_land_bit by lia.
  change (u16 CTC_MARS_WOL_CFG_REG) with CTC_MARS_WOL_CFG_REG.
  rewrite u16_testbit by lia. change (3 <? 16) with true.
  rewrite andb_true_r.
  destruct (Z.testbit (reg (ext c) CTC_MARS_WOL_CFG_REG) 3); reflexivity.
Qed.

Lemma wol_cfg_value_enable_bit val wol_cfg :
  Z.testbit (wol_cfg_value val wol_cfg) 3 = truthy (enable wol_cfg).
Proof.
  rewrite wol_cfg_value_testbit by lia.
  destruct (truthy (enable wol_cfg)); [|reflexivity].
  destruct (type wol_cfg =? MARS_WOL_TYPE_LEVEL); [reflexivity|].
  destruct (type wol_cfg =? MARS_WOL_TYPE_PULSE); reflexivity.
Qed.

(** X7.  Enabling or disabling through [mars_wol_en_cfg] on a working
    bus is what [mars_get_wol] reports afterwards, whatever the register
    held before and whatever type and width are configured. *)
Theorem wol_en_cfg_then_get_wol
    (wol_cfg : mars_wol_cfg_t) (wol : ethtool_wolinfo) (w : world) :
  next_ok 6 (bus_outcomes w) ->
  fst ((do_ mars_wol_en_cfg wol_cfg; mars_get_wol wol) w) =
  mk_wolinfo WAKE_MAGIC (if truthy (enable wol_cfg) then WAKE_MAGIC else 0).
Proof.
  destruct w as [c o t d pt ps]. cbn [bus_outcomes]. intros H.
  unfold bind at 1.
  edestruct mars_wol_en_cfg_ok as [t1 ->]; [ok_side|].
  rewrite mars_get_wol_ok by ok_side. cbn [ext].
  rewrite reg_insert_eq, wol_cfg_value_enable_bit. reflexivity.
Qed.

Lemma wol_en_cfg_then_get_wol_witness :
  fst ((do_ mars_wol_en_cfg wol_disable; mars_get_wol (mk_wolinfo 0 0))
         (mk_world (mk_chip 0 (<[CTC_MARS_WOL_CFG_REG := 0x4f]> ∅) ∅ ∅)
                   [] [] no_dev 0 0)) =
  mk_wolinfo WAKE_MAGIC 0.
Proof.
  exact (wol_en_cfg_then_get_wol wol_disable (mk_wolinfo 0 0)
           (mk_world (mk_chip 0 (<[CTC_MARS_WOL_CFG_REG := 0x4f]> ∅) ∅ ∅)
                     [] [] no_dev 0 0) (next_ok_nil 6)).
Defined.

Lemma forall_drop_ok k (o : list Z) :
  Forall (fun e => 0 <= e) o -> Forall (fun e => 0 <= e) (drop k o).
Proof. apply Forall_drop. Qed.

Lemma rev2_set_wol_ok wol c o t d pt ps :
  Forall (fun e => 0 <= e) o ->
  exists c' o' t',
    Rev2.mars_set_wol wol (mk_world c o t d pt ps) =
    (0, mk_world c' o' t' d pt ps) /\
    Forall (fun e => 0 <= e) o' /\
    Z.testbit (reg (ext c') CTC_MARS_WOL_CFG_REG) 3 =
    truthy (Z.land (wolopts wol) WAKE_MAGIC).
Proof.
  intros Hok. unfold Rev2.mars_set_wol.
  destruct (truthy (Z.land (wolopts wol) WAKE_MAGIC)).
  - unfold bind at 1.
    rewrite mars_page_read_ok by (try ok_side; neq_const). unfold bind at 1.
    rewrite mars_page_write_ok by (try ok_side; neq_const).
    cbn [Z.ltb Z.compare]. unfold bind at 1.
    edestruct mars_wol_en_cfg_ok as [t1 ->]; [ok_side|].
    cbn [Z.ltb Z.compare].
    edestruct store_magic_addr_ok as [t2 ->]; [ok_side|].
    unfold ret. do 3 eexists. split; [reflexivity|].
    split; [rewrite !drop_drop; apply forall_drop_ok, Hok|].
    cbn [ext]. do 3 rewrite reg_insert_ne by neq_const.
    rewrite reg_insert_eq. apply wol_cfg_value_enable_bit.
  - unfold bind at 1.
    edestruct mars_wol_en_cfg_ok as [t1 ->]; [ok_side|].
    cbn [Z.ltb Z.compare]. unfold ret. do 3 eexists.
    split; [reflexivity|].
    split; [apply forall_drop_ok, Hok|].
    cbn [ext]. rewrite reg_insert_eq. apply wol_cfg_value_enable_bit.
Qed.

Lemma rev1_set_wol_ok wol c o t d pt ps :
  Forall (fun e => 0 <= e) o ->
  exists c' o' t',
    Rev1.mars_set_wol wol (mk_world c o t d pt ps) =
    (0, mk_world c' o' t' d pt ps) /\
    Forall (fun e => 0 <= e) o' /\
    Z.testbit (reg (ext c') CTC_MARS_WOL_CFG_REG) 3 =
    truthy (Z.land (wolopts wol) WAKE_MAGIC).
Proof.
  intros Hok. unfold Rev1.mars_set_wol. unfold bind at 1.
  rewrite mars_ext_read_ok by ok_side. rewrite u16_ltb. unfold bind at 1.
  rewrite mars_select_reg_space_ok by ok_side. cbn [Z.ltb Z.compare].
  destruct (truthy (Z.land (wolopts wol) WAKE_MAGIC)).
  - unfold bind at 1.
    rewrite phy_read_ok by ok_side. unfold bind at 1.
    rewrite phy_write_ok by ok_side. cbn [Z.ltb Z.compare]. unfold bind at 1.
    edestruct mars_wol_en_cfg_ok as [t1 ->]; [ok_side|].
    cbn [Z.ltb Z.compare].
    edestruct store_magic_addr_ok as [t2 ->]; [ok_side|].
    unfold bind. rewrite mars_select_reg_space_ok by ok_side.
    cbn [Z.ltb Z.compare]. unfold ret. do 3 eexists. split; [reflexivity|].
    split; [rewrite !drop_drop; apply forall_drop_ok, Hok|].
    cbn [ext]. do 4 rewrite reg_insert_ne by neq_const.
    rewrite reg_insert_eq. apply wol_cfg_value_enable_bit.
  - unfold bind at 1.
    edestruct mars_wol_en_cfg_ok as [t1 ->]; [ok_side|].
    cbn [Z.ltb Z.compare].
    unfold bind. rewrite mars_select_reg_space_ok by ok_side.
    cbn [Z.ltb Z.compare]. unfold ret. do 3 eexists. split; [reflexivity|].
    split; [rewrite !drop_drop; apply forall_drop_ok, Hok|].
    cbn [ext]. rewrite reg_insert_ne by neq_const.
    rewrite reg_insert_eq. apply wol_cfg_value_enable_bit.
Qed.

(** X8.  In both revisions, on a working bus, [mars_set_wol] returns 0
    and [mars_get_wol] then reports magic-packet wake enabled exactly
    when it was requested. *)
Theorem set_wol_then_get_wol (req wol : ethtool_wolinfo) (w : world) :
  bus_ok w ->
  let reported :=
    mk_wolinfo WAKE_MAGIC
      (if truthy (Z.land (wolopts req) WAKE_MAGIC) then WAKE_MAGIC else 0) in
  (fst (Rev2.mars_set_wol req w) = 0 /\
   fst (mars_get_wol wol (snd (Rev2.mars_set_wol req w))) = reported) /\
  (fst (Rev1.mars_set_wol req w) = 0 /\
   fst (mars_get_wol wol (snd (Rev1.mars_set_wol req w))) = reported).
Proof.
  destruct w as [c o t d pt ps]. unfold bus_ok. cbn [bus_outcomes].
  intros Hok. cbv zeta. split.
  - destruct (rev2_set_wol_ok req c o t d pt ps Hok)
      as (c' & o' & t' & -> & Hok' & Hbit).
    cbn [fst snd]. split; [reflexivity|].
    rewrite mars_get_wol_ok by ok_side. rewrite Hbit. reflexivity.
  - destruct (rev1_set_wol_ok req c o t d pt ps Hok)
      as (c' & o' & t' & -> & Hok' & Hbit).
    cbn [fst snd]. split; [reflexivity|].
    rewrite mars_get_wol_ok by ok_side. rewrite Hbit. reflexivity.
Qed.

Lemma set_wol_then_get_wol_witness :
  let w := mk_world (mk_chip 0 (<[CTC_MARS_WOL_CFG_REG := 0x4f]> ∅) ∅ ∅)
                    [] [] no_dev 0 0 in
  fst (mars_get_wol (mk_wolinfo 0 0)
         (snd (Rev2.mars_set_wol (mk_wolinfo 0 0) w)))
  = mk_wolinfo WAKE_MAGIC 0 /\
  fst (mars_get_wol (mk_wolinfo 0 0)
         (snd (Rev1.mars_set_wol (mk_wolinfo 0 WAKE_MAGIC) w)))
  = mk_wolinfo WAKE_MAGIC WAKE_MAGIC.
Proof.
  cbv zeta. split.
  - exact (proj2 (proj1 (set_wol_then_get_wol (mk_wolinfo 0 0) (mk_wolinfo 0 0)
      (mk_world (mk_chip 0 (<[CTC_MARS_WOL_CFG_REG := 0x4f]> ∅) ∅ ∅)
                [] [] no_dev 0 0) (List.Forall_nil _)))).
  - exact (proj2 (proj2 (set_wol_then_get_wol (mk_wolinfo 0 WAKE_MAGIC)
      (mk_wolinfo 0 0)
      (mk_world (mk_chip 0 (<[CTC_MARS_WOL_CFG_REG := 0x4f]> ∅) ∅ ∅)
                [] [] no_dev 0 0) (List.Forall_nil _)))).
Defined.

(** ** Forced setup and restart of autonegotiation *)

Lemma testbit_pow2 k n : 0 <= k -> Z.testbit (2 ^ k) n = (n =? k).
Proof. intros Hk. rewrite Z.pow2_bits_eqb by assumption. apply Z.eqb_sym. Qed.

Ltac bmcr_consts :=
  change BMCR_SPEED1000 with (2 ^ 6); change BMCR_FULLDPLX with (2 ^ 8);
  change BMCR_ANRESTART with (2 ^ 9); change BMCR_ISOLATE with (2 ^ 10);
  change BMCR_PDOWN with (2 ^ 11); change BMCR_ANENABLE with (2 ^ 12);
  change BMCR_SPEED100 with (2 ^ 13); change BMCR_LOOPBACK with (2 ^ 14).

Ltac bit_spec :=
  unfold clear_bits;
  repeat first
    [ rewrite Z.lor_spec | rewrite Z.land_spec
    | rewrite Z.lnot_spec by assumption
    | rewrite testbit_pow2 by lia
    | rewrite u16_testbit by assumption ].

Ltac bit_cases n :=
  repeat match goal with
         | |- context [n =? ?k] =>
             destruct (Z.eqb_spec n k); [subst n|]
         | |- context [n <? ?k] => destruct (Z.ltb_spec n k)
         end;
  cbn [andb orb negb]; rewrite ?andb_true_r, ?andb_false_r, ?orb_false_r;
  try reflexivity; try lia.

Lemma forced_ctl_testbit old d n :
  0 <= n ->
  Z.testbit
    (u16
       (let ctl := Z.land (u16 old)
                     (Z.lor BMCR_LOOPBACK (Z.lor BMCR_ISOLATE BMCR_PDOWN)) in
        let ctl :=
          if speed d =? SPEED_1000 then Z.lor ctl BMCR_SPEED1000
          else if speed d =? SPEED_100 then Z.lor ctl BMCR_SPEED100
          else ctl in
        if duplex d =? DUPLEX_FULL then Z.lor ctl BMCR_FULLDPLX else ctl)) n
  = forced_ctl_bit old d n.
Proof.
  intros Hn. cbv zeta. unfold forced_ctl_bit. bmcr_consts.
  destruct (duplex d =? DUPLEX_FULL), (speed d =? SPEED_1000),
    (speed d =? SPEED_100); bit_spec; bit_cases n.
Qed.

Lemma fiber_forced_testbit old n :
  0 <= n ->
  Z.testbit (u16 (clear_bits (u16 old) BMCR_ANENABLE)) n
  = (n <? 16) && negb (n =? 12) && Z.testbit old n.
Proof.
  intros Hn. bmcr_consts. bit_spec. bit_cases n.
  all: destruct (Z.testbit old n); reflexivity.
Qed.

Ltac bank_norm :=
  cbn [restored bank_write bank space_of CTC_PHY_REG_SPACE CTC_SDS_REG_SPACE
         Z.eqb Pos.eqb phy_regs sds_regs ext latch the_chip phydev
         g_port_type fst snd].

(** X9.  [mars_setup_forced] on a working bus.  On the copper side (port
    type COPPER or COMBO) the control register of the PHY space keeps its
    loopback, isolate and power-down bits, takes speed and duplex from the
    descriptor and has every other bit clear, and the descriptor's pause
    fields are zeroed; on the fiber side (FIBER or COMBO) only the
    autonegotiation-enable bit of the SerDes control register is cleared.
    A side the port does not have is not touched, and the selected space
    is the one selected before. *)
Theorem setup_forced_registers (w : world) :
  bus_ok w ->
  let c := the_chip w in
  let w' := snd (Rev2.mars_setup_forced w) in
  let c' := the_chip w' in
  fst (Rev2.mars_setup_forced w) = 0 /\
  selected_space c' = selected_space c /\
  (if is_utp_or_combo (g_port_type w) then
     (forall n, 0 <= n ->
        Z.testbit (reg (phy_regs c') MII_BMCR) n
        = forced_ctl_bit (reg (phy_regs c) MII_BMCR) (phydev w) n) /\
     phydev w' = set_asym_pause 0 (set_pause 0 (phydev w))
   else phy_regs c' = phy_regs c /\ phydev w' = phydev w) /\
  (if is_fiber_or_combo (g_port_type w) then
     forall n, 0 <= n ->
       Z.testbit (reg (sds_regs c') MII_BMCR) n
       = (n <? 16) && negb (n =? 12) &&
         Z.testbit (reg (sds_regs c) MII_BMCR) n
   else sds_regs c' = sds_regs c).
Proof.
  destruct w as [c o t d pt ps]. unfold bus_ok.
  cbn [bus_outcomes the_chip phydev g_port_type]. intros Hok. cbv zeta.
  unfold Rev2.mars_setup_forced. run.
  destruct (is_utp_or_combo pt); run;
    destruct (is_fiber_or_combo pt); run; cbn [fst snd the_chip phydev];
    rewrite ?selected_space_restored, ?selected_space_bank_write,
      ?selected_space_restored, ?selected_space_bank_write,
      ?selected_space_restored;
    bank_norm; repeat split; try reflexivity;
    intros n Hn; rewrite reg_insert_eq;
    first [ exact (forced_ctl_testbit _ d n Hn)
          | exact (fiber_forced_testbit _ n Hn) ].
Qed.

Lemma setup_forced_registers_witness :
  bus_ok forced_copper_world /\
  fst (Rev2.mars_setup_forced forced_copper_world) = 0.
Proof.
  split; [apply List.Forall_nil|].
  exact (proj1 (setup_forced_registers forced_copper_world
                  (List.Forall_nil _))).
Defined.

Lemma copper_restart_testbit old n :
  0 <= n ->
  Z.testbit
    (u16 (clear_bits (Z.lor (u16 old) (Z.lor BMCR_ANENABLE BMCR_ANRESTART))
            BMCR_ISOLATE)) n
  = (n <? 16) &&
    (if (n =? 12) || (n =? 9) then true
     else if n =? 10 then false else Z.testbit old n).
Proof.
  intros Hn. bmcr_consts. bit_spec. bit_cases n.
  all: destruct (Z.testbit old n); reflexivity.
Qed.

Lemma fiber_restart_testbit old n :
  0 <= n ->
  Z.testbit (u16 (Z.lor (u16 old) BMCR_ANENABLE)) n
  = (n <? 16) && ((n =? 12) || Z.testbit old n).
Proof.
  intros Hn. bmcr_consts. bit_spec. bit_cases n.
  all: destruct (Z.testbit old n); reflexivity.
Qed.

(** X10.  [mars_restart_aneg] on a working bus.  On the copper side the
    control register of the PHY space gets autonegotiation-enable and
    restart set and isolate cleared; on the fiber side the SerDes control
    register gets autonegotiation-enable set, and no restart bit.  All
    other bits of the two registers are as before, the descriptor and a
    side the port does not have are not touched, and the selected space
    is the one selected before. *)
Theorem restart_aneg_registers (w : world) :
  bus_ok w ->
  let c := the_chip w in
  let w' := snd (Rev2.mars_restart_aneg w) in
  let c' := the_chip w' in
  fst (Rev2.mars_restart_aneg w) = 0 /\
  selected_space c' = selected_space c /\
  phydev w' = phydev w /\
  (if is_utp_or_combo (g_port_type w) then
     forall n, 0 <= n ->
       Z.testbit (reg (phy_regs c') MII_BMCR) n
       = (n <? 16) &&
         (if (n =? 12) || (n =? 9) then true
          else if n =? 10 then false
          else Z.testbit (reg (phy_regs c) MII_BMCR) n)
   else phy_regs c' = phy_regs c) /\
  (if is_fiber_or_combo (g_port_type w) then
     forall n, 0 <= n ->
       Z.testbit (reg (sds_regs c') MII_BMCR) n
       = (n <? 16) &&
         ((n =? 12) || Z.testbit (reg (sds_regs c) MII_BMCR) n)
   else sds_regs c' = sds_regs c).
Proof.
  destruct w as [c o t d pt ps]. unfold bus_ok.
  cbn [bus_outcomes the_chip phydev g_port_type]. intros Hok. cbv zeta.
  unfold Rev2.mars_restart_aneg. run.
  destruct (is_utp_or_combo pt); run;
    destruct (is_fiber_or_combo pt); run; cbn [fst snd the_chip phydev];
    rewrite ?selected_space_restored, ?selected_space_bank_write,
      ?selected_space_restored, ?selected_space_bank_write,
      ?selected_space_restored;
    bank_norm; repeat split; try reflexivity;
    intros n Hn; rewrite reg_insert_eq;
    first [ exact (copper_restart_testbit _ n Hn)
          | exact (fiber_restart_testbit _ n Hn) ].
Qed.

Lemma restart_aneg_registers_witness :
  bus_ok forced_copper_world /\
  fst (Rev2.mars_restart_aneg forced_copper_world) = 0.
Proof.
  split; [apply List.Forall_nil|].
  exact (proj1 (restart_aneg_registers forced_copper_world
                  (List.Forall_nil _))).
Defined.

(** ** Advertisement *)

(** X11.  Whatever the bus does, [mars_config_advert] leaves the
    descriptor with its advertised modes cut down to the supported ones
    and nothing else changed. *)
Theorem config_advert_restricts_advertising (w : world) :
  let d := phydev w in
  let d' := phydev (snd (Rev2.mars_config_advert w)) in
  d' = set_advertising (Z.land (advertising d) (supported d)) d /\
  (forall n, Z.testbit (advertising d') n = true ->
             Z.testbit (supported d') n = true).
Proof.
  cbv zeta.
  assert (H : phydev (snd (Rev2.mars_config_advert w)) =
              set_advertising
                (Z.land (advertising (phydev w)) (supported (phydev w)))
                (phydev w)).
  { unfold Rev2.mars_config_advert. unfold bind at 1, set_dev at 1, modify.
    match goal with |- phydev (snd (?m ?w0)) = _ =>
      assert (Hk : keeps host_state m) by keeps_tac;
      rewrite (host_state_phydev _ _ (Hk w0)) end.
    destruct w; reflexivity. }
  split; [exact H|]. rewrite H. cbn [advertising supported set_advertising].
  intros n. rewrite Z.land_spec. intros Hn.
  apply andb_true_iff in Hn. apply Hn.
Qed.

Lemma flag_testbit x m b n :
  Z.testbit (flag x m b) n = truthy (Z.land x m) && Z.testbit b n.
Proof.
  unfold flag. destruct (truthy (Z.land x m)); [reflexivity|].
  apply Z.bits_0.
Qed.

Lemma mii_adv_high ethadv n :
  16 <= n -> Z.testbit (ethtool_adv_to_mii_adv_t ethadv) n = false.
Proof.
  intros Hn. unfold ethtool_adv_to_mii_adv_t.
  rewrite !Z.lor_spec, !flag_testbit.
  change ADVERTISE_10HALF with (2 ^ 5). change ADVERTISE_10FULL with (2 ^ 6).
  change ADVERTISE_100HALF with (2 ^ 7). change ADVERTISE_100FULL with (2 ^ 8).
  change ADVERTISE_PAUSE_CAP with (2 ^ 10).
  change ADVERTISE_PAUSE_ASYM with (2 ^ 11).
  rewrite !testbit_pow2 by lia.
  repeat match goal with |- context [n =? ?k] =>
    destruct (Z.eqb_spec n k); [lia|] end.
  rewrite !andb_false_r. reflexivity.
Qed.

Lemma mii_ctrl1000_high ethadv n :
  16 <= n -> Z.testbit (ethtool_adv_to_mii_ctrl1000_t ethadv) n = false.
Proof.
  intros Hn. unfold ethtool_adv_to_mii_ctrl1000_t.
  rewrite !Z.lor_spec, !flag_testbit.
  change ADVERTISE_1000HALF with (2 ^ 8). change ADVERTISE_1000FULL with (2 ^ 9).
  rewrite !testbit_pow2 by lia.
  repeat match goal with |- context [n =? ?k] =>
    destruct (Z.eqb_spec n k); [lia|] end.
  rewrite !andb_false_r. reflexivity.
Qed.

Lemma lor_clear_absorb x m e :
  Z.lor (clear_bits (Z.lor (clear_bits x m) e) m) e = Z.lor (clear_bits x m) e.
Proof.
  apply Z.bits_inj'. intros n Hn. unfold clear_bits.
  rewrite !Z.lor_spec, !Z.land_spec, !Z.lor_spec, !Z.land_spec,
    !Z.lnot_spec by assumption.
  destruct (Z.testbit x n), (Z.testbit m n), (Z.testbit e n); reflexivity.
Qed.

Lemma clear_clear x m : clear_bits (clear_bits x m) m = clear_bits x m.
Proof.
  unfold clear_bits. rewrite <- Z.land_assoc, Z.land_diag. reflexivity.
Qed.

Lemma u16_lor_clear x m e :
  (forall n, 16 <= n -> Z.testbit e n = false) ->
  u16 (Z.lor (clear_bits (u16 x) m) e) = Z.lor (clear_bits (u16 x) m) e.
Proof.
  intros He. apply Z.bits_inj'. intros n Hn.
  rewrite u16_testbit by assumption.
  destruct (Z.ltb_spec n 16); [apply andb_true_r|].
  rewrite andb_false_r. unfold clear_bits.
  rewrite Z.lor_spec, Z.land_spec, u16_testbit, He by assumption.
  destruct (Z.ltb_spec n 16); [lia|]. rewrite andb_false_r. reflexivity.
Qed.

Lemma u16_clear x m : u16 (clear_bits (u16 x) m) = clear_bits (u16 x) m.
Proof.
  apply Z.bits_inj'. intros n Hn. unfold clear_bits.
  rewrite u16_testbit, Z.land_spec, u16_testbit by assumption.
  destruct (n <? 16), (Z.testbit x n), (Z.testbit (Z.lnot m) n); reflexivity.
Qed.

Lemma advert_word_u16 x a : u16 (advert_word (u16 x) a) = advert_word (u16 x) a.
Proof. apply u16_lor_clear. intros n. apply mii_adv_high. Qed.

Lemma advert_word_fix x a : advert_word (advert_word x a) a = advert_word x a.
Proof. apply lor_clear_absorb. Qed.

Lemma ctrl1000_word_u16 x s a :
  u16 (ctrl1000_word (u16 x) s a) = ctrl1000_word (u16 x) s a.
Proof.
  unfold ctrl1000_word. cbv zeta. destruct (truthy _).
  - apply u16_lor_clear. intros n. apply mii_ctrl1000_high.
  - apply u16_clear.
Qed.

Lemma ctrl1000_word_fix x s a :
  ctrl1000_word (ctrl1000_word x s a) s a = ctrl1000_word x s a.
Proof.
  unfold ctrl1000_word. cbv zeta. destruct (truthy _).
  - apply lor_clear_absorb.
  - apply clear_clear.
Qed.

Lemma phy_regs_restored c : phy_regs (restored c) = phy_regs c.
Proof. reflexivity. Qed.

Lemma phy_regs_bank_write r v c :
  phy_regs (bank_write PRIMARY r v c) = <[r := v]> (phy_regs c).
Proof. reflexivity. Qed.

Lemma sds_regs_restored c : sds_regs (restored c) = sds_regs c.
Proof. reflexivity. Qed.

Lemma sds_regs_bank_write r v c :
  sds_regs (bank_write PRIMARY r v c) = sds_regs c.
Proof. reflexivity. Qed.

Ltac advert_stage :=
  repeat progress
    (run; change (space_of CTC_PHY_REG_SPACE) with PRIMARY;
     cbn [bank advertising supported set_advertising negb orb andb];
     rewrite ?phy_regs_restored, ?phy_regs_bank_write;
     cbv beta; rewrite ?reg_insert_ne by neq_const).

(** A run of [mars_config_advert] on a working bus. *)
Lemma rev2_config_advert_run c o t d pt ps :
  Forall (fun e => 0 <= e) o ->
  let advertise := Z.land (advertising d) (supported d) in
  let old4 := u16 (reg (phy_regs c) MII_ADVERTISE) in
  let old9 := u16 (reg (phy_regs c) MII_CTRL1000) in
  let A := advert_word old4 advertise in
  let G := ctrl1000_word old9 (supported d) advertise in
  exists c' o' t',
    Rev2.mars_config_advert (mk_world c o t d pt ps) =
    ((if negb (A =? old4) || (has_estatus c && negb (G =? old9))
      then 1 else 0),
     mk_world c' o' t' (set_advertising advertise d) pt ps) /\
    Forall (fun e => 0 <= e) o' /\
    selected_space c' = selected_space c /\
    sds_regs c' = sds_regs c /\
    has_estatus c' = has_estatus c /\
    advert_regs c' = (A, if has_estatus c then G else old9).
Proof.
  intros Hok. cbv zeta.
  assert (Hd : forall n, Forall (fun e => 0 <= e) (drop n o))
    by (intros n; apply Forall_drop, Hok).
  unfold Rev2.mars_config_advert, advert_regs, advert_word.
  advert_stage.
  match goal with |- context [negb (?a =? ?b)] =>
    destruct (Z.eqb_spec a b) as [EA|EA] end; advert_stage.
  all: unfold has_estatus;
    destruct (truthy (Z.land (u16 (reg (phy_regs c) MII_BMSR)) BMSR_ESTATEN))
      eqn:Eest; advert_stage.
  all: unfold ctrl1000_word; cbv zeta;
    try (destruct (truthy (Z.land (supported d)
                     (Z.lor SUPPORTED_1000baseT_Half
                        SUPPORTED_1000baseT_Full))) eqn:Esup; advert_stage).
  all: try (match goal with |- context [negb (?a =? ?b)] =>
              destruct (Z.eqb_spec a b) as [EG|EG] end; advert_stage).
  all: eexists _, _, _; (split; [reflexivity|]);
    rewrite ?drop_drop; (split; [apply Hd|]);
    rewrite ?selected_space_restored, ?selected_space_bank_write,
      ?selected_space_restored, ?selected_space_bank_write,
      ?selected_space_restored;
    (split; [reflexivity|]);
    rewrite ?sds_regs_restored, ?sds_regs_bank_write, ?sds_regs_restored,
      ?sds_regs_bank_write, ?sds_regs_restored;
    (split; [reflexivity|]);
    rewrite ?phy_regs_restored, ?phy_regs_bank_write, ?phy_regs_restored,
      ?phy_regs_bank_write, ?phy_regs_restored;
    rewrite ?reg_insert_ne by neq_const; rewrite ?reg_insert_eq;
    rewrite ?reg_insert_ne by neq_const; rewrite ?reg_insert_eq;
    (split; [try reflexivity; try assumption|]).
  all: rewrite ?u16_u16; f_equal;
    first [ reflexivity
          | symmetry; exact EA
          | apply u16_lor_clear; intros n; apply mii_adv_high
          | apply u16_lor_clear; intros n; apply mii_ctrl1000_high
          | apply u16_clear ].
Qed.

Lemma land_land_same a s : Z.land (Z.land a s) s = Z.land a s.
Proof. rewrite <- Z.land_assoc, Z.land_diag. reflexivity. Qed.

(** X12.  On a working bus [mars_config_advert] returns 0 or 1, and 1
    exactly when the 16-bit content of one of the two advertisement
    registers of the PHY space has changed.  The SerDes bank and the
    selected space are as before. *)
Theorem config_advert_reports_change (w : world) :
  bus_ok w ->
  let r := fst (Rev2.mars_config_advert w) in
  let c' := the_chip (snd (Rev2.mars_config_advert w)) in
  (r = 0 \/ r = 1) /\
  (r = 1 <-> advert_regs c' <> advert_regs (the_chip w)) /\
  sds_regs c' = sds_regs (the_chip w) /\
  selected_space c' = selected_space (the_chip w).
Proof.
  destruct w as [c o t d pt ps]. unfold bus_ok.
  cbn [bus_outcomes the_chip]. intros Hok. cbv zeta.
  destruct (rev2_config_advert_run c o t d pt ps Hok)
    as (c' & o' & t' & -> & _ & Hsel & Hsds & _ & Hregs).
  cbn [fst snd the_chip]. rewrite Hregs. unfold advert_regs.
  split; [destruct (_ || _); auto|].
  split; [|split; assumption].
  destruct (Z.eqb_spec
              (advert_word (u16 (reg (phy_regs c) MII_ADVERTISE))
                 (Z.land (advertising d) (supported d)))
              (u16 (reg (phy_regs c) MII_ADVERTISE))) as [EA|EA];
    cbn [negb orb].
  2:{ split; [|reflexivity]. intros _ H. injection H as H _. contradiction. }
  rewrite EA. destruct (has_estatus c); cbn [andb].
  2:{ split; [discriminate|]. intros H. contradiction. }
  destruct (Z.eqb_spec
              (ctrl1000_word (u16 (reg (phy_regs c) MII_CTRL1000))
                 (supported d) (Z.land (advertising d) (supported d)))
              (u16 (reg (phy_regs c) MII_CTRL1000))) as [EG|EG];
    cbn [negb].
  - rewrite EG. split; [discriminate|]. intros H. contradiction.
  - split; [|reflexivity]. intros _ H. injection H as H. contradiction.
Qed.

Lemma config_advert_reports_change_witness :
  bus_ok forced_copper_world /\
  (fst (Rev2.mars_config_advert forced_copper_world) = 0 \/
   fst (Rev2.mars_config_advert forced_copper_world) = 1).
Proof.
  split; [apply List.Forall_nil|].
  exact (proj1 (config_advert_reports_change forced_copper_world
                  (List.Forall_nil _))).
Defined.

(** X13.  On a working bus a second [mars_config_advert] finds nothing
    to change: it returns 0 and leaves the advertisement registers and
    the descriptor as the first call left them. *)
Theorem config_advert_idempotent (w : world) :
  bus_ok w ->
  let w1 := snd (Rev2.mars_config_advert w) in
  let w2 := snd (Rev2.mars_config_advert w1) in
  fst (Rev2.mars_config_advert w1) = 0 /\
  advert_regs (the_chip w2) = advert_regs (the_chip w1) /\
  phydev w2 = phydev w1.
Proof.
  destruct w as [c o t d pt ps]. unfold bus_ok.
  cbn [bus_outcomes]. intros Hok. cbv zeta.
  destruct (rev2_config_advert_run c o t d pt ps Hok)
    as (c1 & o1 & t1 & -> & Hok1 & _ & _ & Hest & Hregs).
  cbn [snd].
  destruct (rev2_config_advert_run c1 o1 t1
              (set_advertising (Z.land (advertising d) (supported d)) d)
              pt ps Hok1)
    as (c2 & o2 & t2 & -> & _ & _ & _ & _ & Hregs2).
  cbn [fst snd the_chip phydev]. rewrite Hregs2.
  cbn [advertising supported set_advertising]. rewrite land_land_same.
  unfold advert_regs in Hregs. injection Hregs as H4 H9.
  rewrite H4, H9, Hest, advert_word_fix. unfold advert_regs.
  rewrite H4, H9, Z.eqb_refl. cbn [negb orb].
  destruct (has_estatus c); cbn [andb].
  - rewrite ctrl1000_word_fix, Z.eqb_refl. cbn [negb].
    repeat split.
  - repeat split.
Qed.

Lemma config_advert_idempotent_witness :
  bus_ok forced_copper_world /\
  fst (Rev2.mars_config_advert
         (snd (Rev2.mars_config_advert forced_copper_world))) = 0.
Proof.
  split; [apply List.Forall_nil|].
  exact (proj1 (config_advert_idempotent forced_copper_world
                  (List.Forall_nil _))).
Defined.

(** ** Link update *)

Ltac link_stage :=
  repeat progress
    (run; change (space_of CTC_PHY_REG_SPACE) with PRIMARY;
     change (space_of CTC_SDS_REG_SPACE) with SECONDARY;
     cbn [bank negb orb andb];
     rewrite ?phy_regs_restored, ?sds_regs_restored;
     cbv beta).

(** X14.  [mars_update_link] on a working bus returns 0, reads only, and
    decides as follows.  If the port has a copper side whose link bit is
    set: link up, Active Media COPPER, PHY space left selected.
    Otherwise, if it has a fiber side whose link bit is set: link up,
    Active Media FIBER, SerDes space left selected.  Otherwise Active
    Media and the selected space are as before and the link is down (or
    untouched when the port type is none of the three). *)
Theorem update_link_outcome (w : world) :
  bus_ok w ->
  let c := the_chip w in
  let d := phydev w in
  let pt := g_port_type w in
  let w' := snd (Rev2.mars_update_link w) in
  let c' := the_chip w' in
  fst (Rev2.mars_update_link w) = 0 /\
  phy_regs c' = phy_regs c /\ sds_regs c' = sds_regs c /\
  g_port_type w' = pt /\
  if is_utp_or_combo pt && link_up (phy_regs c) then
    phydev w' = set_link 1 d /\
    g_port_status w' = MARS_PORT_TYPE_UTP /\ selected_space c' = PRIMARY
  else if is_fiber_or_combo pt && link_up (sds_regs c) then
    phydev w' = set_link 1 d /\
    g_port_status w' = MARS_PORT_TYPE_FIBER /\ selected_space c' = SECONDARY
  else
    phydev w' =
      (if is_utp_or_combo pt || is_fiber_or_combo pt then set_link 0 d else d)
    /\ g_port_status w' = g_port_status w
    /\ selected_space c' = selected_space c.
Proof.
  destruct w as [c o t d pt ps]. unfold bus_ok.
  cbn [bus_outcomes the_chip phydev g_port_type g_port_status].
  intros Hok. cbv zeta. unfold link_up.
  unfold Rev2.mars_update_link. link_stage.
  destruct (is_utp_or_combo pt); link_stage.
  all: try (destruct (Z.land (u16 (reg (phy_regs c) MII_BMSR)) BMSR_LSTATUS =? 0);
            link_stage).
  all: destruct (is_fiber_or_combo pt); link_stage.
  all: try (destruct (Z.land (u16 (reg (sds_regs c) MII_BMSR)) BMSR_LSTATUS =? 0);
            link_stage).
  all: cbn [fst snd the_chip phydev g_port_type g_port_status];
    rewrite ?selected_space_restored, ?selected_space_restored.
  all: repeat split; try reflexivity;
    first [ exact (selected_space_page_code _ _ _ _ CTC_PHY_REG_SPACE)
          | exact (selected_space_page_code _ _ _ _ CTC_SDS_REG_SPACE) ].
Qed.

Lemma update_link_outcome_witness :
  let w := mk_world (mk_chip 0 ∅ ∅ (<[MII_BMSR := BMSR_LSTATUS]> ∅))
                    [] [] no_dev MARS_PORT_TYPE_COMBO MARS_PORT_TYPE_UTP in
  bus_ok w /\
  g_port_status (snd (Rev2.mars_update_link w)) = MARS_PORT_TYPE_FIBER /\
  selected_space (the_chip (snd (Rev2.mars_update_link w))) = SECONDARY.
Proof.
  cbv zeta. split; [apply List.Forall_nil|].
  pose proof (update_link_outcome
    (mk_world (mk_chip 0 ∅ ∅ (<[MII_BMSR := BMSR_LSTATUS]> ∅))
              [] [] no_dev MARS_PORT_TYPE_COMBO MARS_PORT_TYPE_UTP)
    (List.Forall_nil _)) as (_ & _ & _ & _ & H).
  exact (proj2 H).
Defined.

(** ** Initialisation *)

Lemma mars_page_ext_write_ok c o t d pt ps page r v :
  next_ok 8 o ->
  exists t',
    Rev2.mars_page_ext_write page r v (mk_world c o t d pt ps) =
    (0,
     mk_world
       (mk_chip CTC_MARS_PAGE_REG
          (<[CTC_MARS_PAGE_REG := Z.land (u16 (page_reg c)) 0x2]>
             (<[u16 r := u16 v]>
                (<[CTC_MARS_PAGE_REG := page_code page]> (ext c))))
          (phy_regs c) (sds_regs c))
       (drop 8 o) t' d pt ps) /\
    In (EvWrite (space_of page) 0x1f (u16 v)) t'.
Proof.
  intros H. unfold Rev2.mars_page_ext_write. run.
  rewrite !u16_page_reg, !u16_u16, page_code_land2, !drop_drop.
  cbn [Nat.add]. eexists. split; [reflexivity|].
  rewrite !selected_space_page_code.
  right. right. left. reflexivity.
Qed.

Lemma selected_space_insert_other l e p s k v :
  k <> CTC_MARS_PAGE_REG ->
  selected_space (mk_chip l (<[k := v]> e) p s) = selected_space (mk_chip l e p s).
Proof.
  intros Hk. unfold selected_space, page_reg. cbn [ext].
  rewrite reg_insert_ne by congruence. reflexivity.
Qed.

(** X15.  Programming the link timer on a working bus writes 5 to
    extended register 0xa5 while the SerDes space is selected, in both
    revisions.  The later revision then puts back the space that was
    selected before; the earlier one always leaves the PHY space
    selected. *)
Theorem link_timer_space (w : world) :
  bus_ok w ->
  let w2 := snd (Rev2.mars_set_link_timer_2_6ms w) in
  let w1 := snd (Rev1.mars_set_link_timer_2_6ms w) in
  (fst (Rev2.mars_set_link_timer_2_6ms w) = 0 /\
   reg (ext (the_chip w2)) 0xa5 = 0x5 /\
   In (EvWrite SECONDARY 0x1f 0x5) (bus_trace w2) /\
   selected_space (the_chip w2) = selected_space (the_chip w)) /\
  (fst (Rev1.mars_set_link_timer_2_6ms w) = 0 /\
   reg (ext (the_chip w1)) 0xa5 = 0x5 /\
   In (EvWrite SECONDARY 0x1f 0x5) (bus_trace w1) /\
   selected_space (the_chip w1) = PRIMARY).
Proof.
  destruct w as [c o t d pt ps]. unfold bus_ok.
  cbn [bus_outcomes the_chip]. intros Hok. cbv zeta. split.
  - unfold Rev2.mars_set_link_timer_2_6ms.
    edestruct mars_page_ext_write_ok as (t' & -> & Hin); [ok_side|].
    cbn [fst snd the_chip ext bus_trace]. split; [reflexivity|].
    split; [rewrite reg_insert_ne by neq_const; apply reg_insert_eq|].
    split; [exact Hin|].
    rewrite <- (page_code_land2 (u16 (page_reg c))).
    rewrite selected_space_page_code. apply selected_space_old_page.
  - unfold Rev1.mars_set_link_timer_2_6ms. run.
    change (0 =? 0) with true. cbv iota. run.
    cbn [fst snd the_chip ext bus_trace]. split; [reflexivity|].
    split; [rewrite reg_insert_ne by neq_const; apply reg_insert_eq|].
    split.
    + rewrite !selected_space_page_code. right. right. left. reflexivity.
    + apply (selected_space_page_code _ _ _ _ CTC_PHY_REG_SPACE).
Qed.

Lemma link_timer_space_witness :
  bus_ok (world_on_page 0x2 []) /\
  selected_space
    (the_chip (snd (Rev2.mars_set_link_timer_2_6ms (world_on_page 0x2 []))))
  = SECONDARY /\
  selected_space
    (the_chip (snd (Rev1.mars_set_link_timer_2_6ms (world_on_page 0x2 []))))
  = PRIMARY.
Proof.
  split; [apply List.Forall_nil|].
  pose proof (link_timer_space (world_on_page 0x2 []) (List.Forall_nil _))
    as [(_ & _ & _ & H2) (_ & _ & _ & H1)].
  split; [exact H2 | exact H1].
Defined.



Lemma rev2_get_port_type_ok c o t d pt ps :
  next_ok 2 o ->
  let V := Z.land (reg (ext c) CTC_MARS_CHIP_CFG_REG) 0x7 in
  exists t',
    Rev2.mars_get_port_type (mk_world c o t d pt ps) =
    (0, mk_world (mk_chip CTC_MARS_CHIP_CFG_REG (ext c) (phy_regs c) (sds_regs c))
                 (drop 2 o) t' d (port_type_of_cfg V)
                 (seeded_media (port_type_of_cfg V) ps)).
Proof.
  intros H. cbv zeta. rewrite rev2_get_port_type_eq.
  rewrite mars_ext_read_ok by assumption. cbn [fst snd].
  rewrite u16_ltb, land7_u16. eexists. reflexivity.
Qed.

Lemma truthy_land_estaten v : truthy (Z.land v BMSR_ESTATEN) = Z.testbit v 8.
Proof. exact (truthy_land_bit v 8 ltac:(lia)). Qed.

(** The descriptor after the feature mask has been applied. *)
Lemma apply_features_eq features c o t d pt ps :
  apply_features features (mk_world c o t d pt ps) =
  (tt, mk_world c o t
         (set_advertising (Z.land (advertising d) features)
            (set_supported (Z.land (supported d) features) d)) pt ps).
Proof. reflexivity. Qed.

Lemma ext_restored_other c k :
  k <> CTC_MARS_PAGE_REG -> reg (ext (restored c)) k = reg (ext c) k.
Proof. intros Hk. cbn [restored ext]. apply reg_insert_ne. congruence. Qed.

(** [mars_config_init] of the later revision once the link timer has
    been dealt with, whatever the outcome of that. *)
Lemma rev2_config_init_from c o t d pt ps r c1 o1 t1 :
  Rev2.mars_set_link_timer_2_6ms (mk_world c o t d pt ps) =
    (r, mk_world c1 o1 t1 d pt ps) ->
  Forall (fun e => 0 <= e) o1 ->
  let F := init_features (bmsr_of c1) (estatus_of c1) in
  let T := port_type_of_cfg (Z.land (reg (ext c1) CTC_MARS_CHIP_CFG_REG) 0x7) in
  exists c' o' t',
    Rev2.mars_config_init (mk_world c o t d pt ps) =
    (0, mk_world c' o' t'
          (set_advertising (Z.land (advertising d) F)
             (set_supported (Z.land (supported d) F) d))
          T (seeded_media T ps)) /\
    phy_regs c' = phy_regs c1 /\ sds_regs c' = sds_regs c1 /\
    selected_space c' = selected_space c1 /\
    (forall k, k <> CTC_MARS_PAGE_REG -> reg (ext c') k = reg (ext c1) k).
Proof.
  intros Htimer Hok. cbv zeta.
  unfold Rev2.mars_config_init. unfold bind at 1. rewrite Htimer.
  unfold bind at 1.
  rewrite mars_page_read_ok by (try ok_side; neq_const). rewrite u16_ltb.
  change (space_of CTC_PHY_REG_SPACE) with PRIMARY. cbn [bank].
  fold (bmsr_of c1). rewrite truthy_land_estaten. unfold estatus_of.
  destruct (Z.testbit (bmsr_of c1) 8).
  - unfold bind at 1.
    rewrite mars_page_read_ok by (try ok_side; neq_const). rewrite u16_ltb.
    change (space_of CTC_PHY_REG_SPACE) with PRIMARY. cbn [bank].
    rewrite phy_regs_restored.
    unfold bind at 1. rewrite apply_features_eq. unfold bind at 1.
    edestruct rev2_get_port_type_ok as [t' ->]; [ok_side|].
    rewrite !ext_restored_other by neq_const.
    unfold ret. eexists _, _, _. split; [reflexivity|].
    cbn [phy_regs sds_regs]. rewrite !phy_regs_restored, !sds_regs_restored.
    repeat split.
    + change (selected_space (restored (restored c1)) = selected_space c1).
      rewrite !selected_space_restored. reflexivity.
    + intros k Hk. cbn [ext]. rewrite !ext_restored_other by assumption.
      reflexivity.
  - unfold bind at 1. rewrite apply_features_eq. unfold bind at 1.
    edestruct rev2_get_port_type_ok as [t' ->]; [ok_side|].
    rewrite !ext_restored_other by neq_const.
    unfold ret. eexists _, _, _. split; [reflexivity|].
    cbn [phy_regs sds_regs]. rewrite !phy_regs_restored, !sds_regs_restored.
    repeat split.
    + change (selected_space (restored c1) = selected_space c1).
      rewrite !selected_space_restored. reflexivity.
    + intros k Hk. cbn [ext]. rewrite !ext_restored_other by assumption.
      reflexivity.
Qed.







(** [mars_config_init] of the earlier revision on a working bus. *)
Lemma rev1_config_init_run c o t d pt ps :
  Forall (fun e => 0 <= e) o ->
  let F := init_features (bmsr_of c) (estatus_of c) in
  exists c' o' t',
    Rev1.mars_config_init (mk_world c o t d pt ps) =
    (0, mk_world c' o' t'
          (set_advertising (Z.land (advertising d) F)
             (set_supported (Z.land (supported d) F) d)) pt ps) /\
    reg (ext c') 0xa5 = 0x5 /\
    (forall k, k <> CTC_MARS_PAGE_REG -> k <> 0xa5 ->
               reg (ext c') k = reg (ext c) k) /\
    phy_regs c' = phy_regs c /\ sds_regs c' = sds_regs c /\
    selected_space c' = PRIMARY.
Proof.
  intros Hok. cbv zeta.
  unfold Rev1.mars_config_init, Rev1.mars_set_link_timer_2_6ms. run.
  change (0 =? 0) with true. cbv iota. run.
  rewrite chip_read_banked by neq_const.
  rewrite (selected_space_page_code _ _ _ _ CTC_PHY_REG_SPACE).
  change (space_of CTC_PHY_REG_SPACE) with PRIMARY. cbn [bank phy_regs].
  fold (bmsr_of c). rewrite truthy_land_estaten. unfold estatus_of.
  destruct (Z.testbit (bmsr_of c) 8); run.
  1: rewrite chip_read_banked by neq_const;
     rewrite (selected_space_page_code _ _ _ _ CTC_PHY_REG_SPACE);
     change (space_of CTC_PHY_REG_SPACE) with PRIMARY; cbn [bank phy_regs].
  all: rewrite apply_features_eq; run;
    eexists _, _, _; (split; [reflexivity|]);
    cbn [ext phy_regs sds_regs];
    (split; [rewrite reg_insert_ne by neq_const; apply reg_insert_eq|]);
    (split; [intros k Hk1 Hk2; change (u16 165) with 165;
             rewrite !reg_insert_ne by congruence; reflexivity|]);
    (split; [reflexivity|]); (split; [reflexivity|]);
    apply (selected_space_page_code _ _ _ _ CTC_PHY_REG_SPACE).
Qed.



Lemma ext_bank_write s r v c : ext (bank_write s r v c) = ext c.
Proof. destruct s; reflexivity. Qed.

Lemma selected_space_back l e p s c0 :
  selected_space
    (mk_chip l (<[CTC_MARS_PAGE_REG := Z.land (u16 (page_reg c0)) 0x2]> e) p s)
  = selected_space c0.
Proof.
  rewrite <- (page_code_land2 (u16 (page_reg c0))).
  rewrite selected_space_page_code. apply selected_space_old_page.
Qed.

Ltac chip_norm :=
  change (u16 12) with 12; change (u16 39) with 39;
  change (u16 165) with 165;
  repeat first
    [ rewrite phy_regs_restored | rewrite phy_regs_bank_write
    | rewrite sds_regs_restored | rewrite sds_regs_bank_write
    | rewrite selected_space_restored | rewrite selected_space_bank_write
    | rewrite selected_space_back
    | rewrite reg_insert_eq
    | rewrite reg_insert_ne by neq_const
    | rewrite ext_restored_other by neq_const
    | rewrite ext_bank_write
    | progress cbn [phy_regs sds_regs ext] ].

Lemma rev2_mars1p_config_init_run c o t d pt ps :
  Forall (fun e => 0 <= e) o ->
  exists w',
    Rev2.mars1p_config_init (mk_world c o t d pt ps) = (0, w') /\
    phy_regs (the_chip w')
    = <[0xe := 0x3f]> (<[0xd := 0x4007]>
        (<[0xe := 0x8001]> (<[0xd := 0x7]> (phy_regs c)))) /\
    sds_regs (the_chip w') = sds_regs c /\
    reg (ext (the_chip w')) 0xc = 0x8051 /\
    reg (ext (the_chip w')) 0x27 = 0x2029 /\
    selected_space (the_chip w') = selected_space c.
Proof.
  intros Hok.
  assert (Hd : forall n, Forall (fun e => 0 <= e) (drop n o))
    by (intros n; apply Forall_drop, Hok).
  unfold Rev2.mars1p_config_init. unfold bind at 1.
  edestruct mars_page_ext_write_ok as (t1 & -> & _); [ok_side|].
  unfold bind at 1.
  edestruct mars_page_ext_write_ok as (t2 & -> & _); [ok_side|].
  run.
  match goal with
  | |- context [Rev2.mars_config_init (mk_world ?c6 ?o6 ?t6 _ _ _)] =>
      destruct (mars_page_ext_write_ok c6 o6 t6 d pt ps
                  CTC_SDS_REG_SPACE 0xa5 0x5) as (t7 & Htimer & _);
      [ok_side|]
  end.
  edestruct rev2_config_init_from
    as (c' & o' & t' & -> & Hphy & Hsds & Hsel & Hext);
    [exact Htimer | rewrite ?drop_drop; apply Hd |].
  eexists. split; [reflexivity|]. cbn [the_chip].
  rewrite Hphy, Hsds, Hsel, !Hext by neq_const.
  change (space_of CTC_PHY_REG_SPACE) with PRIMARY.
  chip_norm. repeat split.
Qed.

Lemma selected_space_mk l c p s :
  selected_space (mk_chip l (ext c) p s) = selected_space c.
Proof. reflexivity. Qed.

Lemma rev1_mars1p_config_init_run c o t d pt ps :
  Forall (fun e => 0 <= e) o ->
  exists w',
    Rev1.mars1p_config_init (mk_world c o t d pt ps) = (0, w') /\
    bank (the_chip w') (selected_space c)
    = <[0xe := 0x3f]> (<[0xd := 0x4007]>
        (<[0xe := 0x8001]> (<[0xd := 0x7]> (bank c (selected_space c))))) /\
    (forall s, s <> selected_space c -> bank (the_chip w') s = bank c s) /\
    reg (ext (the_chip w')) 0xc = 0x8051 /\
    reg (ext (the_chip w')) 0x27 = 0x2029 /\
    selected_space (the_chip w') = PRIMARY.
Proof.
  intros Hok.
  assert (Hd : forall n, Forall (fun e => 0 <= e) (drop n o))
    by (intros n; apply Forall_drop, Hok).
  unfold Rev1.mars1p_config_init. run.
  rewrite !chip_write_banked by neq_const.
  cbn [ext phy_regs sds_regs].
  repeat first [ rewrite selected_space_bank_write
               | rewrite selected_space_insert_other by neq_const
               | rewrite selected_space_mk ].
  edestruct rev1_config_init_run
    as (c' & o' & t' & -> & _ & Hext & Hphy & Hsds & Hsel);
    [rewrite ?drop_drop; apply Hd|].
  eexists. split; [reflexivity|]. cbn [the_chip].
  rewrite Hsel, !Hext by neq_const. rewrite !ext_bank_write. cbn [ext].
  change (u16 12) with 12. change (u16 39) with 39.
  split; [|split; [|split; [|split]]].
  - destruct (selected_space c); cbn [bank]; [rewrite Hphy | rewrite Hsds];
      reflexivity.
  - intros s Hs.
    destruct (selected_space c), s; try contradiction; cbn [bank];
      [rewrite Hsds | rewrite Hphy]; reflexivity.
  - rewrite reg_insert_ne by neq_const. apply reg_insert_eq.
  - apply reg_insert_eq.
  - reflexivity.
Qed.

(** X19.  The one-port initialisation on a working bus.  In the later
    revision its four direct register writes go to the PHY bank whatever
    space is selected at entry, and the SerDes bank is untouched.  In the
    earlier revision they are plain writes: they land in the bank that
    is selected at entry, and the other bank is untouched. *)
Theorem mars1p_config_init_banks (w : world) :
  bus_ok w ->
  let c := the_chip w in
  let c2 := the_chip (snd (Rev2.mars1p_config_init w)) in
  let c1 := the_chip (snd (Rev1.mars1p_config_init w)) in
  (fst (Rev2.mars1p_config_init w) = 0 /\
   phy_regs c2 = <[0xe := 0x3f]> (<[0xd := 0x4007]>
                   (<[0xe := 0x8001]> (<[0xd := 0x7]> (phy_regs c)))) /\
   sds_regs c2 = sds_regs c /\
   reg (ext c2) 0xc = 0x8051 /\ reg (ext c2) 0x27 = 0x2029 /\
   selected_space c2 = selected_space c) /\
  (fst (Rev1.mars1p_config_init w) = 0 /\
   bank c1 (selected_space c)
   = <[0xe := 0x3f]> (<[0xd := 0x4007]>
       (<[0xe := 0x8001]> (<[0xd := 0x7]> (bank c (selected_space c))))) /\
   (forall s, s <> selected_space c -> bank c1 s = bank c s) /\
   reg (ext c1) 0xc = 0x8051 /\ reg (ext c1) 0x27 = 0x2029 /\
   selected_space c1 = PRIMARY).
Proof.
  destruct w as [c o t d pt ps]. unfold bus_ok.
  cbn [bus_outcomes the_chip]. intros Hok. cbv zeta. split.
  - destruct (rev2_mars1p_config_init_run c o t d pt ps Hok) as (w' & -> & H).
    split; [reflexivity | exact H].
  - destruct (rev1_mars1p_config_init_run c o t d pt ps Hok) as (w' & -> & H).
    split; [reflexivity | exact H].
Qed.

Lemma mars1p_config_init_banks_witness :
  bus_ok (world_on_page 0x2 []) /\
  sds_regs (the_chip (snd (Rev2.mars1p_config_init (world_on_page 0x2 []))))
  = sds_regs (the_chip (world_on_page 0x2 [])) /\
  selected_space (the_chip (snd (Rev1.mars1p_config_init (world_on_page 0x2 []))))
  = PRIMARY.
Proof.
  split; [apply List.Forall_nil|].
  pose proof (mars1p_config_init_banks (world_on_page 0x2 [])
                (List.Forall_nil _))
    as [(_ & _ & H2 & _) (_ & _ & _ & _ & _ & H1)].
  split; [exact H2 | exact H1].
Defined.

(** ** Interrupts *)

(** X20.  [mars_config_intr] on a working bus returns 0 and writes the
    interrupt mask: 0x6c00 when interrupts are enabled in the descriptor,
    0 for any other value.  The later revision writes it to the PHY bank
    whatever space is selected and restores that space; the earlier one
    writes it to the bank that is selected. *)
Theorem config_intr_mask (interrupts : Z) (w : world) :
  bus_ok w ->
  let c := the_chip w in
  let mask := if interrupts =? PHY_INTERRUPT_ENABLED then 0x6c00 else 0x0 in
  let c2 := the_chip (snd (Rev2.mars_config_intr interrupts w)) in
  let c1 := the_chip (snd (Rev1.mars_config_intr interrupts w)) in
  (fst (Rev2.mars_config_intr interrupts w) = 0 /\
   phy_regs c2 = <[CTC_PHY_IMASK := mask]> (phy_regs c) /\
   sds_regs c2 = sds_regs c /\
   selected_space c2 = selected_space c) /\
  (fst (Rev1.mars_config_intr interrupts w) = 0 /\
   bank c1 (selected_space c)
   = <[CTC_PHY_IMASK := mask]> (bank c (selected_space c)) /\
   (forall s, s <> selected_space c -> bank c1 s = bank c s) /\
   ext c1 = ext c).
Proof.
  destruct w as [c o t d pt ps]. unfold bus_ok.
  cbn [bus_outcomes the_chip]. intros Hok. cbv zeta.
  unfold Rev2.mars_config_intr, Rev1.mars_config_intr.
  destruct (interrupts =? PHY_INTERRUPT_ENABLED).
  all: split;
    [ rewrite mars_page_write_ok by (try ok_side; neq_const);
      cbn [fst snd the_chip];
      change (space_of CTC_PHY_REG_SPACE) with PRIMARY;
      rewrite phy_regs_restored, phy_regs_bank_write, sds_regs_restored,
        sds_regs_bank_write, selected_space_restored,
        selected_space_bank_write;
      repeat split
    | rewrite phy_write_ok by ok_side;
      rewrite chip_write_banked by neq_const;
      cbn [fst snd the_chip]; rewrite ext_bank_write;
      split; [reflexivity|];
      split; [rewrite bank_bank_write_eq; reflexivity|];
      split; [intros s Hs; apply bank_bank_write_ne, Hs | reflexivity] ].
Qed.

Lemma config_intr_mask_witness :
  bus_ok (world_on_page 0x2 []) /\
  phy_regs (the_chip (snd (Rev2.mars_config_intr PHY_INTERRUPT_ENABLED
                             (world_on_page 0x2 []))))
  = <[CTC_PHY_IMASK := 0x6c00]> ∅.
Proof.
  split; [apply List.Forall_nil|].
  pose proof (config_intr_mask PHY_INTERRUPT_ENABLED (world_on_page 0x2 [])
                (List.Forall_nil _)) as [(_ & H & _) _].
  exact H.
Defined.

(** ** Autonegotiation on a copper port *)

Lemma rev2_restart_aneg_utp_run c o t d ps :
  Forall (fun e => 0 <= e) o ->
  exists c' o' t',
    Rev2.mars_restart_aneg (mk_world c o t d MARS_PORT_TYPE_UTP ps) =
    (0, mk_world c' o' t' d MARS_PORT_TYPE_UTP ps) /\
    reg (phy_regs c') MII_BMCR
    = u16 (clear_bits
             (Z.lor (u16 (reg (phy_regs c) MII_BMCR))
                (Z.lor BMCR_ANENABLE BMCR_ANRESTART)) BMCR_ISOLATE).
Proof.
  intros Hok.
  unfold Rev2.mars_restart_aneg. run.
  change (is_utp_or_combo MARS_PORT_TYPE_UTP) with true. cbv iota. run.
  change (is_fiber_or_combo MARS_PORT_TYPE_UTP) with false. cbv iota. run.
  eexists _, _, _. split; [reflexivity|].
  change (space_of CTC_PHY_REG_SPACE) with PRIMARY.
  rewrite phy_regs_restored, phy_regs_bank_write, reg_insert_eq.
  cbn [bank]. reflexivity.
Qed.

Lemma rev2_config_aneg_autoneg_utp_run c o t d ps changed c1 o1 t1 d1 :
  autoneg d = AUTONEG_ENABLE ->
  Rev2.mars_config_advert (mk_world c o t d MARS_PORT_TYPE_UTP ps) =
    (changed, mk_world c1 o1 t1 d1 MARS_PORT_TYPE_UTP ps) ->
  Forall (fun e => 0 <= e) o1 ->
  changed = 0 \/ changed = 1 ->
  reg (phy_regs c1) MII_BMCR = reg (phy_regs c) MII_BMCR ->
  let old := reg (phy_regs c) MII_BMCR in
  exists w',
    Rev2.mars1s_config_aneg (mk_world c o t d MARS_PORT_TYPE_UTP ps) = (0, w') /\
    let new := reg (phy_regs (the_chip w')) MII_BMCR in
    if (changed =? 1) || negb (Z.testbit old 12) || Z.testbit old 10 then
      forall n, 0 <= n ->
        Z.testbit new n
        = (n <? 16) &&
          (if (n =? 12) || (n =? 9) then true
           else if n =? 10 then false else Z.testbit old n)
    else new = old.
Proof.
  intros Han E Hok1 Hch Hbmcr. cbv zeta.
  unfold Rev2.mars1s_config_aneg. run.
  change (is_utp_or_combo MARS_PORT_TYPE_UTP) with true. cbv iota. run.
  rewrite Han. change (AUTONEG_ENABLE =? AUTONEG_ENABLE) with true.
  cbn [negb]. cbv iota. run. rewrite E.
  destruct Hch as [-> | ->]; run.
  - change (Z.lor 0 0 =? 0) with true. cbv iota. run.
    change (space_of CTC_PHY_REG_SPACE) with PRIMARY. cbn [bank].
    rewrite Hbmcr.
    rewrite truthy_land_anenable.
    change BMCR_ISOLATE with (2 ^ 10) at 1.
    rewrite truthy_land_bit, !u16_testbit by lia.
    change (12 <? 16) with true. change (10 <? 16) with true.
    rewrite !andb_true_r. change (0 =? 1) with false. cbn [orb].
    destruct (negb (Z.testbit (reg (phy_regs c) MII_BMCR) 12)
              || Z.testbit (reg (phy_regs c) MII_BMCR) 10) eqn:Ecase.
    + change (1 >? 0) with true. cbv iota.
      edestruct rev2_restart_aneg_utp_run as (c3 & o3 & t3 & -> & Hnew);
        [rewrite ?drop_drop; apply Forall_drop, Hok1|].
      run.
      change (is_fiber_or_combo MARS_PORT_TYPE_UTP) with false. cbv iota. run.
      eexists. split; [reflexivity|]. cbn [the_chip].
      intros n Hn. rewrite Hnew, phy_regs_restored, Hbmcr.
      apply copper_restart_testbit, Hn.
    + change (0 >? 0) with false. cbv iota. run.
      change (is_fiber_or_combo MARS_PORT_TYPE_UTP) with false. cbv iota. run.
      eexists. split; [reflexivity|]. cbn [the_chip].
      rewrite phy_regs_restored. exact Hbmcr.
  - change (Z.lor 0 1 =? 0) with false. cbv iota.
    change (Z.lor 0 1 >? 0) with true. cbv iota.
    edestruct rev2_restart_aneg_utp_run as (c3 & o3 & t3 & -> & Hnew);
      [exact Hok1|].
    run.
    change (is_fiber_or_combo MARS_PORT_TYPE_UTP) with false. cbv iota. run.
    eexists. split; [reflexivity|]. cbn [the_chip].
    change (1 =? 1) with true. cbn [orb].
    intros n Hn. rewrite Hnew, Hbmcr.
    apply copper_restart_testbit, Hn.
Qed.

(** X21.  [mars1s_config_aneg] on a copper port with autonegotiation
    enabled and a working bus returns 0.  It restarts autonegotiation
    (enable and restart bits set, isolate cleared, the other bits of the
    control register kept) exactly when the advertisement changed, or
    autonegotiation was not enabled in the control register, or the PHY
    was isolated; otherwise the control register is left as it is. *)
Theorem config_aneg_restart_condition (w : world) :
  bus_ok w ->
  g_port_type w = MARS_PORT_TYPE_UTP ->
  autoneg (phydev w) = AUTONEG_ENABLE ->
  let old := reg (phy_regs (the_chip w)) MII_BMCR in
  let changed := fst (Rev2.mars_config_advert w) in
  let new := reg (phy_regs (the_chip (snd (Rev2.mars1s_config_aneg w))))
                 MII_BMCR in
  fst (Rev2.mars1s_config_aneg w) = 0 /\
  if (changed =? 1) || negb (Z.testbit old 12) || Z.testbit old 10 then
    forall n, 0 <= n ->
      Z.testbit new n
      = (n <? 16) &&
        (if (n =? 12) || (n =? 9) then true
         else if n =? 10 then false else Z.testbit old n)
  else new = old.
Proof.
  destruct w as [c o t d pt ps]. unfold bus_ok.
  cbn [bus_outcomes the_chip phydev g_port_type]. intros Hok -> Han.
  cbv zeta.
  destruct (rev2_config_advert_ok c o t d MARS_PORT_TYPE_UTP ps Hok)
    as (c1 & o1 & t1 & d1 & changed & E & Hok1 & Hch & Hbmcr & _).
  destruct (rev2_config_aneg_autoneg_utp_run c o t d ps changed c1 o1 t1 d1
              Han E Hok1 Hch Hbmcr) as (w' & -> & H).
  rewrite E. cbn [fst snd]. split; [reflexivity | exact H].
Qed.

Lemma config_aneg_restart_condition_witness :
  let w := mk_world (mk_chip 0 ∅ (<[MII_BMCR := 0x1000]> ∅) ∅) [] []
                    (mk_phydev AUTONEG_ENABLE 0 0 0 0 0 0 0 [])
                    MARS_PORT_TYPE_UTP MARS_PORT_TYPE_UTP in
  fst (Rev2.mars1s_config_aneg w) = 0 /\
  reg (phy_regs (the_chip (snd (Rev2.mars1s_config_aneg w)))) MII_BMCR
  = 0x1000.
Proof.
  cbv zeta.
  pose proof (config_aneg_restart_condition
    (mk_world (mk_chip 0 ∅ (<[MII_BMCR := 0x1000]> ∅) ∅) [] []
              (mk_phydev AUTONEG_ENABLE 0 0 0 0 0 0 0 [])
              MARS_PORT_TYPE_UTP MARS_PORT_TYPE_UTP)
    (List.Forall_nil _) eq_refl eq_refl) as [H0 H].
  split; [exact H0 | exact H].
Defined.
